(** * Watch experiment reader: windowing, label reconciliation, K-fold indices

    Shallow embedding of [src/data/watch_exp_reader.py]
    (class [WatchExperimentDataReader]) and of the seven-to-three
    conversion table used by [tests/data/test_balanced_image_data_reader.py].

    Conventions of the embedding:
    - Python [int]s are [Z]; positions produced by [np.where] are [nat].
    - A Python exception is a value [Raise e] of the [result] type.
    - The [parameters] dictionary is a [gmap string pyval].
    - A float cell of a label array is an [npfloat]: an integral value
      or NaN (numpy stores [None] as NaN in a float array). *)

From stdpp Require Import gmap strings list sorting.
From Stdlib Require Import ZArith QArith Lia.
From Stdlib Require SpecFloat.

Local Open Scope Z_scope.

(** ** Python values, exceptions and the error monad *)

Inductive exn :=
  | AssertionError | IndexError | KeyError | TypeError | ValueError
  | InvalidArgumentError | UnknownError.

Inductive result (A : Type) := Ok (a : A) | Raise (e : exn).
Arguments Ok {A} a.
Arguments Raise {A} e.

#[global] Instance result_ret : MRet result := λ A a, Ok a.
#[global] Instance result_bind : MBind result := λ A B f m,
  match m with Ok a => f a | Raise e => Raise e end.
#[global] Instance result_fmap : FMap result := λ A B f m,
  match m with Ok a => Ok (f a) | Raise e => Raise e end.

(** The values a configuration bag holds. *)
Inductive pyval := VInt (z : Z) | VBool (b : bool) | VStr (s : string).

#[global] Instance pyval_eq_dec : EqDecision pyval.
Proof. solve_decision. Defined.

Abbreviation dict := (gmap string pyval).

(** [d.get(key, default)] *)
Definition dict_get (d : dict) (key : string) (default : pyval) : pyval :=
  match d !! key with Some v => v | None => default end.

(** An operand of integer arithmetic: [bool] is a subclass of [int], a
    string operand raises [TypeError]. *)
Definition as_int (v : pyval) : result Z :=
  match v with
  | VInt z => Ok z
  | VBool b => Ok (if b then 1 else 0)
  | VStr _ => Raise TypeError
  end.

(** Truth value of an object in a condition. *)
Definition truthy (v : pyval) : bool :=
  match v with
  | VInt z => negb (z =? 0)
  | VBool b => b
  | VStr s => match s with EmptyString => false | String _ _ => true end
  end.

(** [l[i]] with Python's negative indices. *)
Definition py_index {A} (l : list A) (i : Z) : result A :=
  let n := Z.of_nat (length l) in
  let j := if i <? 0 then i + n else i in
  if (0 <=? j) && (j <? n)
  then match l !! Z.to_nat j with Some x => Ok x | None => Raise IndexError end
  else Raise IndexError.

(** A bound of a slice [l[a:b]] brought into [0 .. len l]. *)
Definition slice_bound (len : nat) (i : Z) : nat :=
  if i <? 0 then Z.to_nat (Z.max (i + Z.of_nat len) 0)
  else Z.to_nat (Z.min i (Z.of_nat len)).

(** [l[a:b]] *)
Definition py_slice {A} (l : list A) (a b : Z) : list A :=
  let s := slice_bound (length l) a in
  let e := slice_bound (length l) b in
  take (e - s)%nat (drop s l).

(** The loop [for x in range(start, stop, step)]: the values of the
    loop variable, produced one iteration at a time. *)
Fixpoint range_loop (fuel : nat) (cur stop step : Z) : list Z :=
  match fuel with
  | O => []
  | S fuel' =>
      if (if 0 <? step then cur <? stop else stop <? cur)
      then cur :: range_loop fuel' (cur + step) stop step
      else []
  end.

(** [range(start, stop, step)]; a zero step raises [ValueError]. Every
    iteration moves [cur] towards [stop] by at least one, so
    [|stop - start|] iterations are enough (lemma [range_loop_fuel]). *)
Definition py_range (start stop step : Z) : result (list Z) :=
  if step =? 0 then Raise ValueError
  else Ok (range_loop (Z.to_nat (Z.abs (stop - start))) start stop step).

(** Running a fallible body over a list, left to right. *)
Fixpoint for_each {A B} (f : A → result (list B)) (l : list A) : result (list B) :=
  match l with
  | [] => Ok []
  | x :: l' => ys ← f x; zs ← for_each f l'; Ok (ys ++ zs)
  end.

(** ** Set tags *)

Inductive SetTag := TRAIN | VAL | TEST | ALL.

#[global] Instance SetTag_eq_dec : EqDecision SetTag.
Proof. solve_decision. Defined.

(** ** Label cells *)

(** A cell of a numpy float array that holds a class id. *)
Inductive npfloat := Num (z : Z) | NaN.

#[global] Instance npfloat_eq_dec : EqDecision npfloat.
Proof. solve_decision. Defined.

(** [x == c] for an integer [c]: NaN equals nothing. *)
Definition np_eq (x : npfloat) (c : Z) : bool :=
  match x with Num z => z =? c | NaN => false end.

(** [x != y] on two cells: NaN differs from everything. *)
Definition np_ne (x y : npfloat) : bool :=
  match x, y with Num a, Num b => negb (a =? b) | _, _ => true end.

(** ** StratifiedKFoldIndexer: [get_cross_validation_indices] *)

(** [np.where(mask)[0]] for the mask [p] over [l], positions counted
    from [i]. *)
Fixpoint np_where {A} (p : A → bool) (l : list A) (i : nat) : list nat :=
  match l with
  | [] => []
  | x :: l' => if p x then i :: np_where p l' (S i) else np_where p l' (S i)
  end.

(** [emotion_samples = np.where(self.raw_labels == c)[0]] *)
Definition class_samples (raw_labels : list npfloat) (c : Z) : list nat :=
  np_where (λ x, np_eq x c) raw_labels 0.

(** *** Double precision

    [np.linspace] computes in IEEE 754 double precision. A non-negative
    double is [mant * 2 ^ expo] for an integer [mant] of at most 53
    significant bits, and an operation returns the double nearest to
    its exact result, a tie going to the even mantissa. Operands below
    [2 ^ 512] reach neither the overflow nor the subnormal numbers, and
    the exponent range is left out. *)
Record float64 := Float64 { mant : Z; expo : Z }.

(** [p / q] rounded to the nearest integer, a tie to the even one. *)
Definition round_half_even (p q : Z) : Z :=
  let d := p / q in
  let r := p `mod` q in
  if 2 * r <? q then d
  else if q <? 2 * r then d + 1
  else if Z.even d then d else d + 1.

(** The integer [N ≥ 0] rounded to 53 significant bits: the [s] low
    bits that do not fit are rounded away. *)
Definition round53 (N : Z) : Z :=
  let s := Z.log2 N - 52 in
  if s <=? 0 then N else round_half_even N (2 ^ s) * 2 ^ s.

(** [float(z)] *)
Definition float_of_int (z : Z) : float64 := Float64 (round53 z) 0.

(** [x * y] *)
Definition fl_mul (x y : float64) : float64 :=
  Float64 (round53 (mant x * mant y)) (expo x + expo y).

(** The quotient [p / (q * 2 ^ e)] as a fraction of two integers. *)
Definition scaled (p q e : Z) : Z * Z :=
  (p * 2 ^ Z.max 0 (- e), q * 2 ^ Z.max 0 e).

(** [p / q] rounded to 53 significant bits: [e] is the exponent for
    which [p / (q * 2 ^ e)] lies between [2 ^ 52] and [2 ^ 53]. *)
Definition round53_ratio (p q : Z) : float64 :=
  if p =? 0 then Float64 0 0
  else
    let e0 := Z.log2 p - Z.log2 q - 52 in
    let '(a0, b0) := scaled p q e0 in
    let e := if a0 <? 2 ^ 52 * b0 then e0 - 1 else e0 in
    let '(a, b) := scaled p q e in
    Float64 (round_half_even a b) e.

(** [x / y] *)
Definition fl_div (x y : float64) : float64 :=
  let f := round53_ratio (mant x) (mant y) in
  Float64 (mant f) (expo f + expo x - expo y).

(** [x.astype(int)]: the fractional part is dropped. *)
Definition astype_int (x : float64) : Z :=
  if 0 <=? expo x then mant x * 2 ^ expo x else mant x / 2 ^ (- expo x).

(** [np.linspace(0, stop, num).astype(int)] for an integer [stop ≥ 0],
    after numpy's [linspace]: [y = arange(0, num)] is multiplied by
    [step = delta / div] (by [delta] when [div] is 0), the last entry is
    set to [stop] when there are at least two, and a negative [num] is
    refused. When [step] is 0 numpy takes [(y / div) * delta], which is
    0 like [y * step]; adding [start = 0.0] changes nothing. *)
Definition linspace_int (stop num : Z) : result (list Z) :=
  if num <? 0 then Raise ValueError
  else
    let div := num - 1 in
    let delta := float_of_int stop in
    let y := (λ k : nat, float_of_int (Z.of_nat k)) <$> seq 0 (Z.to_nat num) in
    let y :=
      if 0 <? div then
        let step := fl_div delta (float_of_int div) in
        (λ x, fl_mul x step) <$> y
      else (λ x, fl_mul x delta) <$> y in
    let y := if 1 <? num then <[Z.to_nat (num - 1) := delta]> y else y in
    Ok (astype_int <$> y).

(** [emotion_samples[borders[split - 1] : borders[split]]] *)
Definition take_split (emotion_samples : list nat) (borders : list Z)
    (split : Z) : result (list nat) :=
  lo ← py_index borders (split - 1);
  hi ← py_index borders split;
  Ok (py_slice emotion_samples lo hi).

(** The [k - 1 if k == 0 else k] correction of the VAL and TRAIN branches. *)
Definition zero_to_minus_one (split : Z) : Z :=
  if split =? 0 then split - 1 else split.

(** Body of the loop [for emotion_index in range(7)]: what one class
    adds to [all_indices]. *)
Definition class_indices (raw_labels : list npfloat) (which_set : SetTag)
    (cv_portions cv_index emotion_index : Z) : result (list nat) :=
  let emotion_samples := class_samples raw_labels emotion_index in
  borders ← linspace_int (Z.of_nat (length emotion_samples)) (cv_portions + 1);
  match which_set with
  | TEST =>
      let test_split := cv_portions - cv_index in
      take_split emotion_samples borders test_split
  | VAL =>
      let val_split := (cv_portions - 1 - cv_index) `mod` cv_portions in
      let val_split := zero_to_minus_one val_split in
      take_split emotion_samples borders val_split
  | TRAIN =>
      r ← py_range 1 (cv_portions - 1) 1;
      for_each (λ i,
        let train_split := (i - cv_index) `mod` cv_portions in
        let train_split := zero_to_minus_one train_split in
        take_split emotion_samples borders train_split) r
  | ALL => Ok []
  end.

(** Lines 124-165: the path of a call whose [which_set] is not [ALL]. *)
Definition fold_indices (raw_labels : list npfloat) (which_set : SetTag)
    (parameters : dict) : result (list nat) :=
  cv_portions ← as_int (dict_get parameters "cv_splits" (VInt 5));
  cv_index ← as_int (dict_get parameters "cv_index" (VInt 0));
  if (cv_index <=? cv_portions - 1) && (0 <=? cv_index) then
    r ← py_range 0 7 1;
    all_indices ← for_each (class_indices raw_labels which_set cv_portions cv_index) r;
    Ok (merge_sort Nat.le all_indices)
  else Raise AssertionError.

(** The loop of the [ALL] branch: [cv_params] (the deep copy) and
    [indices] are the loop's state. *)
Fixpoint all_loop (raw_labels : list npfloat) (cv_params : dict)
    (indices : list nat) (r : list Z) : result (list nat) :=
  match r with
  | [] => Ok indices
  | cv_index :: r' =>
      let cv_params := <["cv_index" := VInt cv_index]> cv_params in
      test ← fold_indices raw_labels TEST cv_params;
      all_loop raw_labels cv_params (indices ++ test) r'
  end.

(** [get_cross_validation_indices(which_set, parameters)], reading
    [self.raw_labels]. The [ALL] branch works on [cv_params], a deep copy
    of [parameters], so the caller's dictionary is only read; its
    recursive calls are calls of the [TEST] path. *)
Definition get_cross_validation_indices (raw_labels : list npfloat)
    (which_set : SetTag) (parameters : dict) : result (list nat) :=
  match which_set with
  | ALL =>
      cv_portions ← as_int (dict_get parameters "cv_splits" (VInt 5));
      r ← py_range 0 cv_portions 1;
      all_loop raw_labels parameters [] r
  | _ => fold_indices raw_labels which_set parameters
  end.

(** ** The reader and its files *)

(** A row of a watch CSV file: the [Second] column, the five raw
    feature columns and their five [*Norm] counterparts. *)
Record csv_row := CsvRow { Second : Z; Raw : list Q; Norm : list Q }.

(** An entry of a ground-truth JSON file: [["undefined"]] or the
    mapping from emotion names to probabilities. *)
Inductive face_entry := Undefined | Probs (m : gmap string Q).

(** One window: [window] rows of five cells. *)
Abbreviation sample := (list (list Q)).

(** What [WatchExperimentDataReader] reads from outside this file.
    [emotions], [emotion_labels], [emotion_times] and
    [get_complete_data_indices()] belong to the base class
    [ExperimentDataReader]; [watch_file emotion part_id] is the content
    of the first CSV the glob of [get_raw_data] finds (if any) and
    [ground_truth_file gt_folder experiment_index] the parsed content of
    the first JSON the glob of [get_raw_faceapi_labels] finds;
    [emotion_times] lists the items of the dictionary in order, with
    [int(times["start"])] and [int(times["end"])]; [tf_shuffle] is the
    order [dataset.shuffle(1024)] happens to produce. *)
Record Reader := {
  folder : string;
  default_label_mode : string;
  emotions : list string;
  emotion_labels : gmap string Z;
  emotion_times : list (string * (Z * Z));
  complete_data_indices : list Z;
  watch_file : string → Z → option (list csv_row);
  ground_truth_file : string → Z → option (list (Q * face_entry));
  tf_shuffle : list (sample * list Z) → list (sample * list Z);
}.

(** ** GroundTruthResolver: [get_raw_labels] *)

(** [np.zeros((rows, cols))] *)
Definition np_zeros (rows cols : nat) : list (list npfloat) :=
  replicate rows (replicate cols (Num 0)).

(** [row[a:b] = v] for a scalar [v]: the cells of the slice are
    overwritten, the length stays. *)
Definition slice_assign {A} (row : list A) (a b : Z) (v : A) : list A :=
  let s := slice_bound (length row) a in
  let e := slice_bound (length row) b in
  take s row ++ replicate (e - s) v ++ drop (s + (e - s)) row.

(** The loop of [get_raw_expected_labels] over [emotion_times.items()]. *)
Fixpoint expected_loop (rd : Reader) (labels : list (list npfloat))
    (items : list (string * (Z * Z))) : result (list (list npfloat)) :=
  match items with
  | [] => Ok labels
  | (emotion, (t_start, t_end)) :: items' =>
      let start_time := if t_start =? 0 then 0 else t_start + 1 in
      match emotion_labels rd !! emotion with
      | None => Raise KeyError
      | Some v =>
          expected_loop rd
            ((λ row, slice_assign row start_time t_end (Num v)) <$> labels) items'
      end
  end.

Definition get_raw_expected_labels (rd : Reader) : result (list (list npfloat)) :=
  expected_loop rd (np_zeros (length (complete_data_indices rd)) 690)
    (emotion_times rd).

Definition emotions_sorted : list string :=
  ["angry"; "surprised"; "disgusted"; "happy"; "fearful"; "sad"; "neutral"].

(** [int(float(time))]: the fractional part is dropped. *)
Definition int_of_float (q : Q) : Z := Z.quot (Qnum q) (Z.pos (Qden q)).

(** [[emotion_probs[0][emotion] for emotion in emotions_sorted]] *)
Fixpoint probs_sorted (m : gmap string Q) (names : list string) : result (list Q) :=
  match names with
  | [] => Ok []
  | emotion :: names' =>
      match m !! emotion with
      | None => Raise KeyError
      | Some p => ps ← probs_sorted m names'; Ok (p :: ps)
      end
  end.

(** [np.argmax]: the first position of the largest entry. *)
Fixpoint argmax_from {A} (ltb : A → A → bool) (best : A) (best_i i : nat)
    (l : list A) : nat :=
  match l with
  | [] => best_i
  | x :: l' =>
      if ltb best x then argmax_from ltb x i (S i) l'
      else argmax_from ltb best best_i (S i) l'
  end.

Definition np_argmax {A} (ltb : A → A → bool) (l : list A) : nat :=
  match l with
  | [] => 0%nat
  | x :: l' => argmax_from ltb x 0 1 l'
  end.

Definition Qltb (x y : Q) : bool := negb (Qle_bool y x).

(** [labels[r, c] = v] *)
Definition set_cell (labels : list (list npfloat)) (r : nat) (c : Z)
    (v : npfloat) : result (list (list npfloat)) :=
  match labels !! r with
  | None => Raise IndexError
  | Some row =>
      let n := Z.of_nat (length row) in
      let j := if c <? 0 then c + n else c in
      if (0 <=? j) && (j <? n)
      then Ok (<[r := <[Z.to_nat j := v]> row]> labels)
      else Raise IndexError
  end.

(** The loop over the entries of one ground-truth file; [previous] is
    [None] until the first defined entry, and numpy stores [None] as NaN. *)
Fixpoint trace_loop (labels : list (list npfloat)) (file_index : nat)
    (previous : option nat) (raw_emotions : list (Q * face_entry))
    : result (list (list npfloat)) :=
  match raw_emotions with
  | [] => Ok labels
  | (time, emotion_probs) :: rest =>
      let time_index := int_of_float time - 1 in
      match emotion_probs with
      | Probs m =>
          emotion_probs_sorted ← probs_sorted m emotions_sorted;
          let label := np_argmax Qltb emotion_probs_sorted in
          labels' ← set_cell labels file_index time_index (Num (Z.of_nat label));
          trace_loop labels' file_index (Some label) rest
      | Undefined =>
          let label := match previous with
                       | Some l => Num (Z.of_nat l)
                       | None => NaN
                       end in
          labels' ← set_cell labels file_index time_index label;
          trace_loop labels' file_index previous rest
      end
  end.

(** The loop [for file_index, experiment_index in enumerate(data_indices)]. *)
Fixpoint faceapi_loop (rd : Reader) (gt_folder : string)
    (labels : list (list npfloat)) (file_index : nat)
    (data_indices : list Z) : result (list (list npfloat)) :=
  match data_indices with
  | [] => Ok labels
  | experiment_index :: rest =>
      match ground_truth_file rd gt_folder experiment_index with
      | None => Raise IndexError
      | Some raw_emotions =>
          labels' ← trace_loop labels file_index None raw_emotions;
          faceapi_loop rd gt_folder labels' (S file_index) rest
      end
  end.

Definition get_raw_faceapi_labels (rd : Reader) : result (list (list npfloat)) :=
  let data_indices := complete_data_indices rd in
  let labels := np_zeros (length data_indices) 690 in
  if String.prefix "tests" (folder rd)
  then faceapi_loop rd "tests/test_data/ground_truth" labels 0 [5]
  else faceapi_loop rd "data/ground_truth" labels 0 data_indices.

(** [expected[expected != faceapi] = -1] on two arrays of one shape. *)
Definition reconcile (expected faceapi : list (list npfloat)) : list (list npfloat) :=
  zip_with (zip_with (λ e f, if np_ne e f then Num (-1) else e)) expected faceapi.

Definition get_raw_labels (rd : Reader) (label_mode : pyval)
    : result (list (list npfloat)) :=
  let raw_labels := np_zeros (length (complete_data_indices rd)) 690 in
  raw_labels ←
    (if decide (label_mode = VStr "expected") then get_raw_expected_labels rd
     else if decide (label_mode = VStr "faceapi") then get_raw_faceapi_labels rd
     else if decide (label_mode = VStr "both") then
       expected ← get_raw_expected_labels rd;
       faceapi ← get_raw_faceapi_labels rd;
       Ok (reconcile expected faceapi)
     else Ok raw_labels);
  Ok (fmap (M:=list) (λ row : list npfloat, py_slice row 0 614) raw_labels).

(** ** WindowedTimeSeriesLoader: [get_raw_data] *)

(** [l.index(x)] *)
Fixpoint list_index (x : Z) (l : list Z) : result nat :=
  match l with
  | [] => Raise ValueError
  | y :: l' => if x =? y then Ok 0%nat else S <$> list_index x l'
  end.

(** [a[mask]] for a boolean mask as long as [a]. *)
Fixpoint np_mask {A} (a : list A) (mask : list bool) : list A :=
  match a, mask with
  | x :: a', b :: mask' => if b then x :: np_mask a' mask' else np_mask a' mask'
  | _, _ => []
  end.

(** Lines 349-350: [all_labels[index, seconds.values[second][0]]] with
    [index] the position of [part_id] among the participants. *)
Definition window_label (rd : Reader) (all_labels : list (list npfloat))
    (part_id : Z) (seconds : list Z) (second : Z) : result npfloat :=
  index ← list_index part_id (complete_data_indices rd);
  s ← py_index seconds second;
  row ← py_index all_labels (Z.of_nat index);
  py_index row s.

(** Lines 348-357: the loop [for second in range(window, len(data), hop)]
    over one file; [part_data] and [part_labels] are the loop's state. *)
Fixpoint windows_loop (rd : Reader) (all_labels : list (list npfloat))
    (part_id window : Z) (data : sample) (seconds : list Z)
    (part_data : list sample) (part_labels : list npfloat) (r : list Z)
    : result (list sample * list npfloat) :=
  match r with
  | [] => Ok (part_data, part_labels)
  | second :: r' =>
      label ← window_label rd all_labels part_id seconds second;
      let sample := py_slice data (second - window) second in
      windows_loop rd all_labels part_id window data seconds
        (part_data ++ [sample]) (part_labels ++ [label]) r'
  end.

(** Lines 344-357: the windows one present file adds. *)
Definition file_windows (rd : Reader) (all_labels : list (list npfloat))
    (part_id window : Z) (hop : pyval) (normalize : bool) (file : list csv_row)
    (part_data : list sample) (part_labels : list npfloat)
    : result (list sample * list npfloat) :=
  let data := (if normalize then Norm else Raw) <$> file in
  let seconds := Second <$> file in
  hop ← as_int hop;
  r ← py_range window (Z.of_nat (length data)) hop;
  windows_loop rd all_labels part_id window data seconds part_data part_labels r.

(** The loop [for emotion in self.emotions]; a missing file warns and
    is skipped. *)
Fixpoint emotions_loop (rd : Reader) (all_labels : list (list npfloat))
    (part_id window : Z) (hop : pyval) (normalize : bool)
    (part_data : list sample) (part_labels : list npfloat)
    (ems : list string) : result (list sample * list npfloat) :=
  match ems with
  | [] => Ok (part_data, part_labels)
  | emotion :: ems' =>
      match watch_file rd emotion part_id with
      | None =>
          emotions_loop rd all_labels part_id window hop normalize
            part_data part_labels ems'
      | Some file =>
          '(part_data', part_labels') ←
            file_windows rd all_labels part_id window hop normalize file
              part_data part_labels;
          emotions_loop rd all_labels part_id window hop normalize
            part_data' part_labels' ems'
      end
  end.

(** The loop [for part_id in self.get_complete_data_indices()]. *)
Fixpoint participants_loop (rd : Reader) (all_labels : list (list npfloat))
    (window : Z) (hop : pyval) (normalize : bool)
    (raw_data : list sample) (raw_labels : list npfloat)
    (parts : list Z) : result (list sample * list npfloat) :=
  match parts with
  | [] => Ok (raw_data, raw_labels)
  | part_id :: parts' =>
      '(part_data, part_labels) ←
        emotions_loop rd all_labels part_id window hop normalize [] []
          (emotions rd);
      let keep := (λ l, np_ne l (Num (-1))) <$> part_labels in
      if Z.of_nat (length part_data) * window * 5 =? 0
      then participants_loop rd all_labels window hop normalize
             raw_data raw_labels parts'
      else participants_loop rd all_labels window hop normalize
             (raw_data ++ np_mask part_data keep)
             (raw_labels ++ np_mask part_labels keep) parts'
  end.

(** [get_raw_data(parameters)]: the pair it stores in [self.raw_data]
    and [self.raw_labels]. [np.empty((0, window, 5))] refuses a negative
    [window]. *)
Definition get_raw_data (rd : Reader) (parameters : dict)
    : result (list sample * list npfloat) :=
  let window := dict_get parameters "window" (VInt 20) in
  let normalize := dict_get parameters "normalize" (VBool true) in
  let hop := dict_get parameters "hop" (VInt 5) in
  all_labels ← get_raw_labels rd
    (dict_get parameters "label_mode" (VStr (default_label_mode rd)));
  window ← as_int window;
  if window <? 0 then Raise ValueError
  else participants_loop rd all_labels window hop (truthy normalize) [] []
         (complete_data_indices rd).

(** ** DatasetAssembler: [get_seven_emotion_data] and [get_labels] *)

(** [tf.keras.utils.to_categorical(np.array(label), num_classes)]: the
    label is cast to an integer and used as an index (a negative one
    counts from the end) into a row of zeros. The cast of NaN is taken
    as on x86-64, where it gives the most negative integer, which is out
    of range. *)
Definition to_categorical (label : npfloat) (num_classes : nat) : result (list Z) :=
  match label with
  | NaN => Raise IndexError
  | Num y =>
      let n := Z.of_nat num_classes in
      let j := if y <? 0 then y + n else y in
      if (0 <=? j) && (j <? n)
      then Ok (<[Z.to_nat j := 1]> (replicate num_classes 0))
      else Raise IndexError
  end.

(** The loop of the generator over [indices]: the samples it yields. *)
Fixpoint generator_loop (raw_data : list sample) (raw_labels : list npfloat)
    (indices : list nat) : result (list (sample * list Z)) :=
  match indices with
  | [] => Ok []
  | data_index :: rest =>
      data ← py_index raw_data (Z.of_nat data_index);
      label ← py_index raw_labels (Z.of_nat data_index);
      one_hot ← to_categorical label 7;
      more ← generator_loop raw_data raw_labels rest;
      Ok ((data, one_hot) :: more)
  end.

(** [get_data_generator(which_set, parameters)()]: everything one run
    of the generator yields, reading [self.raw_data], [self.raw_labels]. *)
Definition get_data_generator (raw_data : list sample) (raw_labels : list npfloat)
    (which_set : SetTag) (parameters : dict) : result (list (sample * list Z)) :=
  indices ← get_cross_validation_indices raw_labels which_set parameters;
  generator_loop raw_data raw_labels indices.

(** [tf.data.Dataset.from_generator] runs the generator inside
    TensorFlow, which reports a Python exception of the generator as one
    of its own errors. *)
Definition py_func_error (e : exn) : exn :=
  match e with
  | TypeError | ValueError => InvalidArgumentError
  | _ => UnknownError
  end.

Definition from_generator {A} (run : result A) : result A :=
  match run with
  | Ok a => Ok a
  | Raise e => Raise (py_func_error e)
  end.

(** [dataset.batch(n)]: groups of [n] consecutive elements, the last
    one possibly shorter; a batch is the pair of the stacked features
    and the stacked labels. *)
Fixpoint batch_loop {A} (fuel n : nat) (l : list A) : list (list A) :=
  match fuel with
  | O => []
  | S fuel' =>
      match l with
      | [] => []
      | _ => take n l :: batch_loop fuel' n (drop n l)
      end
  end.

Abbreviation batch := (list sample * list (list Z))%type.

Definition tf_batch (batch_size : nat) (l : list (sample * list Z)) : list batch :=
  (λ group : list (sample * list Z), (fst <$> group, snd <$> group))
    <$> batch_loop (length l) batch_size l.

(** Dictionary objects live in a store; a [parameters] argument is
    [None] or the address of a dictionary. *)
Abbreviation loc := nat.
Abbreviation heap := (gmap nat (gmap string pyval)).

(** [parameters or {}]: the object passed when it is a non-empty
    dictionary, a new empty dictionary otherwise. *)
Definition or_empty_dict (h : heap) (parameters : option loc) : heap * loc :=
  let l' := fresh (dom h) in
  match parameters with
  | Some l => if decide (h !!! l = (∅ : dict)) then (<[l' := ∅]> h, l') else (h, l)
  | None => (<[l' := ∅]> h, l')
  end.

(** [get_seven_emotion_data(which_set, batch_size, parameters)]: the
    store after the call, and the batches the returned dataset yields
    when it is iterated (an exception of the generator surfaces then).
    The callees receive the dictionary object and only read it. *)
Definition get_seven_emotion_data (rd : Reader) (h : heap) (which_set : SetTag)
    (batch_size : Z) (parameters : option loc) : heap * result (list batch) :=
  let '(h, parameters) := or_empty_dict h parameters in
  let d : dict := h !!! parameters in
  (h,
   raw ← get_raw_data rd d;
   let default := VBool (bool_decide (which_set = TRAIN)) in
   let shuffle := truthy (dict_get d "shuffle" default) in
   if batch_size <=? 0 then Raise InvalidArgumentError
   else
     samples ← from_generator (get_data_generator raw.1 raw.2 which_set d);
     let samples := if shuffle then tf_shuffle rd samples else samples in
     Ok (tf_batch (Z.to_nat batch_size) samples)).

(** The loop of [get_labels] over the batches of the dataset. *)
Fixpoint labels_loop (labels : list nat) (dataset : list batch) : list nat :=
  match dataset with
  | [] => labels
  | (_, batch_labels) :: rest =>
      labels_loop (labels ++ (np_argmax Z.ltb <$> batch_labels)) rest
  end.

(** [get_labels(which_set, parameters)]: the store after the call and
    the label vector. *)
Definition get_labels (rd : Reader) (h : heap) (which_set : SetTag)
    (parameters : option loc) : heap * result (list nat) :=
  let '(h, parameters) := or_empty_dict h parameters in
  let h := <[parameters := <["shuffle" := VBool false]> (h !!! parameters)]> h in
  let '(h, dataset) := get_seven_emotion_data rd h which_set 100 (Some parameters) in
  (h, batches ← dataset; Ok (labels_loop [] batches)).

(** ** LabelTaxonomy: the seven-to-three conversion *)

(** [conversion_dict] of [test_reading_three]. *)
Definition conversion_dict : gmap Z Z :=
  list_to_map [(0, 2); (1, 0); (2, 2); (3, 0); (4, 2); (5, 2); (6, 1)].

Definition seven_classes : list Z := [0; 1; 2; 3; 4; 5; 6].

(** ** Reference notions for the statements *)

(** The number of iterations of an ascending loop. *)
Definition range_count (start stop step : Z) : nat :=
  Z.to_nat ((stop - start + step - 1) / step).

(** The array [borders] of a class of [n] samples cut in [K] folds. *)
Definition borders_of (n : nat) (K : Z) : list Z :=
  match linspace_int (Z.of_nat n) (K + 1) with
  | Ok borders => borders
  | Raise _ => []
  end.

(** The doubles of the Standard Library's specification of IEEE 754
    arithmetic ([SpecFloat], precision 53, exponents below 1024), and
    [np.linspace(0, stop, num).astype(int)] computed with them. *)
Definition ieee_of_int (z : Z) : SpecFloat.spec_float :=
  SpecFloat.binary_normalize 53 1024 z 0 false.

Definition ieee_astype_int (x : SpecFloat.spec_float) : Z :=
  match x with
  | SpecFloat.S754_finite false m e =>
      if 0 <=? e then Z.pos m * 2 ^ e else Z.pos m / 2 ^ (- e)
  | _ => 0
  end.

Definition ieee_linspace_int (stop num : Z) : list Z :=
  let div := num - 1 in
  let delta := ieee_of_int stop in
  let y := (λ k : nat, ieee_of_int (Z.of_nat k)) <$> seq 0 (Z.to_nat num) in
  let y :=
    if 0 <? div then
      let step := SpecFloat.SFdiv 53 1024 delta (ieee_of_int div) in
      (λ x, SpecFloat.SFmul 53 1024 x step) <$> y
    else (λ x, SpecFloat.SFmul 53 1024 x delta) <$> y in
  let y := if 1 <? num then <[Z.to_nat (num - 1) := delta]> y else y in
  ieee_astype_int <$> y.

(** [linspace_int] and [ieee_linspace_int] give the same posts for
    [stop] and for every number of folds in [folds]. *)
Definition same_posts (stop : Z) (folds : list Z) : bool :=
  forallb (λ K,
    match linspace_int stop (K + 1) with
    | Ok borders => bool_decide (borders = ieee_linspace_int stop (K + 1))
    | Raise _ => false
    end) folds.

(** The fence post [k] of a class of [n] samples cut in [K] folds:
    [k * (n / K)] in double precision for [k < K], and [n] for [k = K]. *)
Definition fence (n : nat) (K : Z) (k : nat) : nat :=
  let stop := float_of_int (Z.of_nat n) in
  Z.to_nat (astype_int
    (if Z.of_nat k =? K then stop
     else fl_mul (float_of_int (Z.of_nat k)) (fl_div stop (float_of_int K)))).

(** The fold slice [k], for [k] in [1 .. K], of the class [c]: the
    samples at the positions [borders[k-1]] to [borders[k] - 1], both
    posts counted from the front of [borders]. *)
Definition fold_slice (raw_labels : list npfloat) (K c : Z) (k : nat) : list nat :=
  let emotion_samples := class_samples raw_labels c in
  let borders := borders_of (length emotion_samples) K in
  match borders !! (k - 1)%nat, borders !! k with
  | Some lo, Some hi =>
      take (Z.to_nat hi - Z.to_nat lo) (drop (Z.to_nat lo) emotion_samples)
  | _, _ => []
  end.

(** The fold a corrected split [m] selects: [m] itself, or the last
    fold [K] when [m] is 0. *)
Definition corrected_fold (K m : Z) : nat :=
  Z.to_nat (if m =? 0 then K else m).

(** The seven classes a three-class label comes from. *)
Definition preimage (c3 : Z) : list Z :=
  filter (λ c, conversion_dict !! c = Some c3) seven_classes.

Definition uniform_seven (c : Z) : Q := 1 # 7.

(** The weight a distribution [p] over the seven classes gives to the
    three-class label [c3] once pushed through [conversion_dict]. *)
Definition push_forward (p : Z → Q) (c3 : Z) : Q :=
  foldr Qplus 0%Q (p <$> preimage c3).

(** The label sequence seen when a dataset is iterated: the argmax of
    every one-hot row, batch after batch. *)
Definition observed_labels (dataset : list batch) : list nat :=
  concat ((λ b : batch, np_argmax Z.ltb <$> b.2) <$> dataset).

(** A class id of the seven-emotion taxonomy. *)
Definition is_class (x : npfloat) : Prop := ∃ z, x = Num z ∧ 0 ≤ z ≤ 6.

(** The fold numbers a split takes from every class, for valid
    [cv_splits = K] and [cv_index = i] (section 4.3 of the design). *)
Definition selected_folds (which_set : SetTag) (K i : Z) : list nat :=
  match which_set with
  | TEST => [Z.to_nat (K - i)]
  | VAL => [corrected_fold K ((K - 1 - i) `mod` K)]
  | TRAIN =>
      (λ j : nat, corrected_fold K ((Z.of_nat j - i) `mod` K))
        <$> seq 1 (Z.to_nat (K - 2))
  | ALL => []
  end.

(** The per-class selections of a split, class after class, before the sort. *)
Definition selection (raw_labels : list npfloat) (which_set : SetTag)
    (K i : Z) : list nat :=
  concat ((λ c, concat (fold_slice raw_labels K c <$> selected_folds which_set K i))
            <$> seven_classes).

(** The TEST list of the fold [cv_index = i]. *)
Definition test_fold (raw_labels : list npfloat) (K i : Z) : list nat :=
  merge_sort Nat.le (selection raw_labels TEST K i).

(** [parameters.get("cv_splits", 5)] and [parameters.get("cv_index", 0)]
    as integers. *)
Definition cv_splits_of (parameters : dict) : result Z :=
  as_int (dict_get parameters "cv_splits" (VInt 5)).

Definition cv_index_of (parameters : dict) : result Z :=
  as_int (dict_get parameters "cv_index" (VInt 0)).

(** A small reader for the examples: one participant (id 1), one
    emotion, a schedule of two seconds of class 3 followed by class 5,
    and a watch file of [n] rows whose [Second] column counts from 0. *)
Definition example_row (s : nat) : csv_row :=
  CsvRow (Z.of_nat s) [inject_Z (Z.of_nat s); 0; 0; 0; 0]%Q
         [inject_Z (Z.of_nat s); 1; 1; 1; 1]%Q.

Definition example_reader (n : nat) : Reader := {|
  folder := "data/watch";
  default_label_mode := "expected";
  emotions := ["happy"];
  emotion_labels := <["happy" := 3]> (<["sad" := 5]> ∅);
  emotion_times := [("happy", (0, 2)); ("sad", (1, 614))];
  complete_data_indices := [1];
  watch_file := λ emotion part_id,
    if decide (emotion = "happy" ∧ part_id = 1)
    then Some (example_row <$> seq 0 n) else None;
  ground_truth_file := λ _ _, Some [(1%Q, Probs (list_to_map
    [("angry", 0%Q); ("surprised", 0%Q); ("disgusted", 0%Q); ("happy", 1%Q);
     ("fearful", 0%Q); ("sad", 0%Q); ("neutral", 0%Q)]));
     (2%Q, Undefined); (3%Q, Undefined)];
  tf_shuffle := reverse;
|}.

(** A cell of a reconciled array: the sentinel or a class id. *)
Definition sentinel_or_class (x : npfloat) : Prop := x = Num (-1) ∨ is_class x.

(** The state of the loops over one participant, for a property [P]
    of the cells of the label array: as many labels as windows, every
    label with [P]. *)
Definition part_ok (P : npfloat → Prop) (part : list sample * list npfloat) : Prop :=
  length part.1 = length part.2 ∧ Forall P part.2.

(** The state of the loop over the participants: as many labels as
    windows, every label with [P] and different from the sentinel. *)
Definition raw_ok (P : npfloat → Prop) (raw : list sample * list npfloat) : Prop :=
  length raw.1 = length raw.2
  ∧ Forall (λ l, P l ∧ np_ne l (Num (-1)) = true) raw.2.

(** The windows [get_raw_data] emits, each with the label read for
    it, before the mask [part_labels != -1] is applied: for every
    participant with a non-empty [part_data], in order, what the loop
    over the emotions has collected. *)
Fixpoint emitted_loop (rd : Reader) (all_labels : list (list npfloat))
    (window : Z) (hop : pyval) (normalize : bool) (parts : list Z)
    : result (list (sample * npfloat)) :=
  match parts with
  | [] => Ok []
  | part_id :: parts' =>
      '(part_data, part_labels) ←
        emotions_loop rd all_labels part_id window hop normalize [] []
          (emotions rd);
      rest ← emitted_loop rd all_labels window hop normalize parts';
      Ok ((if Z.of_nat (length part_data) * window * 5 =? 0 then []
           else zip part_data part_labels) ++ rest)
  end.

Definition emitted_windows (rd : Reader) (parameters : dict)
    : result (list (sample * npfloat)) :=
  let window := dict_get parameters "window" (VInt 20) in
  let normalize := dict_get parameters "normalize" (VBool true) in
  let hop := dict_get parameters "hop" (VInt 5) in
  all_labels ← get_raw_labels rd
    (dict_get parameters "label_mode" (VStr (default_label_mode rd)));
  window ← as_int window;
  if window <? 0 then Raise ValueError
  else emitted_loop rd all_labels window hop (truthy normalize)
         (complete_data_indices rd).

(** The content of the dictionary a [parameters] argument stands for
    ([None] stands for no entries). *)
Definition dict_of (h : heap) (parameters : option loc) : dict :=
  match parameters with
  | Some l => h !!! l
  | None => ∅
  end.

(** The argmax of every one-hot label the generator yields for the
    dictionary content [d], in the order it yields them. *)
Definition stream_labels (rd : Reader) (which_set : SetTag) (d : dict)
    : result (list nat) :=
  raw ← get_raw_data rd d;
  samples ← from_generator (get_data_generator raw.1 raw.2 which_set d);
  Ok (fmap (M:=list) (np_argmax Z.ltb) (fmap (M:=list) snd samples)).

(** ** Further functions and reference notions *)

(** The fold that the offset [j] selects for [cv_index = i]: the
    corrected value of [(j - i) % K]. The TEST branch is the offset 0,
    the VAL branch the offset [K - 1], the TRAIN loop the offsets
    [1 .. K - 2]. *)
Definition fold_of_offset (K i j : Z) : nat :=
  corrected_fold K ((j - i) `mod` K).

(** A position of [raw_labels] that holds a class id. *)
Definition class_position (raw_labels : list npfloat) (x : nat) : Prop :=
  ∃ c, 0 ≤ c ≤ 6 ∧ raw_labels !! x = Some (Num c).

(** The offsets a split uses. *)
Definition split_offset (which_set : SetTag) (K j : Z) : Prop :=
  match which_set with
  | TEST => j = 0
  | VAL => j = K - 1
  | TRAIN => 1 ≤ j ≤ K - 2
  | ALL => False
  end.

(** The one-hot row of the class [c]. *)
Definition one_hot (c : Z) : list Z := <[Z.to_nat c := 1]> (replicate 7 0).

(** The sample the generator yields for the position [x]: the window
    at [x] with the one-hot row of the class at [x]. *)
Definition yielded (raw_data : list sample) (raw_labels : list npfloat)
    (x : nat) (s : sample * list Z) : Prop :=
  ∃ data c, raw_data !! x = Some data ∧ raw_labels !! x = Some (Num c)
            ∧ 0 ≤ c ≤ 6 ∧ s = (data, one_hot c).

(** The batches of [get_seven_emotion_data] in terms of the content
    [d] of the dictionary that [parameters or {}] names. *)
Definition dataset_batches (rd : Reader) (which_set : SetTag) (batch_size : Z)
    (d : dict) : result (list batch) :=
  raw ← get_raw_data rd d;
  if batch_size <=? 0 then Raise InvalidArgumentError
  else
    samples ← from_generator (get_data_generator raw.1 raw.2 which_set d);
    let samples :=
      if truthy (dict_get d "shuffle" (VBool (bool_decide (which_set = TRAIN))))
      then tf_shuffle rd samples else samples in
    Ok (tf_batch (Z.to_nat batch_size) samples).

(** Two dictionaries with the same cross-validation entries. *)
Definition cv_agree (d1 d2 : dict) : Prop :=
  d1 !! "cv_splits" = d2 !! "cv_splits" ∧ d1 !! "cv_index" = d2 !! "cv_index".

(** An array of [n] rows of [m] cells. *)
Definition has_shape {A} (n m : nat) (a : list (list A)) : Prop :=
  length a = n ∧ Forall (λ row, length row = m) a.

(** The second [s] lies in the interval that the schedule entry
    [(t_start, t_end)] labels: from [t_start + 1] (from 0 when
    [t_start] is 0) up to [t_end - 1]. *)
Definition covered (t_start t_end : Z) (s : nat) : Prop :=
  (if t_start =? 0 then 0 else t_start + 1) ≤ Z.of_nat s < t_end.

(** A cell of a faceapi array: NaN or a class id. *)
Definition nan_or_class (x : npfloat) : Prop := x = NaN ∨ is_class x.

(** [get_input_shape(parameters)]: the store after [parameters or {}]
    and the pair of the window length and 5. *)
Definition get_input_shape (h : heap) (parameters : option loc)
    : heap * (pyval * Z) :=
  let '(h, parameters) := or_empty_dict h parameters in
  let window := dict_get (h !!! parameters) "window" (VInt 20) in
  (h, (window, 5)).

(** The cell [a[p, s]] of an array, if it exists. *)
Definition cell (a : list (list npfloat)) (p s : nat) : option npfloat :=
  row ← a !! p; row !! s.

(** A window of [w] rows of five cells. *)
Definition window_shape (w : Z) (s : sample) : Prop :=
  length s = Z.to_nat w ∧ Forall (λ row, length row = 5%nat) s.

(** * Proofs *)

(** One step of the error monad on a computed value. *)
Ltac run_bind := cbn [mbind result_bind mret result_ret fmap result_fmap].

(** ** The model on small inputs *)

Example linspace_int_7_5 : linspace_int 7 6 = Ok [0; 1; 2; 4; 5; 7].
Proof. reflexivity. Qed.

(** [30 / 22] is rounded down to [1.3636363636363635], and 11 times
    this double is [14.999999999999998]: the post 11 is 14, not 15. *)
Example linspace_int_30_22 :
  linspace_int 30 23
  = Ok [0; 1; 2; 4; 5; 6; 8; 9; 10; 12; 13; 14; 16; 17; 19; 20; 21; 23; 24;
        25; 27; 28; 30].
Proof. vm_compute. reflexivity. Qed.

(** The rounding written out above is that of the Standard Library's
    IEEE 754 doubles: the posts agree for every class of up to 48
    samples cut in up to 32 folds, and for sizes near [2 ^ 53]. *)
Example linspace_int_ieee :
  forallb (λ n, same_posts (Z.of_nat n) (Z.of_nat <$> seq 0 33)) (seq 0 49) = true
  ∧ forallb (λ n, same_posts n [1; 2; 3; 7; 10; 22; 97])
      [2 ^ 53 - 1; 2 ^ 53 - 2; 2 ^ 52 + 1; 6004799503160661; 1234567890123] = true.
Proof. split; vm_compute; reflexivity. Qed.

Example linspace_int_no_fold : linspace_int 7 1 = Ok [0] ∧ linspace_int 7 0 = Ok [].
Proof. split; reflexivity. Qed.

Example range_20_26_5 : py_range 20 26 5 = Ok [20; 25].
Proof. reflexivity. Qed.

Example test_fold_0_of_3 :
  get_cross_validation_indices
    [Num 0; Num 0; Num 1; Num 0; Num 1; Num 0; Num 0; NaN; Num 6; Num 0; Num 0]
    TEST (<["cv_splits" := VInt 3]> ∅)
  = Ok [4; 6; 8; 9; 10]%nat.
Proof. reflexivity. Qed.

(** Thirty samples of one class in 22 folds: the TEST list of
    [cv_index = 11] takes the slice between the posts 10 and 11, which
    are 13 and 14. *)
Example test_fold_11_of_22 :
  get_cross_validation_indices (replicate 30 (Num 0)) TEST
    (<["cv_splits" := VInt 22]> (<["cv_index" := VInt 11]> ∅))
  = Ok [13%nat].
Proof. vm_compute. reflexivity. Qed.

Example train_of_5 :
  get_cross_validation_indices
    [Num 0; Num 0; Num 1; Num 0; Num 1; Num 0; Num 0; NaN; Num 6; Num 0; Num 0]
    TRAIN ∅
  = Ok [0; 1; 2; 3; 5]%nat.
Proof. reflexivity. Qed.

Example both_mode_labels_example :
  fmap (M:=list) (take 4) <$> get_raw_labels (example_reader 3) (VStr "both")
  = Ok [[Num 3; Num 3; Num (-1); Num (-1)]].
Proof. reflexivity. Qed.

(** Two windows are emitted for the file of three rows; the second
    one is labelled -1 and leaves the corpus with its label. *)
Example both_mode_pairs_example :
  emitted_windows (example_reader 3)
    (<["label_mode" := VStr "both"]> (<["window" := VInt 1]> (<["hop" := VInt 1]> ∅)))
  = Ok [([[0; 1; 1; 1; 1]%Q], Num 3); ([[1; 1; 1; 1; 1]%Q], Num (-1))]
  ∧ get_raw_data (example_reader 3)
      (<["label_mode" := VStr "both"]> (<["window" := VInt 1]> (<["hop" := VInt 1]> ∅)))
    = Ok ([[[0; 1; 1; 1; 1]%Q]], [Num 3]).
Proof. split; reflexivity. Qed.

(** A file of one row is shorter than a window of two rows: no window
    is emitted, and [⌊(1 - 2) / 1⌋ + 1] is 0 as well. *)
Example short_file_no_window :
  file_windows (example_reader 1) [[Num 3]] 1 2 (VInt 1) true
    (example_row <$> seq 0 1) [] [] = Ok ([], [])
  ∧ (1 - 2) / 1 + 1 = 0.
Proof. split; reflexivity. Qed.

Example get_labels_example :
  (get_labels (example_reader 9)
     (<[0%nat := <["window" := VInt 1]> (<["hop" := VInt 1]> ∅)]> ∅)
     TEST (Some 0%nat)).2
  = Ok [3; 5; 5]%nat.
Proof. reflexivity. Qed.

(** ** Loops and ranges *)

Lemma for_each_ok {A B} (f : A → result (list B)) (g : A → list B) (l : list A) :
  (∀ x, x ∈ l → f x = Ok (g x)) → for_each f l = Ok (concat (g <$> l)).
Proof.
  induction l as [|x l IH]; intros Hf; simpl; [done|].
  rewrite (Hf x) by left. rewrite IH; [done|].
  intros y Hy. apply Hf. by right.
Qed.

Lemma range_count_0 start stop step :
  0 < step → stop ≤ start → range_count start stop step = 0%nat.
Proof.
  intros Hs Hle. unfold range_count.
  assert ((stop - start + step - 1) / step ≤ 0); [|lia].
  assert ((stop - start + step - 1) / step < 1); [|lia].
  apply Z.div_lt_upper_bound; lia.
Qed.

Lemma range_count_S start stop step :
  0 < step → start < stop →
  range_count start stop step = S (range_count (start + step) stop step).
Proof.
  intros Hs Hlt. unfold range_count.
  replace (stop - start + step - 1) with ((stop - (start + step) + step - 1) + 1 * step) by lia.
  rewrite Z.div_add by lia.
  assert (0 ≤ (stop - (start + step) + step - 1) / step); [|lia].
  apply Z.div_pos; lia.
Qed.

(** With enough fuel the loop visits [start], [start + step], ... below
    [stop]: the fuel of [py_range] never cuts an ascending loop short. *)
Lemma range_loop_fuel fuel cur stop step :
  0 < step → (Z.to_nat (stop - cur) ≤ fuel)%nat →
  range_loop fuel cur stop step
  = (λ k : nat, cur + Z.of_nat k * step) <$> seq 0 (range_count cur stop step).
Proof.
  intros Hs. revert cur. induction fuel as [|fuel IH]; intros cur Hf; simpl.
  - rewrite range_count_0 by lia. done.
  - destruct (0 <? step) eqn:E; [|lia]. destruct (cur <? stop) eqn:Hc.
    + apply Z.ltb_lt in Hc. rewrite range_count_S by lia. simpl.
      f_equal; [lia|]. rewrite IH by lia.
      rewrite <- fmap_S_seq, <- list_fmap_compose.
      apply list_fmap_ext. intros i x _. simpl. lia.
    + apply Z.ltb_ge in Hc. rewrite range_count_0 by lia. done.
Qed.

Lemma py_range_up start stop step :
  0 < step →
  py_range start stop step
  = Ok ((λ k : nat, start + Z.of_nat k * step) <$> seq 0 (range_count start stop step)).
Proof.
  intros Hs. unfold py_range. destruct (step =? 0) eqn:E; [lia|].
  f_equal. apply range_loop_fuel; lia.
Qed.

Lemma py_range_0 n :
  py_range 0 n 1 = Ok (Z.of_nat <$> seq 0 (Z.to_nat n)).
Proof.
  rewrite py_range_up by lia. f_equal. unfold range_count.
  rewrite Z.div_1_r. replace (n - 0 + 1 - 1) with n by lia.
  apply list_fmap_ext. intros; lia.
Qed.

(** ** Indexing and slicing *)

Lemma py_index_nonneg {A} (l : list A) (i : nat) x :
  l !! i = Some x → py_index l (Z.of_nat i) = Ok x.
Proof.
  intros H. pose proof (lookup_lt_Some _ _ _ H) as Hlt. unfold py_index.
  destruct (Z.of_nat i <? 0) eqn:E; [lia|].
  rewrite (proj2 (Z.leb_le _ _)), (proj2 (Z.ltb_lt _ _)) by lia. simpl.
  by rewrite Nat2Z.id, H.
Qed.

Lemma py_index_nonneg_inv {A} (l : list A) (i : nat) x :
  py_index l (Z.of_nat i) = Ok x → l !! i = Some x.
Proof.
  unfold py_index. destruct (Z.ltb_spec (Z.of_nat i) 0) as [?|_]; [lia|].
  destruct (_ && _); [|done]. rewrite Nat2Z.id.
  destruct (l !! i); [|done]. by intros [= ->].
Qed.

Lemma py_index_neg {A} (l : list A) (i : nat) x :
  (0 < i ≤ length l)%nat → l !! (length l - i)%nat = Some x →
  py_index l (- Z.of_nat i) = Ok x.
Proof.
  intros Hi H. pose proof (lookup_lt_Some _ _ _ H) as Hlt. unfold py_index.
  destruct (- Z.of_nat i <? 0) eqn:E; [|lia].
  rewrite (proj2 (Z.leb_le _ _)), (proj2 (Z.ltb_lt _ _)) by lia. simpl.
  replace (Z.to_nat (- Z.of_nat i + Z.of_nat (length l))) with (length l - i)%nat by lia.
  by rewrite H.
Qed.

(** The slice between two positions [lo ≤ hi] of the list. *)
Lemma py_slice_inner {A} (l : list A) (lo hi : nat) :
  (lo ≤ hi ≤ length l)%nat →
  py_slice l (Z.of_nat lo) (Z.of_nat hi) = take (hi - lo) (drop lo l).
Proof.
  intros H. unfold py_slice, slice_bound.
  destruct (Z.of_nat lo <? 0) eqn:E1; [lia|].
  destruct (Z.of_nat hi <? 0) eqn:E2; [lia|].
  rewrite !Z.min_l by lia. by rewrite !Nat2Z.id.
Qed.

(** The slice between two positions, whatever their order and size. *)
Lemma py_slice_nat {A} (l : list A) (lo hi : nat) :
  py_slice l (Z.of_nat lo) (Z.of_nat hi) = take (hi - lo) (drop lo l).
Proof.
  unfold py_slice, slice_bound.
  destruct (Z.ltb_spec (Z.of_nat lo) 0); [lia|].
  destruct (Z.ltb_spec (Z.of_nat hi) 0); [lia|].
  destruct (decide (lo ≤ length l)%nat) as [Hlo|Hlo].
  - rewrite (Z.min_l (Z.of_nat lo)) by lia. rewrite Nat2Z.id.
    destruct (decide (hi ≤ length l)%nat) as [Hhi|Hhi].
    + rewrite Z.min_l by lia. by rewrite Nat2Z.id.
    + rewrite Z.min_r by lia. rewrite Nat2Z.id.
      rewrite !take_ge; [done|rewrite length_drop; lia..].
  - rewrite (Z.min_r (Z.of_nat lo)) by lia. rewrite Nat2Z.id.
    rewrite !drop_ge by lia. by rewrite !take_nil.
Qed.

Lemma elem_of_take_drop {A} (l : list A) (lo hi : nat) x :
  x ∈ take (hi - lo) (drop lo l) ↔ ∃ p, (lo ≤ p < hi)%nat ∧ l !! p = Some x.
Proof.
  rewrite elem_of_take. split.
  - intros (i & Hi & Hlt). rewrite lookup_drop in Hi.
    exists (lo + i)%nat. split; [lia|done].
  - intros (p & Hp & Hx). exists (p - lo)%nat. rewrite lookup_drop.
    replace (lo + (p - lo))%nat with p by lia. split; [done|lia].
Qed.

Lemma NoDup_take_drop {A} (l : list A) (n m : nat) :
  NoDup l → NoDup (take n (drop m l)).
Proof.
  intros H. eapply sublist_NoDup; [exact H|].
  etrans; [apply sublist_take|apply sublist_drop].
Qed.

(** ** [np.where] *)

Lemma np_where_lookup {A} (p : A → bool) (l : list A) (i x : nat) :
  x ∈ np_where p l i ↔ ∃ y, (i ≤ x)%nat ∧ l !! (x - i)%nat = Some y ∧ p y = true.
Proof.
  revert i. induction l as [|a l IH]; intros i; simpl.
  - split; [by intros ?%elem_of_nil|]. by intros (y & _ & ? & _).
  - assert (x ∈ np_where p l (S i) ↔
            ∃ y, (i < x)%nat ∧ (a :: l) !! (x - i)%nat = Some y ∧ p y = true) as Hrec.
    { rewrite IH. split.
      - intros (y & Hle & Hy & Hp). exists y. split; [lia|]. split; [|done].
        replace (x - i)%nat with (S (x - S i)) by lia. done.
      - intros (y & Hlt & Hy & Hp). exists y. split; [lia|]. split; [|done].
        replace (x - i)%nat with (S (x - S i)) in Hy by lia. done. }
    destruct (p a) eqn:Hpa.
    + rewrite elem_of_cons, Hrec. split.
      * intros [->|(y & Hlt & Hy & Hp)].
        -- exists a. rewrite Nat.sub_diag. done.
        -- exists y. split; [lia|done].
      * intros (y & Hle & Hy & Hp).
        destruct (decide (x = i)) as [->|Hne]; [by left|].
        right. exists y. split; [lia|done].
    + rewrite Hrec. split.
      * intros (y & Hlt & Hy & Hp). exists y. split; [lia|done].
      * intros (y & Hle & Hy & Hp).
        destruct (decide (x = i)) as [->|Hne].
        -- rewrite Nat.sub_diag in Hy. simpl in Hy. congruence.
        -- exists y. split; [lia|done].
Qed.

Lemma np_where_ge {A} (p : A → bool) (l : list A) (i x : nat) :
  x ∈ np_where p l i → (i ≤ x)%nat.
Proof. rewrite np_where_lookup. by intros (y & ? & _). Qed.

Lemma np_where_NoDup {A} (p : A → bool) (l : list A) (i : nat) :
  NoDup (np_where p l i).
Proof.
  revert i. induction l as [|a l IH]; intros i; simpl; [constructor|].
  destruct (p a); [|done]. constructor; [|done].
  intros H%np_where_ge. lia.
Qed.

(** ** Rounding to a double *)

Lemma round_half_even_floor p q :
  0 < q → p / q ≤ round_half_even p q ≤ p / q + 1.
Proof.
  intros Hq. unfold round_half_even.
  destruct (2 * (p `mod` q) <? q); [lia|].
  destruct (q <? 2 * (p `mod` q)); [lia|].
  destruct (Z.even (p / q)); lia.
Qed.

Lemma round_half_even_exact d q : 0 < q → round_half_even (d * q) q = d.
Proof.
  intros Hq. unfold round_half_even.
  rewrite Z.mod_mul, Z.div_mul by lia.
  destruct (Z.ltb_spec (2 * 0) q); [done|lia].
Qed.

Lemma round_half_even_mono p p' q :
  0 < q → p ≤ p' → round_half_even p q ≤ round_half_even p' q.
Proof.
  intros Hq Hp.
  pose proof (Z.div_le_mono p p' q Hq Hp) as Hd.
  destruct (Z.eq_dec (p / q) (p' / q)) as [Heq|Hne].
  - pose proof (Z.div_mod p q ltac:(lia)) as E.
    pose proof (Z.div_mod p' q ltac:(lia)) as E'.
    rewrite <- Heq in E'.
    unfold round_half_even. rewrite <- Heq.
    destruct (Z.ltb_spec (2 * (p `mod` q)) q);
      destruct (Z.ltb_spec (2 * (p' `mod` q)) q);
      destruct (Z.ltb_spec q (2 * (p `mod` q)));
      destruct (Z.ltb_spec q (2 * (p' `mod` q)));
      destruct (Z.even (p / q)); lia.
  - pose proof (round_half_even_floor p q Hq).
    pose proof (round_half_even_floor p' q Hq). lia.
Qed.

(** Twice the distance to the quotient is at most one. *)
Lemma round_half_even_upper p q :
  0 < q → 2 * q * round_half_even p q ≤ 2 * p + q.
Proof.
  intros Hq. unfold round_half_even.
  pose proof (Z.div_mod p q ltac:(lia)) as E.
  pose proof (Z.mod_pos_bound p q Hq) as Hr.
  destruct (Z.ltb_spec (2 * (p `mod` q)) q); [nia|].
  destruct (Z.ltb_spec q (2 * (p `mod` q))); [nia|].
  destruct (Z.even (p / q)); nia.
Qed.

Lemma round53_small N : N < 2 ^ 53 → round53 N = N.
Proof.
  intros HN. unfold round53.
  destruct (Z.leb_spec (Z.log2 N - 52) 0) as [|Hs]; [done|].
  assert (0 < N) as Hpos.
  { destruct (Z.lt_ge_cases 0 N); [done|]. rewrite Z.log2_nonpos in Hs; lia. }
  apply Z.log2_lt_pow2 in HN; lia.
Qed.

(** A rounded integer stays in the binade of the integer. *)
Lemma round53_binade N :
  0 < N → 2 ^ Z.log2 N ≤ round53 N ≤ 2 ^ (Z.log2 N + 1).
Proof.
  intros HN. destruct (Z.log2_spec N HN) as [Hlo Hhi].
  rewrite <- Z.add_1_r in Hhi. unfold round53.
  destruct (Z.leb_spec (Z.log2 N - 52) 0) as [|Hs]; [lia|].
  set (s := Z.log2 N - 52) in *.
  assert (0 < 2 ^ s) as Hq by (apply Z.pow_pos_nonneg; lia).
  assert (2 ^ Z.log2 N = 2 ^ 52 * 2 ^ s) as E1.
  { rewrite <- Z.pow_add_r by lia. f_equal. lia. }
  assert (2 ^ (Z.log2 N + 1) = 2 ^ 53 * 2 ^ s) as E2.
  { rewrite <- Z.pow_add_r by lia. f_equal. lia. }
  rewrite E1, E2 in *.
  pose proof (round_half_even_mono (2 ^ 52 * 2 ^ s) N (2 ^ s) Hq Hlo) as H1.
  pose proof (round_half_even_mono N (2 ^ 53 * 2 ^ s) (2 ^ s) Hq ltac:(lia)) as H2.
  rewrite round_half_even_exact in H1, H2 by done.
  split; apply Z.mul_le_mono_nonneg_r; lia.
Qed.

Lemma round53_nonneg N : 0 ≤ N → 0 ≤ round53 N.
Proof.
  intros HN. destruct (Z.eq_dec N 0) as [->|]; [done|].
  pose proof (round53_binade N ltac:(lia)).
  pose proof (Z.pow_pos_nonneg 2 (Z.log2 N) ltac:(lia) (Z.log2_nonneg N)). lia.
Qed.

Lemma round53_mono N N' : 0 ≤ N ≤ N' → round53 N ≤ round53 N'.
Proof.
  intros [HN Hle]. destruct (Z.eq_dec N 0) as [->|Hne].
  { rewrite (round53_small 0) by done. apply round53_nonneg. lia. }
  pose proof (Z.log2_le_mono N N' Hle) as Hlog.
  destruct (Z.eq_dec (Z.log2 N) (Z.log2 N')) as [Heq|Hlt].
  - unfold round53. rewrite <- Heq.
    destruct (Z.leb_spec (Z.log2 N - 52) 0) as [|Hs]; [done|].
    apply Z.mul_le_mono_nonneg_r; [apply Z.pow_nonneg; lia|].
    apply round_half_even_mono; [apply Z.pow_pos_nonneg; lia|done].
  - pose proof (round53_binade N ltac:(lia)) as [_ H1].
    pose proof (round53_binade N' ltac:(lia)) as [H2 _].
    pose proof (Z.pow_le_mono_r 2 (Z.log2 N + 1) (Z.log2 N') ltac:(lia) ltac:(lia)).
    lia.
Qed.

(** An integer below [2 ^ 53], shifted to the left, is a double. *)
Lemma round53_shift n t : 0 ≤ n < 2 ^ 53 → 0 ≤ t → round53 (n * 2 ^ t) = n * 2 ^ t.
Proof.
  intros Hn Ht. destruct (Z.eq_dec n 0) as [->|Hne]; [done|].
  unfold round53. rewrite Z.log2_mul_pow2 by lia.
  destruct (Z.leb_spec (t + Z.log2 n - 52) 0) as [|Hs]; [done|].
  set (s := t + Z.log2 n - 52) in *.
  assert (Z.log2 n ≤ 52) as Hlog.
  { assert (Z.log2 n < 53); [|lia]. apply Z.log2_lt_pow2; lia. }
  replace t with ((t - s) + s) at 1 by lia.
  rewrite Z.pow_add_r by lia. rewrite Z.mul_assoc.
  rewrite round_half_even_exact by (apply Z.pow_pos_nonneg; lia).
  rewrite <- Z.mul_assoc, <- Z.pow_add_r by lia. do 2 f_equal. lia.
Qed.

Lemma astype_int_mono m m' e :
  m ≤ m' → astype_int (Float64 m e) ≤ astype_int (Float64 m' e).
Proof.
  intros Hm. unfold astype_int; simpl. destruct (Z.leb_spec 0 e).
  - apply Z.mul_le_mono_nonneg_r; [apply Z.pow_nonneg; lia|done].
  - apply Z.div_le_mono; [apply Z.pow_pos_nonneg; lia|done].
Qed.

Lemma astype_int_nonneg m e : 0 ≤ m → 0 ≤ astype_int (Float64 m e).
Proof.
  intros Hm. unfold astype_int; simpl. destruct (Z.leb_spec 0 e).
  - apply Z.mul_nonneg_nonneg; [done|apply Z.pow_nonneg; lia].
  - apply Z.div_pos; [done|apply Z.pow_pos_nonneg; lia].
Qed.

Lemma astype_int_zero e : astype_int (Float64 0 e) = 0.
Proof. unfold astype_int; simpl. destruct (0 <=? e); [apply Z.mul_0_l|apply Zdiv_0_l]. Qed.

(** ** The step of [np.linspace] *)

Lemma round_half_even_nonneg p q : 0 ≤ p → 0 ≤ q → 0 ≤ round_half_even p q.
Proof.
  intros Hp Hq. destruct (Z.eq_dec q 0) as [->|Hne].
  - unfold round_half_even. rewrite Z.div_0_r, Z.mod_0_r. simpl.
    destruct (2 * p <? 0); [done|]. destruct (0 <? 2 * p); done.
  - pose proof (round_half_even_floor p q ltac:(lia)).
    pose proof (Z.div_pos p q Hp ltac:(lia)). lia.
Qed.

Lemma round53_ratio_mant_nonneg p q : 0 ≤ p → 0 ≤ q → 0 ≤ mant (round53_ratio p q).
Proof.
  intros Hp Hq. unfold round53_ratio. destruct (p =? 0); [done|].
  unfold scaled. cbv zeta.
  apply round_half_even_nonneg;
    (apply Z.mul_nonneg_nonneg; [done|apply Z.pow_nonneg; lia]).
Qed.

(** For [0 < n < 2 ^ 53] and [1 ≤ K < 2 ^ 53] the step [m * 2 ^ e] has
    a non-positive exponent and a mantissa [m], the rounded quotient of
    [n * 2 ^ (- e)] by [K], of 53 bits. *)
Lemma round53_ratio_spec n K :
  0 < n < 2 ^ 53 → 0 < K →
  ∃ t, 0 ≤ t ∧ expo (round53_ratio n K) = - t
       ∧ mant (round53_ratio n K) = round_half_even (n * 2 ^ t) K
       ∧ 2 ^ 52 * K ≤ n * 2 ^ t.
Proof.
  intros Hn HK. unfold round53_ratio.
  destruct (Z.eqb_spec n 0) as [|_]; [lia|].
  destruct (Z.log2_spec n ltac:(lia)) as [Hn1 Hn2].
  destruct (Z.log2_spec K HK) as [HK1 HK2].
  rewrite <- Z.add_1_r in Hn2, HK2.
  pose proof (Z.log2_nonneg n) as Hln. pose proof (Z.log2_nonneg K) as HlK.
  assert (Z.log2 n ≤ 52) as Hlog.
  { assert (Z.log2 n < 53); [|lia]. apply Z.log2_lt_pow2; lia. }
  set (e0 := Z.log2 n - Z.log2 K - 52).
  assert (e0 ≤ 0) as He0 by (unfold e0; lia).
  assert (2 ^ (- e0) * 2 ^ Z.log2 n = 2 ^ 52 * 2 ^ Z.log2 K) as Epow.
  { rewrite <- !Z.pow_add_r by lia. f_equal. unfold e0. lia. }
  assert (0 < 2 ^ (- e0)) as Hpos by (apply Z.pow_pos_nonneg; lia).
  unfold scaled.
  rewrite (Z.max_r 0 (- e0)), (Z.max_l 0 e0) by lia.
  rewrite Z.pow_0_r, Z.mul_1_r.
  rewrite Z.pow_add_r in Hn2, HK2 by lia.
  destruct (Z.ltb_spec (n * 2 ^ (- e0)) (2 ^ 52 * K)) as [Hlt|Hge].
  - exists (- e0 + 1). rewrite (Z.max_r 0 (- (e0 - 1))), (Z.max_l 0 (e0 - 1)) by lia.
    rewrite Z.pow_0_r, Z.mul_1_r. replace (- (e0 - 1)) with (- e0 + 1) by lia.
    simpl. split; [lia|]. split; [lia|]. split; [done|].
    rewrite Z.pow_add_r by lia. nia.
  - exists (- e0). rewrite (Z.max_r 0 (- e0)), (Z.max_l 0 e0) by lia.
    rewrite Z.pow_0_r, Z.mul_1_r. simpl. split; [lia|]. split; [lia|]. done.
Qed.

(** ** Fence posts *)

Lemma linspace_int_borders n K :
  0 ≤ K + 1 → linspace_int (Z.of_nat n) (K + 1) = Ok (borders_of n K).
Proof.
  intros HK. unfold borders_of, linspace_int.
  destruct (Z.ltb_spec (K + 1) 0); [lia|done].
Qed.

Lemma borders_of_length n K : 0 ≤ K + 1 → length (borders_of n K) = Z.to_nat (K + 1).
Proof.
  intros HK. unfold borders_of, linspace_int.
  destruct (Z.ltb_spec (K + 1) 0); [lia|]. cbv zeta.
  rewrite length_fmap.
  destruct (1 <? K + 1); [rewrite length_insert|];
    destruct (0 <? K + 1 - 1); by rewrite !length_fmap, length_seq.
Qed.

(** The double of the post [k < K]: the mantissa is [k] times the
    mantissa of the step, rounded. *)
Lemma fence_inner n K k :
  0 < K → Z.of_nat k ≠ K →
  let step := fl_div (float_of_int (Z.of_nat n)) (float_of_int K) in
  fence n K k
  = Z.to_nat (astype_int
      (Float64 (round53 (round53 (Z.of_nat k) * mant step)) (expo step))).
Proof.
  intros HK Hk step. unfold fence. fold step.
  destruct (Z.eqb_spec (Z.of_nat k) K); [done|]. done.
Qed.

Lemma step_mant_nonneg n K :
  0 ≤ K → 0 ≤ mant (fl_div (float_of_int (Z.of_nat n)) (float_of_int K)).
Proof.
  intros HK. cbn [fl_div mant float_of_int].
  apply round53_ratio_mant_nonneg; apply round53_nonneg; lia.
Qed.

Lemma fence_post_nonneg n K k :
  0 ≤ K →
  let stop := float_of_int (Z.of_nat n) in
  0 ≤ astype_int
        (if Z.of_nat k =? K then stop
         else fl_mul (float_of_int (Z.of_nat k)) (fl_div stop (float_of_int K))).
Proof.
  intros HK stop. destruct (Z.of_nat k =? K).
  - apply astype_int_nonneg, round53_nonneg. lia.
  - apply astype_int_nonneg, round53_nonneg.
    apply Z.mul_nonneg_nonneg; [apply round53_nonneg; lia|].
    by apply step_mant_nonneg.
Qed.

Lemma borders_of_lookup n K k :
  0 < K → (k ≤ Z.to_nat K)%nat →
  borders_of n K !! k = Some (Z.of_nat (fence n K k)).
Proof.
  intros HK Hk. unfold borders_of, linspace_int, fence.
  destruct (Z.ltb_spec (K + 1) 0); [lia|]. cbv zeta.
  destruct (Z.ltb_spec 1 (K + 1)); [|lia].
  replace (K + 1 - 1) with K by lia.
  destruct (Z.ltb_spec 0 K); [|lia].
  rewrite Z2Nat.id by (by apply fence_post_nonneg; lia).
  rewrite list_lookup_fmap.
  destruct (Z.eqb_spec (Z.of_nat k) K) as [E|E].
  - replace (Z.to_nat K) with k by lia.
    rewrite list_lookup_insert_eq; [done|].
    rewrite !length_fmap, length_seq. lia.
  - rewrite list_lookup_insert_ne by lia.
    rewrite !list_lookup_fmap.
    rewrite (proj2 (lookup_seq 0 _ k k)) by (split; lia). done.
Qed.

Lemma fence_first n K : 0 < K → fence n K 0 = 0%nat.
Proof.
  intros HK. rewrite fence_inner by (done || lia).
  change (Z.of_nat 0) with 0. rewrite (round53_small 0) by done.
  rewrite Z.mul_0_l, (round53_small 0) by done. by rewrite astype_int_zero.
Qed.

Lemma fence_last n K :
  0 < K → Z.of_nat n < 2 ^ 53 → fence n K (Z.to_nat K) = n.
Proof.
  intros HK Hn. unfold fence. rewrite Z2Nat.id by lia.
  rewrite Z.eqb_refl. unfold float_of_int, astype_int; simpl.
  rewrite round53_small by done. lia.
Qed.

(** Posts before the last one never decrease, whatever the sizes. *)
Lemma fence_mono_inner n K k k' :
  0 < K → (k ≤ k')%nat → Z.of_nat k' ≠ K → Z.of_nat k ≠ K →
  (fence n K k ≤ fence n K k')%nat.
Proof.
  intros HK Hk Hk' Hk''. rewrite !fence_inner by done.
  pose proof (step_mant_nonneg n K ltac:(lia)) as Hm.
  apply Z2Nat.inj_le.
  - apply astype_int_nonneg, round53_nonneg.
    apply Z.mul_nonneg_nonneg; [apply round53_nonneg; lia|done].
  - apply astype_int_nonneg, round53_nonneg.
    apply Z.mul_nonneg_nonneg; [apply round53_nonneg; lia|done].
  - apply astype_int_mono, round53_mono. split.
    + apply Z.mul_nonneg_nonneg; [apply round53_nonneg; lia|done].
    + apply Z.mul_le_mono_nonneg_r; [done|]. apply round53_mono. lia.
Qed.

(** No post exceeds the class size: [(K - 1) * step] does not exceed
    [n], and [n], a double, bounds the rounded products. *)
Lemma fence_le n K k :
  0 < K < 2 ^ 53 → Z.of_nat n < 2 ^ 53 → (k ≤ Z.to_nat K)%nat →
  (fence n K k ≤ n)%nat.
Proof.
  intros HK Hn Hk.
  destruct (Z.eq_dec (Z.of_nat k) K) as [E|E].
  { replace k with (Z.to_nat K) by lia. rewrite fence_last; [done|lia|done]. }
  rewrite fence_inner by (done || lia).
  cbn [fl_div float_of_int mant expo].
  rewrite (round53_small (Z.of_nat n)), (round53_small K), (round53_small (Z.of_nat k)) by lia.
  destruct (Z.eq_dec (Z.of_nat n) 0) as [E0|E0].
  { rewrite E0. cbn [round53_ratio Z.eqb mant expo]. rewrite Z.mul_0_r.
    rewrite (round53_small 0) by done. rewrite astype_int_zero. lia. }
  destruct (round53_ratio_spec (Z.of_nat n) K ltac:(lia) ltac:(lia))
    as (t & Ht & -> & -> & Hlow).
  set (a := Z.of_nat n * 2 ^ t) in *.
  set (m := round_half_even a K).
  pose proof (round_half_even_upper a K ltac:(lia)) as Hup. fold m in Hup.
  assert (0 ≤ m) as Hm.
  { apply round_half_even_nonneg; [|lia]. unfold a.
    apply Z.mul_nonneg_nonneg; [lia|apply Z.pow_nonneg; lia]. }
  assert ((K - 1) * m ≤ a) as Hlast by nia.
  assert (Z.of_nat k * m ≤ a) as Hprod by nia.
  assert (round53 (Z.of_nat k * m) ≤ a) as Hround.
  { pose proof (round53_shift (Z.of_nat n) t ltac:(lia) Ht) as Hs. fold a in Hs.
    rewrite <- Hs. apply round53_mono. split; [nia|done]. }
  replace (- t + 0 - 0) with (- t) by lia.
  assert (astype_int (Float64 (round53 (Z.of_nat k * m)) (- t)) ≤ Z.of_nat n); [|lia].
  etrans; [apply astype_int_mono, Hround|].
  unfold astype_int, a; simpl.
  destruct (Z.leb_spec 0 (- t)).
  - replace t with 0 by lia. simpl. lia.
  - replace (- - t) with t by lia. rewrite Z.div_mul; [done|].
    pose proof (Z.pow_pos_nonneg 2 t). lia.
Qed.

Lemma fence_mono n K k k' :
  0 < K < 2 ^ 53 → Z.of_nat n < 2 ^ 53 →
  (k ≤ k' ≤ Z.to_nat K)%nat → (fence n K k ≤ fence n K k')%nat.
Proof.
  intros HK Hn Hk.
  destruct (Z.eq_dec (Z.of_nat k') K) as [E|E].
  - replace k' with (Z.to_nat K) by lia. rewrite fence_last by (lia || done).
    apply fence_le; [done..|lia].
  - apply fence_mono_inner; lia.
Qed.

(** Every position below the last post lies in a fold, for posts
    that start at 0. *)
Lemma fence_find (f : nat → nat) (K p : nat) :
  f 0%nat = 0%nat → (p < f K)%nat →
  ∃ k, (1 ≤ k ≤ K)%nat ∧ (f (k - 1)%nat ≤ p < f k)%nat.
Proof.
  intros H0. induction K as [|K IH]; intros Hp; [lia|].
  destruct (decide (p < f K)%nat) as [Hlt|Hge].
  - destruct (IH Hlt) as (k & Hk & Hin). exists k. split; [lia|done].
  - exists (S K). split; [lia|]. simpl. rewrite Nat.sub_0_r. lia.
Qed.

(** ** Fold slices *)

Lemma np_eq_true x c : np_eq x c = true ↔ x = Num c.
Proof.
  destruct x as [z|]; simpl; [|split; done].
  rewrite Z.eqb_eq. split; [by intros ->|by intros [= ->]].
Qed.

Lemma class_samples_elem raw_labels c x :
  x ∈ class_samples raw_labels c ↔ raw_labels !! x = Some (Num c).
Proof.
  unfold class_samples. rewrite np_where_lookup. rewrite Nat.sub_0_r. split.
  - intros (y & _ & Hy & Hp). apply np_eq_true in Hp. by subst.
  - intros H. exists (Num c). split; [lia|]. split; [done|]. by apply np_eq_true.
Qed.

Lemma class_samples_NoDup raw_labels c : NoDup (class_samples raw_labels c).
Proof. apply np_where_NoDup. Qed.

Lemma np_where_length {A} (p : A → bool) (l : list A) (i : nat) :
  (length (np_where p l i) ≤ length l)%nat.
Proof.
  revert i. induction l as [|a l IH]; intros i; simpl; [done|].
  specialize (IH (S i)). destruct (p a); simpl; lia.
Qed.

Lemma class_samples_length raw_labels c :
  (length (class_samples raw_labels c) ≤ length raw_labels)%nat.
Proof. apply np_where_length. Qed.

Lemma fold_slice_fence raw_labels K c k :
  0 < K → (1 ≤ k ≤ Z.to_nat K)%nat →
  let es := class_samples raw_labels c in
  fold_slice raw_labels K c k
  = take (fence (length es) K k - fence (length es) K (k - 1))
         (drop (fence (length es) K (k - 1)) es).
Proof.
  intros HK Hk es. unfold fold_slice. fold es.
  rewrite !borders_of_lookup by lia. by rewrite !Nat2Z.id.
Qed.

Lemma fold_slice_elem raw_labels K c k x :
  0 < K → (1 ≤ k ≤ Z.to_nat K)%nat →
  let es := class_samples raw_labels c in
  x ∈ fold_slice raw_labels K c k ↔
  ∃ p, (fence (length es) K (k - 1) ≤ p < fence (length es) K k)%nat ∧ es !! p = Some x.
Proof. intros HK Hk es. rewrite fold_slice_fence by done. apply elem_of_take_drop. Qed.

Lemma fold_slice_sub raw_labels K c k x :
  x ∈ fold_slice raw_labels K c k → x ∈ class_samples raw_labels c.
Proof.
  unfold fold_slice. destruct (_ !! (k - 1)%nat); [|by intros ?%elem_of_nil].
  destruct (_ !! k); [|by intros ?%elem_of_nil].
  intros (p & _ & Hp)%elem_of_take_drop. apply list_elem_of_lookup. eauto.
Qed.

Lemma fold_slice_label raw_labels K c k x :
  x ∈ fold_slice raw_labels K c k → raw_labels !! x = Some (Num c).
Proof. intros H%fold_slice_sub. by apply class_samples_elem. Qed.

Lemma fold_slice_NoDup raw_labels K c k : NoDup (fold_slice raw_labels K c k).
Proof.
  unfold fold_slice. destruct (_ !! (k - 1)%nat); [|constructor].
  destruct (_ !! k); [|constructor].
  apply NoDup_take_drop, class_samples_NoDup.
Qed.

(** Two fold slices of a class share no sample: the posts never
    decrease. The sizes are those of doubles that hold integers. *)
Lemma fold_slice_disjoint raw_labels K c k k' x :
  0 < K < 2 ^ 53 → Z.of_nat (length raw_labels) < 2 ^ 53 →
  (1 ≤ k ≤ Z.to_nat K)%nat → (1 ≤ k' ≤ Z.to_nat K)%nat → k ≠ k' →
  x ∈ fold_slice raw_labels K c k → x ∉ fold_slice raw_labels K c k'.
Proof.
  intros HK Hlen Hk Hk' Hne. rewrite !fold_slice_elem by (done || lia).
  intros (p & Hp & Hx) (p' & Hp' & Hx').
  assert (p = p') as <-.
  { eapply NoDup_lookup; [apply (class_samples_NoDup raw_labels c)|done..]. }
  pose proof (class_samples_length raw_labels c) as Hn.
  set (n := length (class_samples raw_labels c)) in *.
  destruct (decide (k < k')%nat).
  - pose proof (fence_mono n K k (k' - 1) HK ltac:(lia)). lia.
  - pose proof (fence_mono n K k' (k - 1) HK ltac:(lia)). lia.
Qed.

(** Every sample of a class lies in a fold slice: the posts start at
    0 and end at the class size. *)
Lemma fold_slice_cover raw_labels K c x :
  0 < K → Z.of_nat (length raw_labels) < 2 ^ 53 →
  raw_labels !! x = Some (Num c) →
  ∃ k, (1 ≤ k ≤ Z.to_nat K)%nat ∧ x ∈ fold_slice raw_labels K c k.
Proof.
  intros HK Hlen Hx. apply class_samples_elem in Hx.
  apply list_elem_of_lookup in Hx as [p Hp].
  pose proof (lookup_lt_Some _ _ _ Hp) as Hlt.
  pose proof (class_samples_length raw_labels c) as Hn.
  set (n := length (class_samples raw_labels c)) in *.
  destruct (fence_find (fence n K) (Z.to_nat K) p) as (k & Hk & Hin).
  - by apply fence_first.
  - rewrite fence_last; [done..|lia].
  - exists k. split; [done|]. apply fold_slice_elem; [done..|]. eauto.
Qed.

(** ** The code's slices are fold slices *)

Lemma take_split_front raw_labels K c k :
  0 < K → (1 ≤ k ≤ Z.to_nat K)%nat →
  let es := class_samples raw_labels c in
  take_split es (borders_of (length es) K) (Z.of_nat k)
  = Ok (fold_slice raw_labels K c k).
Proof.
  intros HK Hk es. unfold take_split.
  replace (Z.of_nat k - 1) with (Z.of_nat (k - 1)) by lia.
  rewrite (py_index_nonneg _ _ _ (borders_of_lookup _ K (k - 1) HK ltac:(lia))).
  rewrite (py_index_nonneg _ _ _ (borders_of_lookup _ K k HK ltac:(lia))).
  simpl. f_equal. rewrite fold_slice_fence by done. fold es.
  apply py_slice_nat.
Qed.

(** A split of [-1] reads [borders[-2]] and [borders[-1]]: the last fold. *)
Lemma take_split_back raw_labels K c :
  0 < K →
  let es := class_samples raw_labels c in
  take_split es (borders_of (length es) K) (-1)
  = Ok (fold_slice raw_labels K c (Z.to_nat K)).
Proof.
  intros HK es. unfold take_split.
  pose proof (borders_of_length (length es) K ltac:(lia)) as Hlen.
  change (-1 - 1) with (- Z.of_nat 2). change (-1) with (- Z.of_nat 1).
  rewrite (py_index_neg _ 2 (Z.of_nat (fence (length es) K (Z.to_nat K - 1)))).
  2: { rewrite Hlen. lia. }
  2: { rewrite Hlen. replace (Z.to_nat (K + 1) - 2)%nat with (Z.to_nat K - 1)%nat by lia.
       apply borders_of_lookup; [done|lia]. }
  rewrite (py_index_neg _ 1 (Z.of_nat (fence (length es) K (Z.to_nat K)))).
  2: { rewrite Hlen. lia. }
  2: { rewrite Hlen. replace (Z.to_nat (K + 1) - 1)%nat with (Z.to_nat K) by lia.
       apply borders_of_lookup; [done|lia]. }
  simpl. f_equal. rewrite fold_slice_fence by (done || lia). fold es.
  apply py_slice_nat.
Qed.

Lemma take_split_corrected raw_labels K c m :
  0 < K → 0 ≤ m < K →
  let es := class_samples raw_labels c in
  take_split es (borders_of (length es) K) (zero_to_minus_one m)
  = Ok (fold_slice raw_labels K c (corrected_fold K m)).
Proof.
  intros HK Hm es. unfold zero_to_minus_one, corrected_fold.
  destruct (m =? 0) eqn:E.
  - apply Z.eqb_eq in E. subst m. by apply take_split_back.
  - apply Z.eqb_neq in E. rewrite <- (Z2Nat.id m) at 1 by lia.
    apply take_split_front; [done|lia].
Qed.

(** ** What a split selects *)

Lemma elem_of_concat {A} (ls : list (list A)) (x : A) :
  x ∈ concat ls ↔ ∃ l, l ∈ ls ∧ x ∈ l.
Proof.
  induction ls as [|l ls IH]; simpl.
  - split; [by intros ?%elem_of_nil|]. by intros (l & ?%elem_of_nil & _).
  - rewrite elem_of_app, IH. split.
    + intros [H|(l' & Hl' & Hx)]; [exists l; split; [left|done]|].
      exists l'. split; [by right|done].
    + intros (l' & [->|Hl']%elem_of_cons & Hx); [by left|]. right. eauto.
Qed.

Lemma NoDup_concat {A} (ls : list (list A)) :
  Forall NoDup ls →
  (∀ i j a b x, (i < j)%nat → ls !! i = Some a → ls !! j = Some b →
                x ∈ a → x ∉ b) →
  NoDup (concat ls).
Proof.
  induction ls as [|l ls IH]; intros HF Hdis; simpl; [constructor|].
  apply Forall_cons in HF as [Hl HF]. apply NoDup_app. split; [done|]. split.
  - intros x Hx (l' & Hl' & Hx')%elem_of_concat.
    apply list_elem_of_lookup in Hl' as [j Hj].
    by apply (Hdis 0%nat (S j) l l' x ltac:(lia)).
  - apply IH; [done|]. intros i j a b x Hij Ha Hb.
    apply (Hdis (S i) (S j)); [lia|done..].
Qed.

Lemma seven_classes_range : py_range 0 7 1 = Ok seven_classes.
Proof. reflexivity. Qed.

Lemma seven_classes_elem c : c ∈ seven_classes ↔ 0 ≤ c ≤ 6.
Proof.
  unfold seven_classes. rewrite !elem_of_cons, elem_of_nil. lia.
Qed.

Lemma train_range K :
  py_range 1 (K - 1) 1 = Ok (Z.of_nat <$> seq 1 (Z.to_nat (K - 2))).
Proof.
  rewrite py_range_up by lia. f_equal. unfold range_count.
  rewrite Z.div_1_r. replace (K - 1 - 1 + 1 - 1) with (K - 2) by lia.
  rewrite <- fmap_S_seq, <- list_fmap_compose.
  apply list_fmap_ext. intros; simpl; lia.
Qed.

(** What one class adds to [all_indices]. *)
Lemma class_indices_folds raw_labels which_set K i c :
  0 < K → 0 ≤ i < K →
  class_indices raw_labels which_set K i c
  = Ok (concat (fold_slice raw_labels K c <$> selected_folds which_set K i)).
Proof.
  intros HK Hi. unfold class_indices, selected_folds. cbv zeta.
  rewrite linspace_int_borders by lia. run_bind. destruct which_set.
  - rewrite train_range. run_bind.
    rewrite (for_each_ok _
      (λ j, fold_slice raw_labels K c (corrected_fold K ((j - i) `mod` K)))).
    + f_equal. f_equal. rewrite <- !list_fmap_compose. done.
    + intros j _. apply take_split_corrected; [done|]. by apply Z.mod_pos_bound.
  - rewrite take_split_corrected; [|done|by apply Z.mod_pos_bound].
    cbn [fmap list_fmap concat]. by rewrite app_nil_r.
  - rewrite <- (Z2Nat.id (K - i)) at 1 by lia.
    rewrite take_split_front by (done || lia).
    cbn [fmap list_fmap concat]. by rewrite app_nil_r.
  - done.
Qed.

Lemma fold_indices_selection raw_labels which_set parameters K i :
  cv_splits_of parameters = Ok K → cv_index_of parameters = Ok i →
  0 ≤ i ≤ K - 1 →
  fold_indices raw_labels which_set parameters
  = Ok (merge_sort Nat.le (selection raw_labels which_set K i)).
Proof.
  unfold cv_splits_of, cv_index_of. intros HK Hi Hr. unfold fold_indices.
  rewrite HK, Hi. run_bind.
  rewrite (proj2 (Z.leb_le _ _)), (proj2 (Z.leb_le _ _)) by lia.
  cbn [andb]. rewrite seven_classes_range. run_bind.
  rewrite (for_each_ok _
    (λ c, concat (fold_slice raw_labels K c <$> selected_folds which_set K i))).
  - done.
  - intros c _. apply class_indices_folds; lia.
Qed.

Lemma fold_indices_assert raw_labels which_set parameters K i :
  cv_splits_of parameters = Ok K → cv_index_of parameters = Ok i →
  ¬ (0 ≤ i ≤ K - 1) →
  fold_indices raw_labels which_set parameters = Raise AssertionError.
Proof.
  unfold cv_splits_of, cv_index_of. intros HK Hi Hr. unfold fold_indices.
  rewrite HK, Hi. run_bind.
  destruct (i <=? K - 1) eqn:E1; [|done].
  destruct (0 <=? i) eqn:E2; [lia|done].
Qed.

Lemma cv_splits_insert_index parameters v :
  cv_splits_of (<["cv_index" := v]> parameters) = cv_splits_of parameters.
Proof. unfold cv_splits_of, dict_get. by rewrite lookup_insert_ne. Qed.

Lemma cv_index_insert_index parameters i :
  cv_index_of (<["cv_index" := VInt i]> parameters) = Ok i.
Proof. unfold cv_index_of, dict_get. by rewrite lookup_insert_eq. Qed.

(** The [ALL] loop appends the TEST lists of the folds it visits. *)
Lemma all_loop_tests raw_labels cv_params K indices r :
  cv_splits_of cv_params = Ok K → (∀ i, i ∈ r → 0 ≤ i ≤ K - 1) →
  all_loop raw_labels cv_params indices r
  = Ok (indices ++ concat (test_fold raw_labels K <$> r)).
Proof.
  revert cv_params indices. induction r as [|i r IH]; intros d acc HK Hr; simpl.
  - by rewrite app_nil_r.
  - rewrite (fold_indices_selection _ _ _ K i).
    + run_bind. rewrite IH.
      * by rewrite <- app_assoc.
      * by rewrite cv_splits_insert_index.
      * intros j Hj. apply Hr. by right.
    + by rewrite cv_splits_insert_index.
    + apply cv_index_insert_index.
    + apply Hr. by left.
Qed.

Lemma get_all_tests raw_labels parameters K :
  cv_splits_of parameters = Ok K →
  get_cross_validation_indices raw_labels ALL parameters
  = Ok (concat (test_fold raw_labels K <$> (Z.of_nat <$> seq 0 (Z.to_nat K)))).
Proof.
  intros HK. unfold get_cross_validation_indices.
  pose proof HK as HK'. unfold cv_splits_of in HK'.
  rewrite HK'. run_bind. rewrite py_range_0. run_bind.
  rewrite (all_loop_tests _ _ K); [done..|].
  intros i (j & -> & Hj%elem_of_seq)%list_elem_of_fmap. lia.
Qed.

Lemma get_fold_selection raw_labels which_set parameters K i :
  which_set ≠ ALL →
  cv_splits_of parameters = Ok K → cv_index_of parameters = Ok i →
  0 ≤ i ≤ K - 1 →
  get_cross_validation_indices raw_labels which_set parameters
  = Ok (merge_sort Nat.le (selection raw_labels which_set K i)).
Proof.
  intros Hws HK Hi Hr.
  destruct which_set; [..|done]; by apply fold_indices_selection.
Qed.

(** ** The TEST folds partition every class *)

Lemma test_fold_elem raw_labels K i x :
  0 < K → 0 ≤ i < K →
  x ∈ test_fold raw_labels K i ↔
  ∃ c, 0 ≤ c ≤ 6 ∧ x ∈ fold_slice raw_labels K c (Z.to_nat (K - i)).
Proof.
  intros HK Hi. unfold test_fold. rewrite merge_sort_Permutation.
  unfold selection. rewrite elem_of_concat. split.
  - intros (l & (c & -> & Hc)%list_elem_of_fmap & Hx).
    simpl in Hx. rewrite app_nil_r in Hx.
    exists c. split; [by apply seven_classes_elem|done].
  - intros (c & Hc & Hx). eexists. split.
    + apply list_elem_of_fmap. exists c. split; [done|]. by apply seven_classes_elem.
    + simpl. by rewrite app_nil_r.
Qed.

Lemma test_fold_NoDup raw_labels K i : NoDup (test_fold raw_labels K i).
Proof.
  unfold test_fold. rewrite merge_sort_Permutation. unfold selection.
  apply NoDup_concat.
  - apply Forall_fmap, Forall_forall. intros c _. simpl.
    rewrite app_nil_r. apply fold_slice_NoDup.
  - intros a b l1 l2 x Hab H1 H2 Hx1 Hx2.
    apply list_lookup_fmap_Some in H1 as (c1 & -> & Hc1).
    apply list_lookup_fmap_Some in H2 as (c2 & -> & Hc2).
    simpl in Hx1, Hx2. rewrite app_nil_r in Hx1, Hx2.
    apply fold_slice_label in Hx1, Hx2.
    assert (c1 = c2) as <- by congruence.
    assert (a = b); [|lia].
    eapply NoDup_lookup; [|exact Hc1|exact Hc2].
    apply (bool_decide_unpack _). reflexivity.
Qed.

Lemma test_fold_disjoint raw_labels K i j x :
  0 < K < 2 ^ 53 → Z.of_nat (length raw_labels) < 2 ^ 53 →
  0 ≤ i < K → 0 ≤ j < K → i ≠ j →
  x ∈ test_fold raw_labels K i → x ∉ test_fold raw_labels K j.
Proof.
  intros HK Hlen Hi Hj Hne. rewrite !test_fold_elem by (done || lia).
  intros (c & Hc & Hx) (c' & Hc' & Hx').
  pose proof (fold_slice_label _ _ _ _ _ Hx) as Hl.
  pose proof (fold_slice_label _ _ _ _ _ Hx') as Hl'.
  assert (c = c') as <- by congruence.
  revert Hx'. eapply fold_slice_disjoint; [done|done| | | |exact Hx]; lia.
Qed.

Lemma test_fold_cover raw_labels K c x :
  0 < K → Z.of_nat (length raw_labels) < 2 ^ 53 →
  0 ≤ c ≤ 6 → raw_labels !! x = Some (Num c) →
  ∃ i, 0 ≤ i < K ∧ x ∈ test_fold raw_labels K i.
Proof.
  intros HK Hlen Hc Hx.
  destruct (fold_slice_cover raw_labels K c x HK Hlen Hx) as (k & Hk & Hin).
  exists (K - Z.of_nat k). split; [lia|].
  apply test_fold_elem; [done|lia|]. exists c. split; [done|].
  by replace (Z.to_nat (K - (K - Z.of_nat k))) with k by lia.
Qed.

Lemma test_folds_concat_NoDup raw_labels K :
  0 < K < 2 ^ 53 → Z.of_nat (length raw_labels) < 2 ^ 53 →
  NoDup (concat (test_fold raw_labels K <$> (Z.of_nat <$> seq 0 (Z.to_nat K)))).
Proof.
  intros HK Hlen. apply NoDup_concat.
  - apply Forall_fmap, Forall_forall. intros i _. apply test_fold_NoDup.
  - intros a b l1 l2 x Hab H1 H2 Hx.
    apply list_lookup_fmap_Some in H1 as (i & -> & Hi).
    apply list_lookup_fmap_Some in H2 as (j & -> & Hj).
    apply list_lookup_fmap_Some in Hi as (i' & -> & Hi').
    apply list_lookup_fmap_Some in Hj as (j' & -> & Hj').
    apply lookup_seq in Hi' as [-> Ha]. apply lookup_seq in Hj' as [-> Hb].
    revert Hx. apply test_fold_disjoint; [done|done|lia..].
Qed.

(** Whatever the posts are, a TEST list holds positions of class ids. *)
Lemma test_folds_concat_label raw_labels K x :
  0 < K →
  x ∈ concat (test_fold raw_labels K <$> (Z.of_nat <$> seq 0 (Z.to_nat K))) →
  ∃ c, 0 ≤ c ≤ 6 ∧ raw_labels !! x = Some (Num c).
Proof.
  intros HK. rewrite elem_of_concat.
  intros (l & (i & -> & Hi)%list_elem_of_fmap & Hx).
  apply list_elem_of_fmap in Hi as (j & -> & Hj%elem_of_seq).
  apply test_fold_elem in Hx as (c & Hc & Hx); [|done|lia].
  exists c. split; [done|]. by eapply fold_slice_label.
Qed.

Lemma test_folds_concat_elem raw_labels K x :
  0 < K → Z.of_nat (length raw_labels) < 2 ^ 53 →
  x ∈ concat (test_fold raw_labels K <$> (Z.of_nat <$> seq 0 (Z.to_nat K))) ↔
  ∃ c, 0 ≤ c ≤ 6 ∧ raw_labels !! x = Some (Num c).
Proof.
  intros HK Hlen. split; [by apply test_folds_concat_label|].
  rewrite elem_of_concat.
  - intros (c & Hc & Hx).
    destruct (test_fold_cover raw_labels K c x HK Hlen Hc Hx) as (i & Hi & Hin).
    exists (test_fold raw_labels K i). split; [|done].
    apply list_elem_of_fmap. exists i. split; [done|].
    apply list_elem_of_fmap. exists (Z.to_nat i). split; [lia|].
    apply elem_of_seq. lia.
Qed.

(** ** Claims on the indexer *)

(** C1. For every label array and every [cv_splits = K ≥ 1], the TEST
    lists of [cv_index = 0 .. K-1] are duplicate-free and pairwise
    disjoint, and for every class [c] in [0..6] the indices of label [c]
    that occur in some TEST list are exactly the indices of label [c];
    the [ALL] list is the concatenation of these TEST lists without any
    repetition, it holds exactly the indices whose label is a class, and
    is a rearrangement of the whole corpus when every label is a class.
    The fence posts are those of [np.linspace] in double precision; [K]
    and the number of labels are below [2 ^ 53], the integers a double
    holds exactly. *)
Theorem test_folds_partition (raw_labels : list npfloat) (parameters : dict) (K : Z) :
  cv_splits_of parameters = Ok K → 1 ≤ K < 2 ^ 53 →
  Z.of_nat (length raw_labels) < 2 ^ 53 →
  let test_of := λ i : Z,
    get_cross_validation_indices raw_labels TEST
      (<["cv_index" := VInt i]> parameters) in
  (∀ i, 0 ≤ i < K → ∃ t, test_of i = Ok t ∧ NoDup t) ∧
  (∀ i j ti tj x, 0 ≤ i < K → 0 ≤ j < K → i ≠ j →
     test_of i = Ok ti → test_of j = Ok tj → x ∈ ti → x ∉ tj) ∧
  (∀ c x, 0 ≤ c ≤ 6 →
     (∃ i t, 0 ≤ i < K ∧ test_of i = Ok t ∧ x ∈ t ∧ raw_labels !! x = Some (Num c))
     ↔ raw_labels !! x = Some (Num c)) ∧
  (∃ all, get_cross_validation_indices raw_labels ALL parameters = Ok all ∧
     NoDup all ∧
     (∀ x, x ∈ all ↔ ∃ c, 0 ≤ c ≤ 6 ∧ raw_labels !! x = Some (Num c)) ∧
     (Forall is_class raw_labels → all ≡ₚ seq 0 (length raw_labels))).
Proof.
  intros HK HK1 Hlen test_of.
  assert (∀ i, 0 ≤ i < K → test_of i = Ok (test_fold raw_labels K i)) as Htest.
  { intros i Hi. unfold test_of. apply get_fold_selection; [done| | |lia].
    - by rewrite cv_splits_insert_index.
    - apply cv_index_insert_index. }
  split; [|split; [|split]].
  - intros i Hi. exists (test_fold raw_labels K i).
    split; [by apply Htest|apply test_fold_NoDup].
  - intros i j ti tj x Hi Hj Hne. rewrite !Htest by done.
    intros [= <-] [= <-]. apply test_fold_disjoint; [lia|done..].
  - intros c x Hc. split; [by intros (i & t & _ & _ & _ & Hx)|].
    intros Hx.
    destruct (test_fold_cover raw_labels K c x ltac:(lia) Hlen Hc Hx)
      as (i & Hi & Hin).
    exists i, (test_fold raw_labels K i). by rewrite Htest.
  - eexists. split; [by apply get_all_tests|].
    split; [apply test_folds_concat_NoDup; [lia|done]|].
    split; [intros x; apply test_folds_concat_elem; [lia|done]|].
    intros Hall. apply NoDup_Permutation.
    + apply test_folds_concat_NoDup; [lia|done].
    + apply NoDup_seq.
    + intros x. rewrite test_folds_concat_elem by (lia || done).
      rewrite elem_of_seq. split.
      * intros (c & _ & Hx%lookup_lt_Some). lia.
      * intros [_ Hx]. destruct (lookup_lt_is_Some_2 raw_labels x) as [y Hy]; [lia|].
        rewrite Forall_forall in Hall.
        destruct (Hall y) as (z & -> & Hz); [by eapply list_elem_of_lookup_2|].
        by exists z.
Qed.

Lemma test_folds_partition_witness :
  ∃ all, get_cross_validation_indices (replicate 30 (Num 0)) ALL
           (<["cv_splits" := VInt 22]> ∅) = Ok all
         ∧ all ≡ₚ seq 0 30.
Proof.
  destruct (test_folds_partition (replicate 30 (Num 0))
              (<["cv_splits" := VInt 22]> ∅) 22)
    as (_ & _ & _ & all & Hall & _ & _ & Hperm).
  - reflexivity.
  - lia.
  - simpl. lia.
  - exists all. split; [exact Hall|]. apply Hperm.
    apply Forall_replicate. exists 0. split; [reflexivity|lia].
Defined.

(** C3. For valid [cv_splits = K] and [cv_index = i], the VAL branch
    takes from every class the fold slice [k_val = (K - 1 - i) mod K];
    when that value is 0 the split becomes -1, which reads
    [borders[-2]] and [borders[-1]] and so takes the last fold slice
    [K]; this is the case when [i = K - 1]. *)
Theorem val_takes_corrected_fold (raw_labels : list npfloat) (parameters : dict)
    (K i : Z) :
  cv_splits_of parameters = Ok K → cv_index_of parameters = Ok i →
  0 ≤ i < K →
  let k_val := (K - 1 - i) `mod` K in
  let taken := Z.to_nat (if k_val =? 0 then K else k_val) in
  (∀ c, class_indices raw_labels VAL K i c = Ok (fold_slice raw_labels K c taken)) ∧
  get_cross_validation_indices raw_labels VAL parameters
  = Ok (merge_sort Nat.le
          (concat ((λ c, fold_slice raw_labels K c taken) <$> seven_classes))) ∧
  (k_val = 0 → zero_to_minus_one k_val = -1) ∧
  (i = K - 1 → taken = Z.to_nat K).
Proof.
  intros HK Hi Hr k_val taken.
  assert (∀ c, class_indices raw_labels VAL K i c
               = Ok (fold_slice raw_labels K c taken)) as Hclass.
  { intros c. rewrite class_indices_folds by lia.
    cbn [selected_folds fmap list_fmap concat]. by rewrite app_nil_r. }
  split; [done|]. split; [|split].
  - rewrite (get_fold_selection _ _ _ K i) by (done || lia).
    do 2 f_equal. unfold selection. f_equal. apply list_fmap_ext.
    intros _ c _. cbn [selected_folds fmap list_fmap concat]. by rewrite app_nil_r.
  - by intros ->.
  - intros ->. unfold taken, k_val.
    replace (K - 1 - (K - 1)) with 0 by lia. by rewrite Z.mod_0_l by lia.
Qed.

Lemma val_takes_corrected_fold_witness :
  get_cross_validation_indices [Num 0; Num 0; Num 0; Num 1; Num 0] VAL
    (<["cv_splits" := VInt 2]> (<["cv_index" := VInt 1]> ∅))
  = Ok [2%nat; 3%nat; 4%nat].
Proof.
  destruct (val_takes_corrected_fold [Num 0; Num 0; Num 0; Num 1; Num 0]
              (<["cv_splits" := VInt 2]> (<["cv_index" := VInt 1]> ∅)) 2 1)
    as (_ & H & _).
  - reflexivity.
  - reflexivity.
  - lia.
  - rewrite H. reflexivity.
Defined.

(** C7 (as amended). For [TRAIN], [VAL] and [TEST] and valid
    parameters the call returns a list sorted in ascending order. For
    [ALL] it returns, unsorted, the concatenation of the TEST lists of
    [cv_index = 0 .. K-1], each of which is sorted. *)
Theorem fold_indices_sorted (raw_labels : list npfloat) (parameters : dict)
    (K i : Z) :
  cv_splits_of parameters = Ok K → cv_index_of parameters = Ok i →
  0 ≤ i ≤ K - 1 →
  (∀ which_set, which_set ≠ ALL →
     ∃ out, get_cross_validation_indices raw_labels which_set parameters = Ok out
            ∧ Sorted Nat.le out) ∧
  (∃ tests,
     get_cross_validation_indices raw_labels ALL parameters = Ok (concat tests)
     ∧ length tests = Z.to_nat K
     ∧ ∀ j t, tests !! j = Some t →
         get_cross_validation_indices raw_labels TEST
           (<["cv_index" := VInt (Z.of_nat j)]> parameters) = Ok t
         ∧ Sorted Nat.le t).
Proof.
  intros HK Hi Hr. split.
  - intros which_set Hws. eexists. split; [by eapply get_fold_selection|].
    apply Sorted_merge_sort. apply _.
  - exists (test_fold raw_labels K <$> (Z.of_nat <$> seq 0 (Z.to_nat K))).
    split; [by apply get_all_tests|].
    split; [by rewrite !length_fmap, length_seq|].
    intros j t Hj.
    apply list_lookup_fmap_Some in Hj as (j' & -> & Hj).
    apply list_lookup_fmap_Some in Hj as (j'' & -> & Hj).
    apply lookup_seq in Hj as [-> Hlt]. cbn [Nat.add]. unfold test_fold. split.
    + apply get_fold_selection; [done| | |lia].
      * by rewrite cv_splits_insert_index.
      * apply cv_index_insert_index.
    + apply Sorted_merge_sort. apply _.
Qed.

Lemma fold_indices_sorted_witness :
  ∃ out, get_cross_validation_indices [Num 0; Num 1; Num 0; Num 1; Num 0] TRAIN
           (<["cv_splits" := VInt 3]> ∅) = Ok out
         ∧ Sorted Nat.le out.
Proof.
  destruct (fold_indices_sorted [Num 0; Num 1; Num 0; Num 1; Num 0]
              (<["cv_splits" := VInt 3]> ∅) 3 0) as [H _].
  - reflexivity.
  - reflexivity.
  - lia.
  - apply H. discriminate.
Defined.

(** C7 as stated fails for [ALL]: with two samples of class 0 and two
    folds, the TEST list of fold 0 is [[1]] and that of fold 1 is [[0]]. *)
Lemma all_indices_not_sorted :
  get_cross_validation_indices [Num 0; Num 0] ALL (<["cv_splits" := VInt 2]> ∅)
  = Ok [1%nat; 0%nat]
  ∧ ¬ Sorted Nat.le [1%nat; 0%nat].
Proof.
  split; [reflexivity|].
  intros H. apply Sorted_inv in H as [_ H]. apply HdRel_inv in H. lia.
Qed.

(** C8 (as amended). For [TRAIN], [VAL] and [TEST], a [cv_index]
    outside [0 .. K-1] fails the assertion, whatever [K] is. For [ALL]
    the caller's [cv_index] is not read and the call returns. *)
Theorem cv_index_out_of_range (raw_labels : list npfloat) (parameters : dict)
    (K i : Z) :
  cv_splits_of parameters = Ok K → cv_index_of parameters = Ok i →
  ¬ (0 ≤ i ≤ K - 1) →
  (∀ which_set, which_set ≠ ALL →
     get_cross_validation_indices raw_labels which_set parameters
     = Raise AssertionError) ∧
  (∃ all, get_cross_validation_indices raw_labels ALL parameters = Ok all).
Proof.
  intros HK Hi Hr. split.
  - intros which_set Hws.
    destruct which_set; [..|done]; by eapply fold_indices_assert.
  - eexists. by apply get_all_tests.
Qed.

Lemma cv_index_out_of_range_witness :
  get_cross_validation_indices [Num 0; Num 0] TEST
    (<["cv_splits" := VInt 2]> (<["cv_index" := VInt 2]> ∅))
  = Raise AssertionError.
Proof.
  destruct (cv_index_out_of_range [Num 0; Num 0]
              (<["cv_splits" := VInt 2]> (<["cv_index" := VInt 2]> ∅)) 2 2)
    as [H _].
  - reflexivity.
  - reflexivity.
  - lia.
  - apply H. discriminate.
Defined.

(** C8 as stated fails for [ALL]: a [cv_index] of 7 with two folds
    raises nothing. *)
Lemma all_ignores_cv_index :
  get_cross_validation_indices [Num 0; Num 0] ALL
    (<["cv_splits" := VInt 2]> (<["cv_index" := VInt 7]> ∅))
  = Ok [1%nat; 0%nat]
  ∧ ¬ (0 ≤ 7 ≤ 2 - 1).
Proof. split; [reflexivity|lia]. Qed.

(** ** Windows of one file *)

Lemma windows_loop_inv rd all_labels part_id window data seconds pd0 pl0 r pd pl :
  windows_loop rd all_labels part_id window data seconds pd0 pl0 r = Ok (pd, pl) →
  ∃ labels,
    Forall2 (λ second label,
      window_label rd all_labels part_id seconds second = Ok label) r labels
    ∧ pd = pd0 ++ ((λ second, py_slice data (second - window) second) <$> r)
    ∧ pl = pl0 ++ labels.
Proof.
  revert pd0 pl0. induction r as [|second r IH]; intros pd0 pl0; simpl.
  - intros [= <- <-]. exists []. by rewrite !app_nil_r.
  - destruct (window_label rd all_labels part_id seconds second) as [label|] eqn:E;
      [|done].
    run_bind. intros (labels & HF & -> & ->)%IH.
    exists (label :: labels). rewrite <- !app_assoc. by repeat split; [constructor|..].
Qed.

Lemma window_label_inv rd all_labels part_id (file : list csv_row) (second : nat) label :
  window_label rd all_labels part_id (Second <$> file) (Z.of_nat second) = Ok label →
  ∃ index labels_row row,
    list_index part_id (complete_data_indices rd) = Ok index
    ∧ all_labels !! index = Some labels_row
    ∧ file !! second = Some row
    ∧ py_index labels_row (Second row) = Ok label.
Proof.
  unfold window_label.
  destruct (list_index _ _) as [index|]; [|done]. run_bind.
  destruct (py_index (Second <$> file) _) as [s|] eqn:Hs; [|done]. run_bind.
  destruct (py_index all_labels _) as [labels_row|] eqn:Hrow; [|done]. run_bind.
  intros Hlabel. exists index, labels_row.
  apply py_index_nonneg_inv in Hs, Hrow.
  rewrite list_lookup_fmap in Hs.
  destruct (file !! second) as [row|]; [|done].
  simpl in Hs. injection Hs as <-. by exists row.
Qed.

Lemma file_windows_inv rd all_labels part_id window hop normalize file pd0 pl0 pd pl :
  0 < hop →
  file_windows rd all_labels part_id window (VInt hop) normalize file pd0 pl0
  = Ok (pd, pl) →
  let data := (if normalize then Norm else Raw) <$> file in
  let r := (λ k : nat, window + Z.of_nat k * hop)
             <$> seq 0 (range_count window (Z.of_nat (length file)) hop) in
  ∃ labels,
    Forall2 (λ second label,
      window_label rd all_labels part_id (Second <$> file) second = Ok label) r labels
    ∧ pd = pd0 ++ ((λ second, py_slice data (second - window) second) <$> r)
    ∧ pl = pl0 ++ labels.
Proof.
  intros Hhop. unfold file_windows. cbn [as_int]. run_bind.
  rewrite py_range_up by done. run_bind. rewrite length_fmap.
  apply windows_loop_inv.
Qed.

Lemma range_count_formula start stop step :
  0 < step →
  Z.of_nat (range_count start stop step)
  = if stop <=? start then 0 else (stop - start - 1) / step + 1.
Proof.
  intros Hs. destruct (stop <=? start) eqn:E.
  - apply Z.leb_le in E. by rewrite range_count_0.
  - apply Z.leb_gt in E. unfold range_count.
    replace (stop - start + step - 1) with ((stop - start - 1) + 1 * step) by lia.
    rewrite Z.div_add by lia. rewrite Z2Nat.id; [done|].
    assert (0 ≤ (stop - start - 1) / step); [apply Z.div_pos|]; lia.
Qed.

Lemma py_index_in_range {A} (l : list A) (i : Z) :
  - Z.of_nat (length l) ≤ i < Z.of_nat (length l) → ∃ x, py_index l i = Ok x.
Proof.
  intros Hi. unfold py_index.
  set (j := if i <? 0 then i + Z.of_nat (length l) else i).
  assert (0 ≤ j < Z.of_nat (length l)) as Hj.
  { unfold j. destruct (Z.ltb_spec i 0); lia. }
  rewrite (proj2 (Z.leb_le _ _)), (proj2 (Z.ltb_lt _ _)) by lia. cbn [andb].
  destruct (lookup_lt_is_Some_2 l (Z.to_nat j)) as [x Hx]; [lia|].
  exists x. by rewrite Hx.
Qed.

Lemma windows_loop_returns rd all_labels part_id window data seconds pd0 pl0 r :
  (∀ second, second ∈ r →
     ∃ label, window_label rd all_labels part_id seconds second = Ok label) →
  ∃ out, windows_loop rd all_labels part_id window data seconds pd0 pl0 r = Ok out.
Proof.
  revert pd0 pl0. induction r as [|second r IH]; intros pd0 pl0 Hr; simpl.
  - by eexists.
  - destruct (Hr second) as [label ->]; [by left|]. run_bind.
    apply IH. intros s Hs. apply Hr. by right.
Qed.

(** The loop over a file returns when the participant is known and
    every [Second] value of the file is an index of their label row. *)
Lemma file_windows_returns rd all_labels part_id w h normalize file pd0 pl0
    index labels_row :
  0 ≤ w → 1 ≤ h →
  list_index part_id (complete_data_indices rd) = Ok index →
  all_labels !! index = Some labels_row →
  (∀ row, row ∈ file →
     - Z.of_nat (length labels_row) ≤ Second row < Z.of_nat (length labels_row)) →
  ∃ out,
    file_windows rd all_labels part_id w (VInt h) normalize file pd0 pl0 = Ok out.
Proof.
  intros Hw Hh Hindex Hrow Hsec. unfold file_windows. cbn [as_int]. run_bind.
  rewrite py_range_up by lia. run_bind. rewrite length_fmap.
  apply windows_loop_returns.
  intros second (k & -> & Hk%elem_of_seq)%list_elem_of_fmap.
  assert (w + Z.of_nat k * h < Z.of_nat (length file)) as Hlt.
  { destruct Hk as [_ Hk]. apply Nat2Z.inj_lt in Hk.
    rewrite Nat.add_0_l, range_count_formula in Hk by lia.
    destruct (Z.of_nat (length file) <=? w); [lia|].
    pose proof (Z.mul_div_le (Z.of_nat (length file) - w - 1) h ltac:(lia)).
    nia. }
  destruct (lookup_lt_is_Some_2 file (Z.to_nat (w + Z.of_nat k * h)))
    as [row Hfile]; [lia|].
  unfold window_label. rewrite Hindex. run_bind.
  rewrite <- (Z2Nat.id (w + Z.of_nat k * h)) by lia.
  rewrite (py_index_nonneg _ _ (Second row))
    by (by rewrite list_lookup_fmap, Hfile).
  run_bind. rewrite (py_index_nonneg _ _ _ Hrow). run_bind.
  apply py_index_in_range, Hsec. by eapply list_elem_of_lookup_2.
Qed.

(** ** Claims on the windows *)




(** C4 (as amended). For a present file, a window length [w ≥ 0] and a
    hop [h ≥ 1], the window emitted at the index [second = w + j h]
    holds the [w] rows [second - w .. second - 1] of the file, and its
    label is [labels[participant_index, s]] where [s] is the value of
    the [Second] column at the row [second] itself, the row that
    follows the last row of the window. *)
Theorem window_rows_and_label (rd : Reader) (all_labels : list (list npfloat))
    (part_id w h : Z) (normalize : bool) (file : list csv_row)
    (pd0 pd : list sample) (pl0 pl : list npfloat) :
  0 ≤ w → 1 ≤ h →
  file_windows rd all_labels part_id w (VInt h) normalize file pd0 pl0 = Ok (pd, pl) →
  ∀ j : nat,
    let second := Z.to_nat (w + Z.of_nat j * h) in
    (second < length file)%nat →
    let data := (if normalize then Norm else Raw) <$> file in
    pd !! (length pd0 + j)%nat
      = Some (take (Z.to_nat w) (drop (second - Z.to_nat w) data))
    ∧ length (take (Z.to_nat w) (drop (second - Z.to_nat w) data)) = Z.to_nat w
    ∧ ∃ index labels_row row label,
        list_index part_id (complete_data_indices rd) = Ok index
        ∧ all_labels !! index = Some labels_row
        ∧ file !! second = Some row
        ∧ py_index labels_row (Second row) = Ok label
        ∧ pl !! (length pl0 + j)%nat = Some label.
Proof.
  intros Hw Hh Hrun j second Hlt data.
  apply file_windows_inv in Hrun as (labels & HF & -> & ->); [|lia].
  assert (j < range_count w (Z.of_nat (length file)) h)%nat as Hj.
  { apply Nat2Z.inj_lt. rewrite range_count_formula by lia.
    destruct (Z.of_nat (length file) <=? w) eqn:E; [lia|].
    assert (Z.of_nat j ≤ (Z.of_nat (length file) - w - 1) / h); [|lia].
    apply Z.div_le_lower_bound; lia. }
  assert (((λ k : nat, w + Z.of_nat k * h)
            <$> seq 0 (range_count w (Z.of_nat (length file)) h)) !! j
          = Some (w + Z.of_nat j * h)) as Hsec.
  { rewrite list_lookup_fmap. by rewrite (proj2 (lookup_seq 0 _ j j)) by (split; lia). }
  split; [|split].
  - rewrite lookup_app_r by lia. replace (length pd0 + j - length pd0)%nat with j by lia.
    rewrite list_lookup_fmap, Hsec. simpl. f_equal.
    replace (w + Z.of_nat j * h - w) with (Z.of_nat (second - Z.to_nat w)) by lia.
    replace (w + Z.of_nat j * h) with (Z.of_nat second) by lia.
    rewrite py_slice_inner by (unfold data; rewrite length_fmap; lia).
    f_equal. lia.
  - rewrite length_take, length_drop. unfold data. rewrite length_fmap. lia.
  - destruct (Forall2_lookup_l _ _ _ _ _ HF Hsec) as (label & Hlabel & Hwl).
    replace (w + Z.of_nat j * h) with (Z.of_nat second) in Hwl by lia.
    apply window_label_inv in Hwl as (index & labels_row & row & H1 & H2 & H3 & H4).
    exists index, labels_row, row, label. repeat split; [done..|].
    rewrite lookup_app_r by lia.
    by replace (length pl0 + j - length pl0)%nat with j by lia.
Qed.

Lemma window_rows_and_label_witness :
  ∃ pd pl,
    file_windows (example_reader 3) [[Num 1; Num 2; Num 3]] 1 2 (VInt 1) false
      (example_row <$> seq 0 3) [] [] = Ok (pd, pl)
    ∧ pd !! 0%nat = Some (Raw <$> [example_row 0; example_row 1]).
Proof.
  eexists _, _. split; [reflexivity|].
  refine (proj1 (window_rows_and_label (example_reader 3)
            [[Num 1; Num 2; Num 3]] 1 2 1 false (example_row <$> seq 0 3)
            [] _ [] _ _ _ _ 0%nat _)).
  - lia.
  - lia.
  - reflexivity.
  - vm_compute. lia.
Defined.

(** C4 as stated fails: the window at index 2 of a three-row file spans
    the rows 0 and 1, whose last [Second] value is 1, but its label is
    the one at the [Second] value of row 2. Through [get_raw_data], with
    the schedule of the example reader: the two seconds of the window
    are scheduled as class 3 and the window is labelled 5. *)
Lemma window_label_not_at_terminal_row :
  file_windows (example_reader 3) [[Num 1; Num 2; Num 3]] 1 2 (VInt 1) false
    (example_row <$> seq 0 3) [] []
  = Ok ([Raw <$> [example_row 0; example_row 1]], [Num 3])
  ∧ py_index [Num 1; Num 2; Num 3] (Second (example_row 1)) = Ok (Num 2)
  ∧ Num 3 ≠ Num 2
  ∧ get_raw_data (example_reader 3) (<["window" := VInt 2]> (<["hop" := VInt 1]> ∅))
    = Ok ([Norm <$> [example_row 0; example_row 1]], [Num 5])
  ∧ (all_labels ← get_raw_labels (example_reader 3) (VStr "expected");
     row ← py_index all_labels 0;
     py_index row (Second (example_row 1))) = Ok (Num 3).
Proof.
  split; [reflexivity|]. split; [reflexivity|]. split; [discriminate|].
  split; reflexivity.
Qed.

(** ** Label reconciliation and the corpus *)

Lemma py_index_elem {A} (l : list A) (i : Z) x : py_index l i = Ok x → x ∈ l.
Proof.
  unfold py_index. destruct (_ && _); [|done].
  destruct (l !! _) eqn:E; [|done]. intros [= ->]. by eapply list_elem_of_lookup_2.
Qed.

Lemma py_slice_prefix {A} (l : list A) (n : nat) :
  py_slice l 0 (Z.of_nat n) = take n l.
Proof.
  unfold py_slice, slice_bound.
  destruct (Z.ltb_spec (Z.of_nat n) 0) as [?|_]; [lia|].
  change (0 <? 0) with false. cbv iota.
  rewrite (Z.min_l 0) by lia. change (Z.to_nat 0) with 0%nat.
  rewrite Nat.sub_0_r, drop_0. destruct (decide (n ≤ length l)%nat).
  - by rewrite Z.min_l, Nat2Z.id by lia.
  - rewrite Z.min_r, Nat2Z.id by lia. by rewrite !take_ge by lia.
Qed.

Lemma py_slice_Forall {A} (P : A → Prop) (l : list A) (a b : Z) :
  Forall P l → Forall P (py_slice l a b).
Proof. intros H. unfold py_slice. by apply Forall_take, Forall_drop. Qed.

Lemma slice_assign_Forall {A} (P : A → Prop) (row : list A) (a b : Z) (v : A) :
  P v → Forall P row → Forall P (slice_assign row a b v).
Proof.
  intros Hv H. unfold slice_assign. rewrite !Forall_app. split; [|split].
  - by apply Forall_take.
  - by apply Forall_replicate.
  - by apply Forall_drop.
Qed.

Lemma np_zeros_class rows cols : Forall (Forall is_class) (np_zeros rows cols).
Proof.
  unfold np_zeros. apply Forall_replicate, Forall_replicate.
  exists 0. split; [done|lia].
Qed.

Section class_ids.
Variable rd : Reader.
Hypothesis labels_in_range :
  ∀ emotion v, emotion_labels rd !! emotion = Some v → 0 ≤ v ≤ 6.

Lemma expected_loop_class labels items out :
  Forall (Forall is_class) labels →
  expected_loop rd labels items = Ok out → Forall (Forall is_class) out.
Proof.
  revert labels. induction items as [|[emotion [t_start t_end]] items IH];
    intros labels Hl; simpl.
  - by intros [= <-].
  - destruct (emotion_labels rd !! emotion) as [v|] eqn:Hv; [|done].
    apply IH. apply Forall_fmap. eapply Forall_impl; [exact Hl|].
    intros row Hrow. simpl. apply slice_assign_Forall; [|done].
    exists v. split; [done|]. by eapply labels_in_range.
Qed.

Lemma expected_labels_class expected :
  get_raw_expected_labels rd = Ok expected → Forall (Forall is_class) expected.
Proof. apply expected_loop_class, np_zeros_class. Qed.

End class_ids.

Lemma reconcile_cells expected faceapi :
  Forall (Forall is_class) expected →
  Forall (Forall sentinel_or_class) (reconcile expected faceapi).
Proof.
  unfold reconcile. revert faceapi.
  induction expected as [|erow expected IH]; intros [|frow faceapi] He;
    simpl; try constructor.
  - apply Forall_cons in He as [He _]. clear IH. revert frow.
    induction erow as [|e erow IH]; intros [|f frow]; simpl; try constructor.
    + apply Forall_cons in He as [He _].
      destruct (np_ne e f); [by left|by right].
    + apply IH. by apply Forall_cons in He as [_ He].
  - apply IH. by apply Forall_cons in He as [_ He].
Qed.

Lemma reconcile_lookup expected faceapi p s erow frow e f :
  expected !! p = Some erow → faceapi !! p = Some frow →
  erow !! s = Some e → frow !! s = Some f →
  ∃ row, reconcile expected faceapi !! p = Some row
         ∧ row !! s = Some (if np_ne e f then Num (-1) else e).
Proof.
  intros He Hf Hes Hfs. unfold reconcile. eexists. split.
  - rewrite lookup_zip_with, He. simpl. rewrite Hf. simpl. done.
  - rewrite lookup_zip_with, Hes. simpl. rewrite Hfs. done.
Qed.

Lemma both_mode_reconciles rd expected faceapi :
  get_raw_expected_labels rd = Ok expected →
  get_raw_faceapi_labels rd = Ok faceapi →
  get_raw_labels rd (VStr "both")
  = Ok ((λ row, py_slice row 0 614) <$> reconcile expected faceapi).
Proof.
  intros He Hf. unfold get_raw_labels.
  destruct (decide (VStr "both" = VStr "expected")) as [?|_]; [done|].
  destruct (decide (VStr "both" = VStr "faceapi")) as [?|_]; [done|].
  destruct (decide (VStr "both" = VStr "both")) as [_|?]; [|done].
  by rewrite He, Hf.
Qed.

Lemma both_mode_cells rd all_labels :
  (∀ emotion v, emotion_labels rd !! emotion = Some v → 0 ≤ v ≤ 6) →
  get_raw_labels rd (VStr "both") = Ok all_labels →
  Forall (Forall sentinel_or_class) all_labels.
Proof.
  intros Hrange. unfold get_raw_labels.
  destruct (decide (VStr "both" = VStr "expected")) as [?|_]; [done|].
  destruct (decide (VStr "both" = VStr "faceapi")) as [?|_]; [done|].
  destruct (decide (VStr "both" = VStr "both")) as [_|?]; [|done].
  destruct (get_raw_expected_labels rd) as [expected|] eqn:He; [|done].
  destruct (get_raw_faceapi_labels rd) as [faceapi|]; [|done].
  run_bind. intros [= <-]. apply Forall_fmap.
  eapply Forall_impl; [apply reconcile_cells; by eapply expected_labels_class|].
  intros row Hrow. by apply py_slice_Forall.
Qed.

Section corpus.
Variable rd : Reader.
Variable all_labels : list (list npfloat).
Variable P : npfloat → Prop.
Hypothesis cells : Forall (Forall P) all_labels.

Lemma window_label_cell part_id seconds second label :
  window_label rd all_labels part_id seconds second = Ok label → P label.
Proof.
  unfold window_label.
  destruct (list_index _ _) as [index|]; [|done]. run_bind.
  destruct (py_index seconds _) as [s|]; [|done]. run_bind.
  destruct (py_index all_labels _) as [row|] eqn:Hrow; [|done]. run_bind.
  intros Hl%py_index_elem. apply py_index_elem in Hrow.
  rewrite Forall_forall in cells. specialize (cells row Hrow).
  rewrite Forall_forall in cells. by apply cells.
Qed.

Lemma windows_loop_ok part_id window data seconds pd0 pl0 r out :
  part_ok P (pd0, pl0) →
  windows_loop rd all_labels part_id window data seconds pd0 pl0 r = Ok out →
  part_ok P out.
Proof.
  destruct out as [pd pl]. intros [Hlen Hall].
  intros (labels & HF & -> & ->)%windows_loop_inv.
  unfold part_ok in *. cbn [fst snd] in *. split.
  - rewrite !length_app, length_fmap. apply Forall2_length in HF. lia.
  - apply Forall_app. split; [done|].
    clear Hlen Hall. induction HF as [|second label r labels Hl _ IH]; constructor.
    + by eapply window_label_cell.
    + done.
Qed.

Lemma file_windows_ok part_id window hop normalize file pd0 pl0 out :
  part_ok P (pd0, pl0) →
  file_windows rd all_labels part_id window hop normalize file pd0 pl0 = Ok out →
  part_ok P out.
Proof.
  intros H0. unfold file_windows.
  destruct (as_int hop) as [h|]; [|done]. run_bind.
  destruct (py_range _ _ _) as [r|]; [|done]. run_bind.
  by apply windows_loop_ok.
Qed.

Lemma emotions_loop_ok part_id window hop normalize pd0 pl0 ems out :
  part_ok P (pd0, pl0) →
  emotions_loop rd all_labels part_id window hop normalize pd0 pl0 ems = Ok out →
  part_ok P out.
Proof.
  revert pd0 pl0. induction ems as [|emotion ems IH]; intros pd0 pl0 H0; simpl.
  - by intros [= <-].
  - destruct (watch_file rd emotion part_id) as [file|]; [|by apply IH].
    destruct (file_windows _ _ _ _ _ _ _ _ _) as [[pd1 pl1]|] eqn:Hfile; [|done].
    run_bind. apply IH. by eapply file_windows_ok.
Qed.

Lemma np_mask_length {A B} (a : list A) (b : list B) (mask : list bool) :
  length a = length b → length (np_mask a mask) = length (np_mask b mask).
Proof.
  revert b mask. induction a as [|x a IH]; intros [|y b] [|m mask]; simpl;
    try done.
  intros [= H]. destruct m; simpl; [f_equal|]; by apply IH.
Qed.

(** The mask [part_labels != -1] keeps the labels that differ from -1. *)
Lemma np_mask_kept (pl : list npfloat) :
  Forall P pl →
  Forall (λ l, P l ∧ np_ne l (Num (-1)) = true)
    (np_mask pl ((λ l, np_ne l (Num (-1))) <$> pl)).
Proof.
  induction 1 as [|l pl Hl _ IH]; simpl; [constructor|].
  destruct (np_ne l (Num (-1))) eqn:E; [|done]. by constructor.
Qed.

Lemma participants_loop_ok window hop normalize rd0 rl0 parts out :
  raw_ok P (rd0, rl0) →
  participants_loop rd all_labels window hop normalize rd0 rl0 parts = Ok out →
  raw_ok P out.
Proof.
  revert rd0 rl0. induction parts as [|part_id parts IH]; intros rd0 rl0 H0; simpl.
  - by intros [= <-].
  - destruct (emotions_loop _ _ _ _ _ _ _ _ _) as [[pd pl]|] eqn:Hpart; [|done].
    run_bind. apply emotions_loop_ok in Hpart as [Hlen Hall]; [|by split].
    simpl in Hlen, Hall.
    destruct (_ =? 0); [by apply IH|]. apply IH.
    destruct H0 as [Hlen0 Hall0]. simpl in *. split; simpl.
    + rewrite !length_app. f_equal; [done|]. by apply np_mask_length.
    + apply Forall_app. split; [done|]. by apply np_mask_kept.
Qed.

End corpus.

Lemma np_ne_sentinel l : np_ne l (Num (-1)) = true → l ≠ Num (-1).
Proof. by intros H ->. Qed.

(** Whatever the label mode, [get_raw_data] keeps no window labelled
    -1 and as many windows as labels. *)
Lemma get_raw_data_drops_sentinel rd parameters raw_data raw_labels :
  get_raw_data rd parameters = Ok (raw_data, raw_labels) →
  (Num (-1) ∉ raw_labels) ∧ length raw_data = length raw_labels.
Proof.
  unfold get_raw_data.
  destruct (get_raw_labels rd _) as [all_labels|]; [|done]. run_bind.
  destruct (as_int _) as [window|]; [|done]. run_bind.
  destruct (window <? 0); [done|].
  intros [Hlen Hall]%(participants_loop_ok rd all_labels (λ _, True)).
  - simpl in *. split; [|done]. intros Hin. rewrite Forall_forall in Hall.
    destruct (Hall _ Hin) as [_ Hne]. by apply np_ne_sentinel in Hne.
  - apply Forall_forall. intros row _. by apply Forall_forall.
  - by split.
Qed.

(** The two masked arrays of a participant are the windows and the
    labels of the pairs whose label is not -1. *)
Lemma np_mask_zip (pd : list sample) (pl : list npfloat) :
  length pd = length pl →
  let keep := (λ l, np_ne l (Num (-1))) <$> pl in
  zip (np_mask pd keep) (np_mask pl keep)
  = filter (λ wl : sample * npfloat, wl.2 ≠ Num (-1)) (zip pd pl).
Proof.
  revert pl. induction pd as [|w pd IH]; intros [|l pl]; simpl; try done.
  intros [= Hlen]. specialize (IH pl Hlen). simpl in IH.
  rewrite filter_cons. destruct (np_ne l (Num (-1))) eqn:E; simpl.
  - apply np_ne_sentinel in E. rewrite decide_True by done. f_equal. exact IH.
  - assert (l = Num (-1)) as ->.
    { destruct l as [z|]; [|done]. simpl in E.
      destruct (Z.eqb_spec z (-1)); [by subst|done]. }
    rewrite decide_False by (by intros H; apply H). exact IH.
Qed.

Lemma emotions_loop_length rd all_labels part_id window hop normalize ems pd pl :
  emotions_loop rd all_labels part_id window hop normalize [] [] ems = Ok (pd, pl) →
  length pd = length pl.
Proof.
  intros [Hlen _]%(emotions_loop_ok rd all_labels (λ _, True)); [done| |by split].
  apply Forall_forall. intros row _. by apply Forall_forall.
Qed.

(** The loop over the participants appends, to each of its two
    arrays, one component of the emitted pairs whose label is not -1. *)
Lemma participants_loop_emitted rd all_labels window hop normalize rd0 rl0 parts out :
  participants_loop rd all_labels window hop normalize rd0 rl0 parts = Ok out →
  ∃ emitted kept_data kept_labels,
    emitted_loop rd all_labels window hop normalize parts = Ok emitted
    ∧ out = (rd0 ++ kept_data, rl0 ++ kept_labels)
    ∧ length kept_data = length kept_labels
    ∧ zip kept_data kept_labels
      = filter (λ wl : sample * npfloat, wl.2 ≠ Num (-1)) emitted.
Proof.
  revert rd0 rl0. induction parts as [|part_id parts IH]; intros rd0 rl0; simpl.
  - intros [= <-]. exists [], [], []. by rewrite !app_nil_r.
  - destruct (emotions_loop _ _ _ _ _ _ _ _ _) as [[pd pl]|] eqn:Hpart; [|done].
    run_bind. pose proof (emotions_loop_length _ _ _ _ _ _ _ _ _ Hpart) as Hlen.
    destruct (_ =? 0).
    + intros (emitted & kd & kl & -> & -> & Hl & Hz)%IH. run_bind.
      by exists emitted, kd, kl.
    + intros (emitted & kd & kl & -> & -> & Hl & Hz)%IH. run_bind.
      set (keep := (λ l, np_ne l (Num (-1))) <$> pl).
      exists (zip pd pl ++ emitted), (np_mask pd keep ++ kd), (np_mask pl keep ++ kl).
      split; [done|]. split; [by rewrite !app_assoc|]. split.
      * rewrite !length_app. f_equal; [|done]. by apply np_mask_length.
      * pose proof (np_mask_zip pd pl Hlen) as Hm. cbv zeta in Hm. fold keep in Hm.
        rewrite filter_app, <- Hz, <- Hm.
        apply zip_with_app. by apply np_mask_length.
Qed.

(** Whatever the label mode, the corpus of [get_raw_data] is, pair by
    pair and in order, the emitted windows whose label is not -1. *)
Lemma get_raw_data_keeps_pairs rd parameters raw_data raw_labels :
  get_raw_data rd parameters = Ok (raw_data, raw_labels) →
  ∃ emitted, emitted_windows rd parameters = Ok emitted
    ∧ raw_data = (filter (λ wl : sample * npfloat, wl.2 ≠ Num (-1)) emitted).*1
    ∧ raw_labels = (filter (λ wl : sample * npfloat, wl.2 ≠ Num (-1)) emitted).*2.
Proof.
  unfold get_raw_data, emitted_windows.
  destruct (get_raw_labels rd _) as [all_labels|]; [|done]. run_bind.
  destruct (as_int _) as [window|]; [|done]. run_bind.
  destruct (window <? 0); [done|].
  intros (emitted & kd & kl & -> & [= -> ->] & Hl & Hz)%participants_loop_emitted.
  exists emitted. split; [done|]. rewrite <- Hz. split.
  - by rewrite fst_zip by lia.
  - by rewrite snd_zip by lia.
Qed.

(** ** Claim on the reconciled corpus *)

(** C2. Under [label_mode = "both"]: the label of a participant and a
    second below 614 is the expected label where the expected and the
    faceapi cell agree and the sentinel -1 where they differ; in the
    corpus that [get_raw_data] builds no label is -1, there are as many
    windows as labels, and the windows and the labels are, in order,
    the two components of the emitted pairs whose label is not -1 (a
    window labelled -1 goes together with its label, every other
    window stays with its own label); and every label is in [0..6], the class ids of
    [emotion_labels] being in [0..6]. *)
Theorem both_mode_corpus (rd : Reader) (parameters : dict) :
  dict_get parameters "label_mode" (VStr (default_label_mode rd)) = VStr "both" →
  (∀ expected faceapi,
     get_raw_expected_labels rd = Ok expected →
     get_raw_faceapi_labels rd = Ok faceapi →
     ∃ labels, get_raw_labels rd (VStr "both") = Ok labels ∧
       ∀ p s erow frow e f, (s < 614)%nat →
         expected !! p = Some erow → faceapi !! p = Some frow →
         erow !! s = Some e → frow !! s = Some f →
         ∃ row, labels !! p = Some row ∧
           row !! s = Some (if np_ne e f then Num (-1) else e)) ∧
  (∀ raw_data raw_labels,
     get_raw_data rd parameters = Ok (raw_data, raw_labels) →
     (Num (-1) ∉ raw_labels)
     ∧ length raw_data = length raw_labels
     ∧ (∃ emitted, emitted_windows rd parameters = Ok emitted
          ∧ let kept := filter (λ wl : sample * npfloat, wl.2 ≠ Num (-1)) emitted in
            raw_data = kept.*1 ∧ raw_labels = kept.*2)
     ∧ ((∀ emotion v, emotion_labels rd !! emotion = Some v → 0 ≤ v ≤ 6) →
        Forall is_class raw_labels)).
Proof.
  intros Hmode. split.
  - intros expected faceapi He Hf. eexists. split; [by apply both_mode_reconciles|].
    intros p s erow frow e f Hs Hp Hp' Hes Hfs.
    destruct (reconcile_lookup expected faceapi p s erow frow e f)
      as (row & Hrow & Hcell); [done..|].
    exists (py_slice row 0 614). split.
    + by rewrite list_lookup_fmap, Hrow.
    + change 614 with (Z.of_nat 614). rewrite py_slice_prefix.
      by rewrite lookup_take_lt by lia.
  - intros raw_data raw_labels Hrun.
    destruct (get_raw_data_drops_sentinel _ _ _ _ Hrun) as [Hno Hlen].
    split; [done|]. split; [done|].
    split; [by apply get_raw_data_keeps_pairs|]. intros Hrange.
    revert Hrun. unfold get_raw_data. rewrite Hmode.
    destruct (get_raw_labels rd (VStr "both")) as [all_labels|] eqn:Hlabels; [|done].
    run_bind. destruct (as_int _) as [window|]; [|done]. run_bind.
    destruct (window <? 0); [done|].
    intros [_ Hall]%(participants_loop_ok rd all_labels sentinel_or_class).
    + simpl in Hall. eapply Forall_impl; [exact Hall|].
      intros l [[->|Hl] Hne]; [done|done].
    + by eapply both_mode_cells.
    + by split.
Qed.

Lemma both_mode_corpus_witness :
  ∃ emitted,
    get_raw_data (example_reader 3)
      (<["label_mode" := VStr "both"]> (<["window" := VInt 1]> (<["hop" := VInt 1]> ∅)))
    = Ok ([[[0; 1; 1; 1; 1]%Q]], [Num 3])
    ∧ emitted_windows (example_reader 3)
        (<["label_mode" := VStr "both"]> (<["window" := VInt 1]> (<["hop" := VInt 1]> ∅)))
      = Ok emitted
    ∧ [[[0; 1; 1; 1; 1]%Q]]
      = (filter (λ wl : sample * npfloat, wl.2 ≠ Num (-1)) emitted).*1
    ∧ Forall is_class [Num 3].
Proof.
  set (parameters :=
    <["label_mode" := VStr "both"]> (<["window" := VInt 1]> (<["hop" := VInt 1]> ∅))
    : dict).
  assert (dict_get parameters "label_mode"
            (VStr (default_label_mode (example_reader 3))) = VStr "both") as Hmode
    by reflexivity.
  assert (get_raw_data (example_reader 3) parameters
          = Ok ([[[0; 1; 1; 1; 1]%Q]], [Num 3])) as Hrun by reflexivity.
  destruct (proj2 (both_mode_corpus (example_reader 3) parameters Hmode) _ _ Hrun)
    as (_ & _ & (emitted & He & Hd & _) & Hc).
  exists emitted. split; [exact Hrun|]. split; [exact He|]. split; [exact Hd|].
  apply Hc. intros emotion v. simpl.
  destruct (decide (emotion = "happy")) as [->|?];
    [rewrite lookup_insert_eq; intros [= <-]; lia|].
  rewrite lookup_insert_ne by done.
  destruct (decide (emotion = "sad")) as [->|?];
    [rewrite lookup_insert_eq; intros [= <-]; lia|].
  rewrite lookup_insert_ne by done. by rewrite lookup_empty.
Defined.

(** ** The dataset and its labels *)

Lemma batch_loop_concat {A} (fuel n : nat) (l : list A) :
  (0 < n)%nat → (length l ≤ fuel)%nat → concat (batch_loop fuel n l) = l.
Proof.
  intros Hn. revert l. induction fuel as [|fuel IH]; intros l Hl.
  - destruct l; [done|simpl in Hl; lia].
  - destruct l as [|x l]; [done|].
    cbn [batch_loop concat]. rewrite IH.
    + apply take_drop.
    + rewrite length_drop. simpl in *. lia.
Qed.

Lemma labels_loop_observed (labels : list nat) (dataset : list batch) :
  labels_loop labels dataset = labels ++ observed_labels dataset.
Proof.
  revert labels. induction dataset as [|[features batch_labels] dataset IH];
    intros labels; simpl.
  - by rewrite app_nil_r.
  - rewrite IH. unfold observed_labels. simpl. by rewrite <- app_assoc.
Qed.

Lemma concat_fmap_fmap {A B} (f : A → B) (ls : list (list A)) :
  concat (fmap (M:=list) f <$> ls) = f <$> concat ls.
Proof.
  induction ls as [|l ls IH]; simpl; [done|]. rewrite fmap_app. f_equal. exact IH.
Qed.

(** Batching does not change the label sequence, whatever the batch size. *)
Lemma observed_labels_batch (n : nat) (samples : list (sample * list Z)) :
  (0 < n)%nat →
  observed_labels (tf_batch n samples) = np_argmax Z.ltb <$> (snd <$> samples).
Proof.
  intros Hn. unfold observed_labels, tf_batch.
  rewrite <- list_fmap_compose.
  trans (concat (fmap (M:=list) (np_argmax Z.ltb ∘ snd)
                   <$> batch_loop (length samples) n samples)).
  { f_equal. apply list_fmap_ext. intros _ group _. simpl.
    by rewrite <- list_fmap_compose. }
  rewrite concat_fmap_fmap, batch_loop_concat by lia.
  by rewrite list_fmap_compose.
Qed.

Lemma or_empty_dict_same (h : heap) (l : loc) :
  h !!! l ≠ (∅ : dict) → or_empty_dict h (Some l) = (h, l).
Proof. intros H. unfold or_empty_dict. by destruct (decide _). Qed.

(** After [parameters or {}] the variable names a dictionary with the
    entries of the argument. *)
Lemma or_empty_dict_content (h : heap) (parameters : option loc) :
  (or_empty_dict h parameters).1 !!! (or_empty_dict h parameters).2
  = dict_of h parameters.
Proof.
  unfold or_empty_dict, dict_of. destruct parameters as [l|].
  - destruct (decide _) as [->|]; simpl; [|done]. by rewrite lookup_total_insert_eq.
  - simpl. by rewrite lookup_total_insert_eq.
Qed.

Lemma get_seven_emotion_data_run rd (h : heap) which_set batch_size (l : loc) :
  h !!! l ≠ (∅ : dict) →
  get_seven_emotion_data rd h which_set batch_size (Some l)
  = (h,
     let d : dict := h !!! l in
     raw ← get_raw_data rd d;
     if batch_size <=? 0 then Raise InvalidArgumentError
     else
       samples ← from_generator (get_data_generator raw.1 raw.2 which_set d);
       let samples :=
         if truthy (dict_get d "shuffle" (VBool (bool_decide (which_set = TRAIN))))
         then tf_shuffle rd samples else samples in
       Ok (tf_batch (Z.to_nat batch_size) samples)).
Proof.
  intros H. unfold get_seven_emotion_data. by rewrite or_empty_dict_same.
Qed.

(** The label vector of [get_labels] in terms of the generator run on
    the dictionary with ["shuffle"] forced to [False]. *)
Lemma get_labels_run rd (h : heap) which_set parameters :
  let d : dict := <["shuffle" := VBool false]> (dict_of h parameters) in
  (get_labels rd h which_set parameters).2 = stream_labels rd which_set d.
Proof.
  intros d. unfold get_labels, stream_labels.
  pose proof (or_empty_dict_content h parameters) as Hc.
  destruct (or_empty_dict h parameters) as [h1 l1]. simpl in Hc.
  rewrite get_seven_emotion_data_run.
  2: { rewrite lookup_total_insert_eq. apply insert_non_empty. }
  cbn [snd]. rewrite lookup_total_insert_eq, Hc. fold d.
  cbv zeta. destruct (get_raw_data rd d) as [raw|]; [|done]. run_bind.
  change (100 <=? 0) with false. cbv iota.
  destruct (get_data_generator _ _ _ _) as [samples|]; [|done].
  cbn [from_generator]. run_bind.
  unfold dict_get, d. rewrite lookup_insert_eq. cbn [truthy].
  rewrite labels_loop_observed. cbn [app].
  by rewrite observed_labels_batch by lia.
Qed.

(** ** Claims on [get_labels] *)

(** C9. For every split and every parameter dictionary, the vector
    [get_labels] returns is the sequence of the argmax of the one-hot
    rows, batch after batch, of the unshuffled seven-emotion dataset of
    that split, i.e. the dataset built from the same entries with
    ["shuffle"] false; this holds for the batch size 100 and for every
    other positive batch size (an exception of one side is the
    exception of the other). It is also the argmax sequence of the
    samples the generator yields, before any batching. *)
Theorem get_labels_is_unshuffled_stream (rd : Reader) (h h' : heap)
    (which_set : SetTag) (parameters : option loc) (l' : loc) (batch_size : Z) :
  0 < batch_size →
  h' !! l' = Some (<["shuffle" := VBool false]> (dict_of h parameters)) →
  (get_labels rd h which_set parameters).2
  = observed_labels <$> (get_seven_emotion_data rd h' which_set batch_size (Some l')).2
  ∧ (get_labels rd h which_set parameters).2
    = stream_labels rd which_set (<["shuffle" := VBool false]> (dict_of h parameters)).
Proof.
  intros Hb Hl'. split; [|apply get_labels_run].
  rewrite get_labels_run. cbv zeta. unfold stream_labels.
  apply lookup_total_correct in Hl'.
  rewrite get_seven_emotion_data_run by (rewrite Hl'; apply insert_non_empty).
  cbn [snd]. rewrite Hl'. cbv zeta.
  destruct (get_raw_data rd _) as [raw|]; [|done]. run_bind.
  destruct (Z.leb_spec batch_size 0) as [?|_]; [lia|].
  destruct (get_data_generator _ _ _ _) as [samples|]; [|done].
  cbn [from_generator]. run_bind.
  unfold dict_get. rewrite lookup_insert_eq. cbn [truthy].
  by rewrite observed_labels_batch by lia.
Qed.

Lemma get_labels_is_unshuffled_stream_witness :
  (get_labels (example_reader 5)
     (<[0%nat := <["window" := VInt 1]> (<["shuffle" := VBool true]> ∅)]> ∅)
     ALL (Some 0%nat)).2
  = observed_labels <$>
      (get_seven_emotion_data (example_reader 5)
         (<[7%nat := <["window" := VInt 1]> (<["shuffle" := VBool false]> ∅)]> ∅)
         ALL 100 (Some 7%nat)).2.
Proof.
  refine (proj1 (get_labels_is_unshuffled_stream (example_reader 5)
           (<[0%nat := <["window" := VInt 1]> (<["shuffle" := VBool true]> ∅)]> ∅)
           (<[7%nat := <["window" := VInt 1]> (<["shuffle" := VBool false]> ∅)]> ∅)
           ALL (Some 0%nat) 7%nat 100 _ _)).
  - lia.
  - vm_compute. reflexivity.
Defined.

(** C10. When the caller passes a non-empty dictionary, [get_labels]
    writes into that very object: after the call (whether it returned or
    raised) the caller's dictionary has ["shuffle"] set to [False] and
    every other key as before; no other dictionary of the store has
    changed. *)
Theorem get_labels_forces_shuffle (rd : Reader) (h : heap) (which_set : SetTag)
    (l : loc) (d : dict) :
  h !! l = Some d → d ≠ ∅ →
  let h' := (get_labels rd h which_set (Some l)).1 in
  h' !! l = Some (<["shuffle" := VBool false]> d)
  ∧ (∀ d', h' !! l = Some d' →
       d' !! "shuffle" = Some (VBool false)
       ∧ ∀ key, key ≠ "shuffle" → d' !! key = d !! key)
  ∧ (∀ l0, l0 ≠ l → h' !! l0 = h !! l0).
Proof.
  intros Hl Hd h'.
  assert (h' = <[l := <["shuffle" := VBool false]> d]> h) as ->.
  { unfold h', get_labels. apply lookup_total_correct in Hl.
    rewrite or_empty_dict_same by by rewrite Hl.
    rewrite get_seven_emotion_data_run.
    - cbn [fst]. by rewrite Hl.
    - rewrite lookup_total_insert_eq. apply insert_non_empty. }
  split; [|split].
  - apply lookup_insert_eq.
  - intros d'. rewrite lookup_insert_eq. intros [= <-]. split.
    + apply lookup_insert_eq.
    + intros key Hkey. by rewrite lookup_insert_ne.
  - intros l0 Hl0. by rewrite lookup_insert_ne.
Qed.

Lemma get_labels_forces_shuffle_witness :
  (get_labels (example_reader 5)
     (<[0%nat := <["window" := VInt 1]> (<["shuffle" := VBool true]> ∅)]> ∅)
     TRAIN (Some 0%nat)).1 !! 0%nat
  = Some (<["shuffle" := VBool false]>
            (<["window" := VInt 1]> (<["shuffle" := VBool true]> ∅))).
Proof.
  refine (proj1 (get_labels_forces_shuffle (example_reader 5)
    (<[0%nat := <["window" := VInt 1]> (<["shuffle" := VBool true]> ∅)]> ∅)
    TRAIN 0%nat (<["window" := VInt 1]> (<["shuffle" := VBool true]> ∅)) _ _)).
  - reflexivity.
  - apply insert_non_empty.
Defined.

(** The complement of C10: an empty dictionary is left alone, the
    write goes to a new object. *)
Lemma get_labels_leaves_empty_dict (rd : Reader) (h : heap) (which_set : SetTag)
    (l : loc) :
  h !! l = Some ∅ →
  (get_labels rd h which_set (Some l)).1 !! l = Some ∅.
Proof.
  intros Hl. unfold get_labels, or_empty_dict.
  rewrite (lookup_total_correct _ _ _ Hl).
  destruct (decide _) as [_|?]; [|done].
  assert (fresh (dom h) ≠ l) as Hne.
  { intros <-. apply (is_fresh (dom h)). apply elem_of_dom. by eexists. }
  rewrite get_seven_emotion_data_run.
  - cbn [fst]. by rewrite lookup_insert_ne, lookup_insert_ne.
  - rewrite lookup_total_insert_eq. apply insert_non_empty.
Qed.

(** ** Claim on the taxonomy *)

(** C6 (as amended). Pushing the uniform distribution over the seven
    classes through [conversion_dict] gives class 0 the weight 2/7,
    class 1 the weight 1/7 and class 2 the weight 4/7: the preimage of
    class 0 is [{1, 3}], that of class 1 is [{6}] and that of class 2 is
    [{0, 2, 4, 5}]. *)
Theorem conversion_push_forward :
  (push_forward uniform_seven 0 == 2 # 7)%Q
  ∧ (push_forward uniform_seven 1 == 1 # 7)%Q
  ∧ (push_forward uniform_seven 2 == 4 # 7)%Q
  ∧ preimage 0 = [1; 3] ∧ preimage 1 = [6] ∧ preimage 2 = [0; 2; 4; 5].
Proof. repeat split; reflexivity. Qed.

(** C6 as stated fails: class 0 has two preimages, not four, and
    class 2 has four, not two. *)
Lemma conversion_not_four_one_two :
  ¬ (length (preimage 0) = 4%nat ∧ length (preimage 1) = 1%nat
     ∧ length (preimage 2) = 2%nat)
  ∧ ¬ (push_forward uniform_seven 0 == 4 # 7)%Q.
Proof.
  split.
  - intros [H _]. vm_compute in H. discriminate.
  - intros H. vm_compute in H. discriminate.
Qed.

(** * Further properties *)

(** ** The three splits of one fold *)

Lemma fold_of_offset_inj K i j j' :
  0 < K → 0 ≤ j < K → 0 ≤ j' < K →
  fold_of_offset K i j = fold_of_offset K i j' → j = j'.
Proof.
  intros HK Hj Hj'. unfold fold_of_offset, corrected_fold.
  pose proof (Z.mod_pos_bound (j - i) K HK) as Hb.
  pose proof (Z.mod_pos_bound (j' - i) K HK) as Hb'.
  pose proof (Z.div_mod (j - i) K ltac:(lia)) as Hd.
  pose proof (Z.div_mod (j' - i) K ltac:(lia)) as Hd'.
  intros Heq.
  assert ((j - i) `mod` K = (j' - i) `mod` K) as Hm.
  { revert Heq.
    destruct (Z.eqb_spec ((j - i) `mod` K) 0), (Z.eqb_spec ((j' - i) `mod` K) 0); lia. }
  rewrite Hm in Hd. clear Heq Hm Hb.
  set (q := (j - i) / K) in *. set (q' := (j' - i) / K) in *.
  set (m := (j' - i) `mod` K) in *. clearbody q q' m.
  assert (q = q') as -> by nia. lia.
Qed.

Lemma fold_of_offset_surj K i k :
  0 < K → (1 ≤ k ≤ Z.to_nat K)%nat →
  ∃ j, 0 ≤ j < K ∧ fold_of_offset K i j = k.
Proof.
  intros HK Hk. exists ((Z.of_nat k + i) `mod` K).
  split; [by apply Z.mod_pos_bound|].
  unfold fold_of_offset, corrected_fold.
  rewrite Zminus_mod_idemp_l. replace (Z.of_nat k + i - i) with (Z.of_nat k) by lia.
  destruct (decide (k = Z.to_nat K)) as [->|Hne].
  - rewrite Z2Nat.id, Z.mod_same by lia. done.
  - rewrite Z.mod_small by lia. destruct (Z.eqb_spec (Z.of_nat k) 0); lia.
Qed.

Lemma test_is_offset_0 K i :
  0 < K → 0 ≤ i < K → Z.to_nat (K - i) = fold_of_offset K i 0.
Proof.
  intros HK Hi. unfold fold_of_offset, corrected_fold.
  destruct (decide (i = 0)) as [->|Hne].
  - replace ((0 - 0) `mod` K) with 0 by (symmetry; apply Z.mod_0_l; lia).
    change (0 =? 0) with true. cbv iota. f_equal. lia.
  - replace (0 - i) with (K - i + (-1) * K) by lia.
    rewrite Z.mod_add, Z.mod_small by lia.
    destruct (Z.eqb_spec (K - i) 0); [lia|done].
Qed.

Lemma selected_folds_offsets which_set K i k :
  0 < K → 0 ≤ i < K →
  k ∈ selected_folds which_set K i ↔
  ∃ j, 0 ≤ j < K ∧ split_offset which_set K j ∧ fold_of_offset K i j = k.
Proof.
  intros HK Hi. destruct which_set; simpl.
  - rewrite list_elem_of_fmap. split.
    + intros (j & -> & Hj%elem_of_seq). exists (Z.of_nat j).
      split; [lia|]. split; [lia|done].
    + intros (j & Hj & Hoff & <-). exists (Z.to_nat j). split.
      * unfold fold_of_offset. by rewrite Z2Nat.id by lia.
      * apply elem_of_seq. lia.
  - rewrite list_elem_of_singleton. split.
    + intros ->. exists (K - 1). split; [lia|]. split; [done|].
      unfold fold_of_offset. done.
    + intros (j & _ & -> & <-). done.
  - rewrite list_elem_of_singleton. split.
    + intros ->. exists 0. split; [lia|]. split; [done|].
      symmetry. by apply test_is_offset_0.
    + intros (j & _ & -> & <-). symmetry. by apply test_is_offset_0.
  - rewrite elem_of_nil. split; [done|]. by intros (j & _ & [] & _).
Qed.

Lemma selected_folds_in_range which_set K i k :
  0 < K → 0 ≤ i < K → k ∈ selected_folds which_set K i →
  (1 ≤ k ≤ Z.to_nat K)%nat.
Proof.
  intros HK Hi (j & Hj & _ & <-)%selected_folds_offsets; [|done..].
  unfold fold_of_offset, corrected_fold.
  pose proof (Z.mod_pos_bound (j - i) K HK).
  destruct (Z.eqb_spec ((j - i) `mod` K) 0); lia.
Qed.

Lemma selected_folds_NoDup which_set K i :
  0 < K → 0 ≤ i < K → NoDup (selected_folds which_set K i).
Proof.
  intros HK Hi. destruct which_set; simpl.
  - apply NoDup_fmap_2_strong; [|apply NoDup_seq].
    intros a b Ha%elem_of_seq Hb%elem_of_seq Heq.
    apply (fold_of_offset_inj K i) in Heq; lia.
  - apply NoDup_singleton.
  - apply NoDup_singleton.
  - constructor.
Qed.

Lemma selection_elem raw_labels which_set K i x :
  x ∈ selection raw_labels which_set K i ↔
  ∃ c k, 0 ≤ c ≤ 6 ∧ k ∈ selected_folds which_set K i
         ∧ x ∈ fold_slice raw_labels K c k.
Proof.
  unfold selection. rewrite elem_of_concat. split.
  - intros (l & (c & -> & Hc)%list_elem_of_fmap & Hx).
    apply elem_of_concat in Hx as (l' & (k & -> & Hk)%list_elem_of_fmap & Hx).
    exists c, k. split; [by apply seven_classes_elem|done].
  - intros (c & k & Hc & Hk & Hx). eexists. split.
    + apply list_elem_of_fmap. exists c. split; [done|]. by apply seven_classes_elem.
    + apply elem_of_concat. eexists. split; [|exact Hx].
      apply list_elem_of_fmap. by exists k.
Qed.

Lemma seven_classes_NoDup : NoDup seven_classes.
Proof. apply (bool_decide_unpack _). reflexivity. Qed.

Lemma selection_NoDup raw_labels which_set K i :
  0 < K < 2 ^ 53 → Z.of_nat (length raw_labels) < 2 ^ 53 → 0 ≤ i < K →
  NoDup (selection raw_labels which_set K i).
Proof.
  intros [HK HK'] Hlen Hi. unfold selection. apply NoDup_concat.
  - apply Forall_fmap, Forall_forall. intros c _. simpl. apply NoDup_concat.
    + apply Forall_fmap, Forall_forall. intros k _. apply fold_slice_NoDup.
    + intros a b l1 l2 x Hab H1 H2 Hx1.
      apply list_lookup_fmap_Some in H1 as (k1 & -> & Hk1).
      apply list_lookup_fmap_Some in H2 as (k2 & -> & Hk2).
      revert Hx1. apply fold_slice_disjoint; [done|done| | |].
      * eapply selected_folds_in_range; [done..|]. by eapply list_elem_of_lookup_2.
      * eapply selected_folds_in_range; [done..|]. by eapply list_elem_of_lookup_2.
      * intros <-. assert (a = b); [|lia].
        eapply NoDup_lookup; [by apply selected_folds_NoDup|done..].
  - intros a b l1 l2 x Hab H1 H2 Hx1 Hx2.
    apply list_lookup_fmap_Some in H1 as (c1 & -> & Hc1).
    apply list_lookup_fmap_Some in H2 as (c2 & -> & Hc2).
    apply elem_of_concat in Hx1 as (s1 & (k1 & -> & _)%list_elem_of_fmap & Hx1).
    apply elem_of_concat in Hx2 as (s2 & (k2 & -> & _)%list_elem_of_fmap & Hx2).
    apply fold_slice_label in Hx1, Hx2.
    assert (c1 = c2) as <- by congruence.
    assert (a = b); [|lia].
    eapply NoDup_lookup; [apply seven_classes_NoDup|done..].
Qed.

Lemma selection_class_position raw_labels which_set K i x :
  x ∈ selection raw_labels which_set K i → class_position raw_labels x.
Proof.
  intros (c & k & Hc & _ & Hx)%selection_elem. exists c. split; [done|].
  by eapply fold_slice_label.
Qed.

(** A call that returns had an integer [cv_splits]; outside [ALL] it
    also had a [cv_index] in range. *)
Lemma fold_indices_Ok_inv raw_labels which_set parameters out :
  fold_indices raw_labels which_set parameters = Ok out →
  ∃ K i, cv_splits_of parameters = Ok K ∧ cv_index_of parameters = Ok i
         ∧ 0 ≤ i ≤ K - 1.
Proof.
  unfold fold_indices, cv_splits_of, cv_index_of.
  destruct (as_int (dict_get parameters "cv_splits" _)) as [K|]; [|done]. run_bind.
  destruct (as_int (dict_get parameters "cv_index" _)) as [i|]; [|done]. run_bind.
  destruct (Z.leb_spec i (K - 1)); [|done].
  destruct (Z.leb_spec 0 i); [|done]. intros _. exists K, i. by repeat split; try lia.
Qed.

(** X1. For [cv_splits = K ≥ 2] and a valid [cv_index], the TRAIN, VAL
    and TEST lists are pairwise disjoint and together hold exactly the
    positions whose label is a class id: the TRAIN offsets [1 .. K-2],
    the VAL offset [K-1] and the TEST offset 0 are all the folds. The
    fence posts are those of [np.linspace] in double precision; [K] and
    the number of labels are below [2 ^ 53]. *)
Theorem splits_partition (raw_labels : list npfloat) (parameters : dict) (K i : Z) :
  cv_splits_of parameters = Ok K → cv_index_of parameters = Ok i →
  2 ≤ K < 2 ^ 53 → Z.of_nat (length raw_labels) < 2 ^ 53 → 0 ≤ i ≤ K - 1 →
  ∃ train val test,
    get_cross_validation_indices raw_labels TRAIN parameters = Ok train
    ∧ get_cross_validation_indices raw_labels VAL parameters = Ok val
    ∧ get_cross_validation_indices raw_labels TEST parameters = Ok test
    ∧ (∀ x, x ∈ train → x ∉ val)
    ∧ (∀ x, x ∈ train → x ∉ test)
    ∧ (∀ x, x ∈ val → x ∉ test)
    ∧ (∀ x, x ∈ train ∨ x ∈ val ∨ x ∈ test ↔ class_position raw_labels x).
Proof.
  intros HK Hi HK2 Hlen Hr.
  assert (∀ ws ws' x, ws ≠ ws' →
            x ∈ merge_sort Nat.le (selection raw_labels ws K i) →
            x ∉ merge_sort Nat.le (selection raw_labels ws' K i)) as Hdis.
  { intros ws ws' x Hne. rewrite !merge_sort_Permutation.
    intros (c & k & Hc & Hk & Hx)%selection_elem
           (c' & k' & Hc' & Hk' & Hx')%selection_elem.
    pose proof (fold_slice_label _ _ _ _ _ Hx) as Hl.
    pose proof (fold_slice_label _ _ _ _ _ Hx') as Hl'.
    assert (c = c') as <- by congruence.
    assert (k = k') as <-.
    { destruct (decide (k = k')) as [|Hkk]; [done|]. exfalso.
      revert Hx'. apply (fold_slice_disjoint raw_labels K c k k'); [lia|done| | |done..].
      - eapply selected_folds_in_range; [| |done]; lia.
      - eapply selected_folds_in_range; [| |done]; lia. }
    apply selected_folds_offsets in Hk as (j & Hj & Hoff & Hjk); [|lia..].
    apply selected_folds_offsets in Hk' as (j' & Hj' & Hoff' & Hjk'); [|lia..].
    assert (j = j') as <-.
    { apply (fold_of_offset_inj K i); [lia..|congruence]. }
    destruct ws, ws'; simpl in Hoff, Hoff'; try done; lia. }
  eexists _, _, _.
  split; [by apply get_fold_selection|].
  split; [by apply get_fold_selection|].
  split; [by apply get_fold_selection|].
  split; [intros x; by apply Hdis|].
  split; [intros x; by apply Hdis|].
  split; [intros x; by apply Hdis|].
  intros x. rewrite !merge_sort_Permutation. split.
  - intros [H|[H|H]]; by eapply selection_class_position.
  - intros (c & Hc & Hx).
    destruct (fold_slice_cover raw_labels K c x ltac:(lia) Hlen Hx) as (k & Hk & Hin).
    destruct (fold_of_offset_surj K i k ltac:(lia) Hk) as (j & Hj & Hjk).
    destruct (decide (j = 0)) as [->|H0].
    { right. right. apply selection_elem. exists c, k. split; [done|]. split; [|done].
      apply selected_folds_offsets; [lia..|]. exists 0. by repeat split; try lia. }
    destruct (decide (j = K - 1)) as [->|H1].
    { right. left. apply selection_elem. exists c, k. split; [done|]. split; [|done].
      apply selected_folds_offsets; [lia..|]. exists (K - 1). by repeat split; try lia. }
    left. apply selection_elem. exists c, k. split; [done|]. split; [|done].
    apply selected_folds_offsets; [lia..|]. exists j. split; [lia|]. split; [|done].
    simpl. lia.
Qed.

Lemma splits_partition_witness :
  ∃ train val test,
    get_cross_validation_indices
      [Num 0; Num 0; Num 1; Num 0; Num 1; Num 0; Num 0; NaN; Num 6; Num 0] TRAIN
      (<["cv_splits" := VInt 3]> (<["cv_index" := VInt 1]> ∅)) = Ok train
    ∧ get_cross_validation_indices
        [Num 0; Num 0; Num 1; Num 0; Num 1; Num 0; Num 0; NaN; Num 6; Num 0] VAL
        (<["cv_splits" := VInt 3]> (<["cv_index" := VInt 1]> ∅)) = Ok val
    ∧ get_cross_validation_indices
        [Num 0; Num 0; Num 1; Num 0; Num 1; Num 0; Num 0; NaN; Num 6; Num 0] TEST
        (<["cv_splits" := VInt 3]> (<["cv_index" := VInt 1]> ∅)) = Ok test
    ∧ (∀ x, x ∈ train → x ∉ val).
Proof.
  destruct (splits_partition
    [Num 0; Num 0; Num 1; Num 0; Num 1; Num 0; Num 0; NaN; Num 6; Num 0]
    (<["cv_splits" := VInt 3]> (<["cv_index" := VInt 1]> ∅)) 3 1)
    as (train & val & test & H1 & H2 & H3 & H4 & _).
  - reflexivity.
  - reflexivity.
  - lia.
  - simpl. lia.
  - lia.
  - exists train, val, test. exact (conj H1 (conj H2 (conj H3 H4))).
Defined.

Lemma get_all_Ok_inv raw_labels parameters out :
  get_cross_validation_indices raw_labels ALL parameters = Ok out →
  ∃ K, cv_splits_of parameters = Ok K
       ∧ out = concat (test_fold raw_labels K <$> (Z.of_nat <$> seq 0 (Z.to_nat K))).
Proof.
  intros H. destruct (cv_splits_of parameters) as [K|e] eqn:HK.
  - exists K. split; [done|]. rewrite (get_all_tests _ _ K HK) in H. by injection H.
  - unfold get_cross_validation_indices in H. unfold cv_splits_of in HK.
    by rewrite HK in H.
Qed.

Lemma indices_class_position raw_labels which_set parameters out :
  get_cross_validation_indices raw_labels which_set parameters = Ok out →
  ∀ x, x ∈ out → class_position raw_labels x.
Proof.
  intros Hrun. destruct (decide (which_set = ALL)) as [->|Hws].
  - apply get_all_Ok_inv in Hrun as (K & HK & ->).
    destruct (decide (0 < K)) as [HK0|HK0].
    + by intros x Hx%test_folds_concat_label.
    + replace (Z.to_nat K) with 0%nat by lia. by intros x ?%elem_of_nil.
  - assert (fold_indices raw_labels which_set parameters = Ok out) as Hfold.
    { by destruct which_set. }
    destruct (fold_indices_Ok_inv _ _ _ _ Hfold) as (K & i & HK & Hi & Hr).
    rewrite (fold_indices_selection _ _ _ K i HK Hi Hr) in Hfold.
    injection Hfold as <-. intros x. rewrite merge_sort_Permutation.
    apply selection_class_position.
Qed.

(** X2. Whenever [get_cross_validation_indices] returns, for any split,
    every index of the list is a position of [raw_labels] whose label
    is one of the class ids 0..6: a sample whose label is NaN or
    outside the taxonomy is never selected. The list has no repeated
    index when [cv_splits] and the number of labels are below [2 ^ 53],
    the fence posts being those of [np.linspace] in double precision. *)
Theorem indices_valid_and_distinct (raw_labels : list npfloat)
    (which_set : SetTag) (parameters : dict) (out : list nat) :
  get_cross_validation_indices raw_labels which_set parameters = Ok out →
  (∀ x, x ∈ out → (x < length raw_labels)%nat ∧ class_position raw_labels x)
  ∧ (∀ K, cv_splits_of parameters = Ok K → K < 2 ^ 53 →
       Z.of_nat (length raw_labels) < 2 ^ 53 → NoDup out).
Proof.
  intros Hrun.
  assert (∀ x, class_position raw_labels x → (x < length raw_labels)%nat) as Hlt.
  { intros x (c & _ & Hx). by eapply lookup_lt_Some. }
  split.
  { intros x Hx. apply (indices_class_position _ _ _ _ Hrun) in Hx.
    split; [by apply Hlt|done]. }
  intros K HK HK53 Hlen.
  destruct (decide (which_set = ALL)) as [->|Hws].
  - apply get_all_Ok_inv in Hrun as (K' & HK' & ->).
    assert (K' = K) as -> by congruence.
    destruct (decide (0 < K)) as [HK0|HK0].
    + by apply test_folds_concat_NoDup.
    + replace (Z.to_nat K) with 0%nat by lia. simpl. constructor.
  - assert (fold_indices raw_labels which_set parameters = Ok out) as Hfold.
    { by destruct which_set. }
    destruct (fold_indices_Ok_inv _ _ _ _ Hfold) as (K' & i & HK' & Hi & Hr).
    assert (K' = K) as -> by congruence.
    rewrite (fold_indices_selection _ _ _ K i HK Hi Hr) in Hfold.
    injection Hfold as <-.
    rewrite merge_sort_Permutation. apply selection_NoDup; [lia|done|lia].
Qed.

Lemma indices_valid_and_distinct_witness :
  NoDup [0; 1; 2; 3; 5]%nat.
Proof.
  refine (proj2 (indices_valid_and_distinct
    [Num 0; Num 0; Num 1; Num 0; Num 1; Num 0; Num 0; NaN; Num 6; Num 0; Num 0]
    TRAIN ∅ [0; 1; 2; 3; 5]%nat _) 5 _ _ _).
  - reflexivity.
  - reflexivity.
  - lia.
  - simpl. lia.
Defined.

(** X3. With one or two folds the TRAIN loop [range(1, K - 1)] is
    empty, so TRAIN selects nothing; with a single fold VAL and TEST
    are the same list. *)
Theorem few_folds (raw_labels : list npfloat) (parameters : dict) (K i : Z) :
  cv_splits_of parameters = Ok K → cv_index_of parameters = Ok i →
  0 ≤ i ≤ K - 1 → K ≤ 2 →
  get_cross_validation_indices raw_labels TRAIN parameters = Ok []
  ∧ (K = 1 →
     get_cross_validation_indices raw_labels VAL parameters
     = get_cross_validation_indices raw_labels TEST parameters).
Proof.
  intros HK Hi Hr HK2. split.
  - rewrite (get_fold_selection _ _ _ K i) by done.
    unfold selection, selected_folds.
    replace (Z.to_nat (K - 2)) with 0%nat by lia. reflexivity.
  - intros ->. assert (i = 0) as -> by lia.
    rewrite !(get_fold_selection _ _ _ 1 0) by done. reflexivity.
Qed.

Lemma few_folds_witness :
  get_cross_validation_indices [Num 0; Num 3; Num 0] TRAIN
    (<["cv_splits" := VInt 2]> (<["cv_index" := VInt 1]> ∅)) = Ok [].
Proof.
  refine (proj1 (few_folds [Num 0; Num 3; Num 0]
    (<["cv_splits" := VInt 2]> (<["cv_index" := VInt 1]> ∅)) 2 1 _ _ _ _)).
  - reflexivity.
  - reflexivity.
  - lia.
  - lia.
Defined.

(** X4. With [cv_splits ≤ 0] the [ALL] branch loops over an empty
    range and returns the empty list, while [TRAIN], [VAL] and [TEST]
    fail the assertion for every [cv_index]. *)
Theorem no_folds (raw_labels : list npfloat) (parameters : dict) (K : Z) :
  cv_splits_of parameters = Ok K → K ≤ 0 →
  get_cross_validation_indices raw_labels ALL parameters = Ok []
  ∧ ∀ which_set i, which_set ≠ ALL → cv_index_of parameters = Ok i →
      get_cross_validation_indices raw_labels which_set parameters
      = Raise AssertionError.
Proof.
  intros HK HK0. split.
  - rewrite (get_all_tests _ _ K HK).
    by replace (Z.to_nat K) with 0%nat by lia.
  - intros which_set i Hws Hi.
    destruct which_set; [..|done];
      apply (fold_indices_assert _ _ _ K i); (done || lia).
Qed.

Lemma no_folds_witness :
  get_cross_validation_indices [Num 0; Num 3] ALL (<["cv_splits" := VInt 0]> ∅)
  = Ok [].
Proof.
  refine (proj1 (no_folds [Num 0; Num 3] (<["cv_splits" := VInt 0]> ∅) 0 _ _)).
  - reflexivity.
  - lia.
Defined.

(** ** The generator and the label vector *)

Lemma one_hot_class c :
  0 ≤ c ≤ 6 →
  to_categorical (Num c) 7 = Ok (one_hot c)
  ∧ np_argmax Z.ltb (one_hot c) = Z.to_nat c
  ∧ length (one_hot c) = 7%nat
  ∧ foldr Z.add 0 (one_hot c) = 1.
Proof.
  intros Hc.
  assert (c = 0 ∨ c = 1 ∨ c = 2 ∨ c = 3 ∨ c = 4 ∨ c = 5 ∨ c = 6) as H by lia.
  destruct H as [->|[->|[->|[->|[->|[->| ->]]]]]]; by repeat split.
Qed.

Lemma generator_loop_run raw_data raw_labels indices :
  length raw_data = length raw_labels →
  (∀ x, x ∈ indices → class_position raw_labels x) →
  ∃ samples, generator_loop raw_data raw_labels indices = Ok samples
             ∧ Forall2 (yielded raw_data raw_labels) indices samples.
Proof.
  intros Hlen. induction indices as [|x indices IH]; intros Hin; simpl.
  - exists []. split; [done|constructor].
  - destruct (Hin x) as (c & Hc & Hx); [by left|].
    destruct (lookup_lt_is_Some_2 raw_data x) as [data Hdata].
    { rewrite Hlen. by eapply lookup_lt_Some. }
    rewrite (py_index_nonneg _ _ _ Hdata). run_bind.
    rewrite (py_index_nonneg _ _ _ Hx). run_bind.
    destruct (one_hot_class c Hc) as (-> & _). run_bind.
    destruct IH as (samples & -> & HF); [intros y Hy; apply Hin; by right|].
    run_bind. eexists. split; [done|]. constructor; [|done].
    by exists data, c.
Qed.

(** X5. When [raw_data] and [raw_labels] have one length and the
    indices are computed, the generator raises nothing; it yields, for
    every selected position in order, the window at that position with
    the one-hot row of its label: seven entries that sum to 1, with the
    1 at the label. *)
Theorem generator_yields_one_hot (raw_data : list sample)
    (raw_labels : list npfloat) (which_set : SetTag) (parameters : dict)
    (indices : list nat) :
  length raw_data = length raw_labels →
  get_cross_validation_indices raw_labels which_set parameters = Ok indices →
  ∃ samples,
    get_data_generator raw_data raw_labels which_set parameters = Ok samples
    ∧ Forall2 (yielded raw_data raw_labels) indices samples
    ∧ Forall (λ s : sample * list Z,
        length s.2 = 7%nat ∧ foldr Z.add 0 s.2 = 1
        ∧ ∃ c, 0 ≤ c ≤ 6 ∧ np_argmax Z.ltb s.2 = Z.to_nat c
               ∧ s.2 !! Z.to_nat c = Some 1) samples.
Proof.
  intros Hlen Hidx. unfold get_data_generator. rewrite Hidx. run_bind.
  destruct (generator_loop_run raw_data raw_labels indices Hlen)
    as (samples & -> & HF).
  { intros x Hx. by apply (indices_class_position _ _ _ _ Hidx). }
  exists samples. split; [done|]. split; [done|].
  clear Hidx. induction HF as [|x s indices samples Hy _ IH]; constructor; [|done].
  destruct Hy as (data & c & _ & _ & Hc & ->). simpl.
  destruct (one_hot_class c Hc) as (_ & Harg & Hl & Hsum).
  split; [done|]. split; [done|]. exists c. split; [done|]. split; [done|].
  unfold one_hot. apply list_lookup_insert_eq. rewrite length_replicate. lia.
Qed.

Lemma generator_yields_one_hot_witness :
  ∃ samples,
    get_data_generator [[[1%Q]]; [[2%Q]]; [[3%Q]]] [Num 4; Num 0; Num 4] TEST
      (<["cv_splits" := VInt 2]> ∅) = Ok samples
    ∧ Forall2 (yielded [[[1%Q]]; [[2%Q]]; [[3%Q]]] [Num 4; Num 0; Num 4])
        [1; 2]%nat samples.
Proof.
  destruct (generator_yields_one_hot [[[1%Q]]; [[2%Q]]; [[3%Q]]]
              [Num 4; Num 0; Num 4] TEST (<["cv_splits" := VInt 2]> ∅) [1; 2]%nat)
    as (samples & H1 & H2 & _).
  - reflexivity.
  - reflexivity.
  - exists samples. exact (conj H1 H2).
Defined.

Lemma yielded_labels raw_data raw_labels indices samples :
  Forall2 (yielded raw_data raw_labels) indices samples →
  Forall2 (λ (x : nat) (l : nat), raw_labels !! x = Some (Num (Z.of_nat l)))
    indices (np_argmax Z.ltb <$> (snd <$> samples)).
Proof.
  induction 1 as [|x s indices samples Hy _ IH]; simpl; constructor; [|done].
  destruct Hy as (data & c & _ & Hx & Hc & ->). simpl.
  destruct (one_hot_class c Hc) as (_ & -> & _). by rewrite Z2Nat.id by lia.
Qed.

(** X6. [get_labels] returns the raw label of every selected position:
    when the corpus is built and the indices are computed for the
    dictionary with ["shuffle"] forced to [False], the label vector is,
    position by position, [raw_labels] at the indices of the split. *)
Theorem get_labels_are_raw_labels (rd : Reader) (h : heap) (which_set : SetTag)
    (parameters : option loc) (raw_data : list sample)
    (raw_labels : list npfloat) (indices : list nat) :
  let d : dict := <["shuffle" := VBool false]> (dict_of h parameters) in
  get_raw_data rd d = Ok (raw_data, raw_labels) →
  get_cross_validation_indices raw_labels which_set d = Ok indices →
  ∃ labels,
    (get_labels rd h which_set parameters).2 = Ok labels
    ∧ Forall2 (λ (x : nat) (l : nat), raw_labels !! x = Some (Num (Z.of_nat l)))
        indices labels.
Proof.
  intros d Hraw Hidx. rewrite get_labels_run. fold d. unfold stream_labels.
  rewrite Hraw. run_bind. cbn [fst snd].
  destruct (get_raw_data_drops_sentinel _ _ _ _ Hraw) as [_ Hlen].
  unfold get_data_generator. rewrite Hidx. run_bind.
  destruct (generator_loop_run raw_data raw_labels indices Hlen)
    as (samples & -> & HF).
  { intros x Hx. by apply (indices_class_position _ _ _ _ Hidx). }
  cbn [from_generator]. run_bind. eexists. split; [done|].
  by eapply yielded_labels.
Qed.

Lemma get_labels_are_raw_labels_witness :
  ∃ labels,
    (get_labels (example_reader 9)
       (<[0%nat := <["window" := VInt 1]> (<["hop" := VInt 1]> ∅)]> ∅)
       TEST (Some 0%nat)).2 = Ok labels
    ∧ Forall2 (λ (x : nat) (l : nat),
        [Num 3; Num 5; Num 5; Num 5; Num 5; Num 5; Num 5; Num 5] !! x
        = Some (Num (Z.of_nat l))) [0; 6; 7]%nat labels.
Proof.
  refine (get_labels_are_raw_labels (example_reader 9)
    (<[0%nat := <["window" := VInt 1]> (<["hop" := VInt 1]> ∅)]> ∅)
    TEST (Some 0%nat) _ _ _ _ _).
  - reflexivity.
  - reflexivity.
Defined.

(** ** Dictionaries in the store *)

Lemma or_empty_dict_frame (h : heap) (parameters : option loc) (l : loc) (d : dict) :
  h !! l = Some d → (or_empty_dict h parameters).1 !! l = Some d.
Proof.
  intros Hl.
  assert (fresh (dom h) ≠ l) as Hne.
  { intros <-. apply (is_fresh (dom h)). apply elem_of_dom. by eexists. }
  unfold or_empty_dict. destruct parameters as [l0|].
  - destruct (decide _); simpl; [by rewrite lookup_insert_ne|done].
  - simpl. by rewrite lookup_insert_ne.
Qed.

Lemma get_seven_emotion_data_store rd (h : heap) which_set batch_size parameters :
  (get_seven_emotion_data rd h which_set batch_size parameters).1
  = (or_empty_dict h parameters).1.
Proof. unfold get_seven_emotion_data. by destruct (or_empty_dict h parameters). Qed.

Lemma get_seven_emotion_data_batches rd (h : heap) which_set batch_size parameters :
  (get_seven_emotion_data rd h which_set batch_size parameters).2
  = dataset_batches rd which_set batch_size (dict_of h parameters).
Proof.
  unfold get_seven_emotion_data.
  pose proof (or_empty_dict_content h parameters) as Hc.
  destruct (or_empty_dict h parameters) as [h1 l1]. simpl in Hc.
  cbn [snd]. by rewrite Hc.
Qed.

(** X7. [get_seven_emotion_data] writes into no dictionary: every
    dictionary of the store is the same after the call, whatever is
    passed as [parameters]; at most one new empty dictionary appears. *)
Theorem get_seven_emotion_data_reads_only (rd : Reader) (h : heap)
    (which_set : SetTag) (batch_size : Z) (parameters : option loc) :
  let h' := (get_seven_emotion_data rd h which_set batch_size parameters).1 in
  (∀ l d, h !! l = Some d → h' !! l = Some d)
  ∧ (∀ l d, h' !! l = Some d → h !! l = Some d ∨ (h !! l = None ∧ d = ∅)).
Proof.
  intros h'. unfold h'. rewrite get_seven_emotion_data_store. split.
  - intros l d. apply or_empty_dict_frame.
  - intros l d. unfold or_empty_dict.
    assert (h !! fresh (dom h) = None) as Hfresh.
    { apply not_elem_of_dom, is_fresh. }
    assert (<[fresh (dom h) := ∅]> h !! l = Some d →
            h !! l = Some d ∨ (h !! l = None ∧ d = ∅)) as Hnew.
    { destruct (decide (fresh (dom h) = l)) as [<-|Hne].
      - rewrite lookup_insert_eq. intros [= <-]. by right.
      - rewrite lookup_insert_ne by done. by left. }
    destruct parameters as [l0|]; [|exact Hnew].
    destruct (decide _); [exact Hnew|]. by left.
Qed.

Lemma get_seven_emotion_data_reads_only_witness :
  (get_seven_emotion_data (example_reader 5)
     (<[0%nat := <["shuffle" := VBool true]> ∅]> ∅) TRAIN 2 (Some 0%nat)).1 !! 0%nat
  = Some (<["shuffle" := VBool true]> ∅).
Proof.
  refine (proj1 (get_seven_emotion_data_reads_only (example_reader 5)
    (<[0%nat := <["shuffle" := VBool true]> ∅]> ∅) TRAIN 2 (Some 0%nat)) 0%nat _ _).
  reflexivity.
Defined.

(** X8. When [parameters] is [None] or an empty dictionary,
    [get_labels] changes no dictionary of the caller: the write of
    ["shuffle"] goes into a new object. *)
Theorem get_labels_without_parameters (rd : Reader) (h : heap)
    (which_set : SetTag) (parameters : option loc) :
  dict_of h parameters = ∅ →
  ∀ l d, h !! l = Some d →
    (get_labels rd h which_set parameters).1 !! l = Some d.
Proof.
  intros Hempty l d Hl.
  assert (fresh (dom h) ≠ l) as Hne.
  { intros <-. apply (is_fresh (dom h)). apply elem_of_dom. by eexists. }
  assert (or_empty_dict h parameters = (<[fresh (dom h) := ∅]> h, fresh (dom h)))
    as Hor.
  { unfold or_empty_dict. destruct parameters as [l0|]; [|done].
    simpl in Hempty. by destruct (decide _). }
  unfold get_labels. rewrite Hor.
  rewrite get_seven_emotion_data_run.
  - cbn [fst]. by rewrite !lookup_insert_ne.
  - rewrite lookup_total_insert_eq. apply insert_non_empty.
Qed.

Lemma get_labels_without_parameters_witness :
  (get_labels (example_reader 5) (<[3%nat := <["hop" := VInt 1]> ∅]> ∅) TEST None).1
    !! 3%nat
  = Some (<["hop" := VInt 1]> ∅).
Proof.
  refine (get_labels_without_parameters (example_reader 5)
    (<[3%nat := <["hop" := VInt 1]> ∅]> ∅) TEST None _ 3%nat _ _).
  - reflexivity.
  - reflexivity.
Defined.

(** ** The ["shuffle"] entry *)

Lemma fold_indices_agree raw_labels which_set d1 d2 :
  cv_agree d1 d2 →
  fold_indices raw_labels which_set d1 = fold_indices raw_labels which_set d2.
Proof. intros [H1 H2]. unfold fold_indices, dict_get. by rewrite H1, H2. Qed.

Lemma all_loop_agree raw_labels d1 d2 indices r :
  cv_agree d1 d2 →
  all_loop raw_labels d1 indices r = all_loop raw_labels d2 indices r.
Proof.
  revert d1 d2 indices. induction r as [|i r IH]; intros d1 d2 indices Hag; [done|].
  assert (cv_agree (<["cv_index" := VInt i]> d1) (<["cv_index" := VInt i]> d2)) as Hag'.
  { destruct Hag as [H1 H2]. split.
    - by rewrite !lookup_insert_ne.
    - by rewrite !lookup_insert_eq. }
  cbn [all_loop]. rewrite (fold_indices_agree _ _ _ _ Hag').
  destruct (fold_indices _ _ _); [|done]. run_bind. by apply IH.
Qed.

Lemma get_indices_agree raw_labels which_set d1 d2 :
  cv_agree d1 d2 →
  get_cross_validation_indices raw_labels which_set d1
  = get_cross_validation_indices raw_labels which_set d2.
Proof.
  intros Hag. destruct which_set; try by apply fold_indices_agree.
  unfold get_cross_validation_indices, dict_get. destruct Hag as [H1 H2].
  rewrite H1. destruct (as_int _); [|done]. run_bind.
  destruct (py_range _ _ _); [|done]. run_bind. by apply all_loop_agree.
Qed.

Lemma get_raw_data_shuffle rd (d : dict) v :
  get_raw_data rd (<["shuffle" := v]> d) = get_raw_data rd d.
Proof. unfold get_raw_data, dict_get. by rewrite !lookup_insert_ne. Qed.

Lemma stream_labels_shuffle rd which_set (d : dict) v :
  stream_labels rd which_set (<["shuffle" := v]> d) = stream_labels rd which_set d.
Proof.
  unfold stream_labels, get_data_generator. rewrite get_raw_data_shuffle.
  destruct (get_raw_data rd d) as [raw|]; [|done]. run_bind.
  by rewrite (get_indices_agree _ _ (<["shuffle" := v]> d) d)
    by (split; by rewrite lookup_insert_ne).
Qed.

(** X9. For [VAL], [TEST] and [ALL], a dataset built from parameters
    without a ["shuffle"] entry is not shuffled, and ["shuffle"] is read
    by nothing else: the argmax sequence of its batches, for any
    positive batch size, is the vector [get_labels] returns for the same
    parameters. *)
Theorem default_dataset_matches_labels (rd : Reader) (h : heap)
    (which_set : SetTag) (batch_size : Z) (parameters : option loc) :
  which_set ≠ TRAIN → dict_of h parameters !! "shuffle" = None →
  0 < batch_size →
  observed_labels
    <$> (get_seven_emotion_data rd h which_set batch_size parameters).2
  = (get_labels rd h which_set parameters).2.
Proof.
  intros Hws Hsh Hb. rewrite get_labels_run. cbv zeta.
  rewrite stream_labels_shuffle, get_seven_emotion_data_batches.
  unfold dataset_batches, stream_labels.
  destruct (get_raw_data rd _) as [raw|]; [|done]. run_bind.
  destruct (Z.leb_spec batch_size 0) as [?|_]; [lia|].
  destruct (get_data_generator _ _ _ _) as [samples|]; [|done].
  cbn [from_generator]. run_bind.
  unfold dict_get. rewrite Hsh. rewrite bool_decide_eq_false_2 by done.
  cbn [truthy]. by rewrite observed_labels_batch by lia.
Qed.

Lemma default_dataset_matches_labels_witness :
  observed_labels
    <$> (get_seven_emotion_data (example_reader 9)
           (<[0%nat := <["window" := VInt 1]> (<["hop" := VInt 1]> ∅)]> ∅)
           ALL 3 (Some 0%nat)).2
  = (get_labels (example_reader 9)
       (<[0%nat := <["window" := VInt 1]> (<["hop" := VInt 1]> ∅)]> ∅)
       ALL (Some 0%nat)).2.
Proof.
  refine (default_dataset_matches_labels (example_reader 9)
    (<[0%nat := <["window" := VInt 1]> (<["hop" := VInt 1]> ∅)]> ∅)
    ALL 3 (Some 0%nat) _ _ _).
  - discriminate.
  - reflexivity.
  - lia.
Defined.

(** ** Shapes of the label arrays *)

Lemma slice_bound_le len i : (slice_bound len i ≤ len)%nat.
Proof. unfold slice_bound. destruct (Z.ltb_spec i 0); lia. Qed.

Lemma slice_assign_length {A} (row : list A) (a b : Z) (v : A) :
  length (slice_assign row a b v) = length row.
Proof.
  unfold slice_assign.
  pose proof (slice_bound_le (length row) a).
  pose proof (slice_bound_le (length row) b).
  rewrite !length_app, length_take, length_replicate, length_drop. lia.
Qed.

Lemma np_zeros_shape rows cols : has_shape rows cols (np_zeros rows cols).
Proof.
  unfold np_zeros. split; [apply length_replicate|].
  apply Forall_replicate, length_replicate.
Qed.

Lemma expected_loop_shape rd n m labels items out :
  has_shape n m labels → expected_loop rd labels items = Ok out → has_shape n m out.
Proof.
  revert labels. induction items as [|[emotion [t_start t_end]] items IH];
    intros labels Hs; simpl.
  - by intros [= <-].
  - destruct (emotion_labels rd !! emotion) as [v|]; [|done].
    apply IH. destruct Hs as [Hn Hm]. split; [by rewrite length_fmap|].
    apply Forall_fmap. eapply Forall_impl; [exact Hm|].
    intros row Hrow. simpl. by rewrite slice_assign_length.
Qed.

Lemma set_cell_shape n m labels r c v out :
  has_shape n m labels → set_cell labels r c v = Ok out → has_shape n m out.
Proof.
  intros [Hn Hm]. unfold set_cell.
  destruct (labels !! r) as [row|] eqn:Hrow; [|done].
  destruct (_ && _); [|done]. intros [= <-]. split; [by rewrite length_insert|].
  apply Forall_insert; [done|]. rewrite length_insert.
  rewrite Forall_forall in Hm. apply Hm. by eapply list_elem_of_lookup_2.
Qed.

Lemma trace_loop_shape n m labels file_index previous raw_emotions out :
  has_shape n m labels →
  trace_loop labels file_index previous raw_emotions = Ok out → has_shape n m out.
Proof.
  revert labels previous.
  induction raw_emotions as [|[time entry] rest IH]; intros labels previous Hs;
    cbn [trace_loop].
  - by intros [= <-].
  - destruct entry as [|probs].
    + destruct (set_cell _ _ _ _) as [labels'|] eqn:Hset; [|done]. run_bind.
      apply IH. by eapply set_cell_shape.
    + destruct (probs_sorted _ _) as [ps|]; [|done]. run_bind.
      destruct (set_cell _ _ _ _) as [labels'|] eqn:Hset; [|done]. run_bind.
      apply IH. by eapply set_cell_shape.
Qed.

Lemma faceapi_loop_shape rd gt_folder n m labels file_index data_indices out :
  has_shape n m labels →
  faceapi_loop rd gt_folder labels file_index data_indices = Ok out →
  has_shape n m out.
Proof.
  revert labels file_index.
  induction data_indices as [|experiment_index rest IH];
    intros labels file_index Hs; simpl.
  - by intros [= <-].
  - destruct (ground_truth_file rd gt_folder experiment_index) as [trace|]; [|done].
    destruct (trace_loop _ _ _ _) as [labels'|] eqn:Htrace; [|done]. run_bind.
    apply IH. by eapply trace_loop_shape.
Qed.

Lemma expected_labels_shape rd expected :
  get_raw_expected_labels rd = Ok expected →
  has_shape (length (complete_data_indices rd)) 690 expected.
Proof. apply expected_loop_shape, np_zeros_shape. Qed.

Lemma faceapi_labels_shape rd faceapi :
  get_raw_faceapi_labels rd = Ok faceapi →
  has_shape (length (complete_data_indices rd)) 690 faceapi.
Proof.
  unfold get_raw_faceapi_labels.
  destruct (String.prefix _ _); apply faceapi_loop_shape, np_zeros_shape.
Qed.

Lemma reconcile_shape n m expected faceapi :
  has_shape n m expected → has_shape n m faceapi →
  has_shape n m (reconcile expected faceapi).
Proof.
  intros [Hn He] [Hn' Hf]. unfold reconcile. split.
  - rewrite length_zip_with. lia.
  - subst n. clear Hn'. revert faceapi Hf.
    induction He as [|erow expected Hrow _ IH]; intros faceapi Hf; [constructor|].
    destruct Hf as [|frow faceapi Hfrow Hf]; simpl; constructor.
    + rewrite length_zip_with. lia.
    + by apply IH.
Qed.

Lemma truncate_shape n (labels : list (list npfloat)) :
  has_shape n 690 labels →
  has_shape n 614 ((λ row, py_slice row 0 614) <$> labels).
Proof.
  intros [Hn Hm]. split; [by rewrite length_fmap|].
  apply Forall_fmap. eapply Forall_impl; [exact Hm|].
  intros row Hrow. simpl in Hrow |- *. change 614 with (Z.of_nat 614).
  rewrite py_slice_prefix, length_take, Hrow. reflexivity.
Qed.

(** X10. Whatever the label mode, the array [get_raw_labels] returns
    has one row per participant and 614 columns. *)
Theorem raw_labels_shape (rd : Reader) (label_mode : pyval)
    (labels : list (list npfloat)) :
  get_raw_labels rd label_mode = Ok labels →
  has_shape (length (complete_data_indices rd)) 614 labels.
Proof.
  unfold get_raw_labels.
  destruct (decide (label_mode = VStr "expected")) as [_|_].
  { destruct (get_raw_expected_labels rd) as [expected|] eqn:He; [|done].
    run_bind. intros [= <-]. by apply truncate_shape, expected_labels_shape. }
  destruct (decide (label_mode = VStr "faceapi")) as [_|_].
  { destruct (get_raw_faceapi_labels rd) as [faceapi|] eqn:Hf; [|done].
    run_bind. intros [= <-]. by apply truncate_shape, faceapi_labels_shape. }
  destruct (decide (label_mode = VStr "both")) as [_|_].
  { destruct (get_raw_expected_labels rd) as [expected|] eqn:He; [|done].
    destruct (get_raw_faceapi_labels rd) as [faceapi|] eqn:Hf; [|done].
    run_bind. intros [= <-]. apply truncate_shape, reconcile_shape.
    - by apply expected_labels_shape.
    - by apply faceapi_labels_shape. }
  run_bind. intros [= <-]. apply truncate_shape, np_zeros_shape.
Qed.

Lemma raw_labels_shape_witness :
  ∃ labels, get_raw_labels (example_reader 3) (VStr "both") = Ok labels
            ∧ has_shape 1 614 labels.
Proof.
  eexists. split; [reflexivity|].
  refine (raw_labels_shape (example_reader 3) (VStr "both") _ _). reflexivity.
Defined.

(** X11. A [label_mode] that is none of ["expected"], ["faceapi"] and
    ["both"] is not refused: the label array stays all zero, so every
    window of the corpus carries the class id 0. *)
Theorem unknown_label_mode_labels_zero (rd : Reader) (parameters : dict)
    (raw_data : list sample) (raw_labels : list npfloat) :
  let label_mode :=
    dict_get parameters "label_mode" (VStr (default_label_mode rd)) in
  label_mode ≠ VStr "expected" → label_mode ≠ VStr "faceapi" →
  label_mode ≠ VStr "both" →
  get_raw_data rd parameters = Ok (raw_data, raw_labels) →
  Forall (λ l, l = Num 0) raw_labels.
Proof.
  intros label_mode H1 H2 H3. unfold get_raw_data. fold label_mode.
  unfold get_raw_labels.
  destruct (decide (label_mode = VStr "expected")); [done|].
  destruct (decide (label_mode = VStr "faceapi")); [done|].
  destruct (decide (label_mode = VStr "both")); [done|].
  run_bind. destruct (as_int _) as [window|]; [|done]. run_bind.
  destruct (window <? 0); [done|].
  intros [_ Hall]%(participants_loop_ok rd _ (λ l, l = Num 0)).
  - simpl in Hall. eapply Forall_impl; [exact Hall|]. by intros l [-> _].
  - unfold np_zeros. apply Forall_fmap, Forall_replicate. unfold compose.
    apply py_slice_Forall, Forall_replicate. done.
  - by split.
Qed.

Lemma unknown_label_mode_labels_zero_witness :
  ∃ raw_data,
    get_raw_data (example_reader 4)
      (<["label_mode" := VStr "face"]> (<["window" := VInt 1]> (<["hop" := VInt 1]> ∅)))
    = Ok (raw_data, [Num 0; Num 0; Num 0])
    ∧ Forall (λ l, l = Num 0) [Num 0; Num 0; Num 0].
Proof.
  eexists. split; [reflexivity|].
  refine (unknown_label_mode_labels_zero (example_reader 4)
    (<["label_mode" := VStr "face"]> (<["window" := VInt 1]> (<["hop" := VInt 1]> ∅)))
    _ _ _ _ _ _); try discriminate.
  reflexivity.
Defined.

(** ** The expected schedule *)

Lemma slice_assign_lookup {A} (row : list A) (a b : Z) (v : A) (s : nat) :
  0 ≤ a → 0 ≤ b → (s < length row)%nat →
  slice_assign row a b v !! s
  = if decide (a ≤ Z.of_nat s < b) then Some v else row !! s.
Proof.
  intros Ha Hb Hs. unfold slice_assign, slice_bound.
  destruct (Z.ltb_spec a 0) as [?|_]; [lia|].
  destruct (Z.ltb_spec b 0) as [?|_]; [lia|].
  set (s0 := Z.to_nat (Z.min a (Z.of_nat (length row)))).
  set (e0 := Z.to_nat (Z.min b (Z.of_nat (length row)))).
  assert (length (take s0 row) = s0) as Htake by (rewrite length_take; lia).
  destruct (decide (a ≤ Z.of_nat s < b)) as [Hin|Hout].
  - rewrite lookup_app_r by lia. rewrite lookup_app_l.
    + apply lookup_replicate_2. lia.
    + rewrite length_replicate. lia.
  - destruct (decide (s < s0)%nat) as [Hlt|Hge].
    + rewrite lookup_app_l by lia. by rewrite lookup_take_lt.
    + rewrite lookup_app_r by lia. rewrite lookup_app_r.
      * rewrite lookup_drop, length_replicate. f_equal. lia.
      * rewrite length_replicate. lia.
Qed.

Lemma cell_slice_assign n (labels : list (list npfloat)) a b v p s :
  has_shape n 690 labels → 0 ≤ a → 0 ≤ b → (p < n)%nat → (s < 690)%nat →
  cell ((λ row, slice_assign row a b v) <$> labels) p s
  = if decide (a ≤ Z.of_nat s < b) then Some v else cell labels p s.
Proof.
  intros [Hn Hm] Ha Hb Hp Hs. unfold cell. rewrite list_lookup_fmap.
  destruct (lookup_lt_is_Some_2 labels p) as [row Hrow]; [lia|].
  rewrite Hrow. simpl. apply slice_assign_lookup; [done..|].
  rewrite Forall_forall in Hm. rewrite (Hm row); [done|].
  by eapply list_elem_of_lookup_2.
Qed.

Lemma slice_assign_shape n m (labels : list (list npfloat)) a b v :
  has_shape n m labels → has_shape n m ((λ row, slice_assign row a b v) <$> labels).
Proof.
  intros [Hn Hm]. split; [by rewrite length_fmap|].
  apply Forall_fmap. eapply Forall_impl; [exact Hm|].
  intros row Hrow. simpl. by rewrite slice_assign_length.
Qed.

(** Entries that do not cover [s] leave the cell as it is. *)
Lemma expected_loop_untouched rd n labels items out p s :
  has_shape n 690 labels → (p < n)%nat → (s < 690)%nat →
  Forall (λ item : string * (Z * Z),
    0 ≤ item.2.1 ∧ 0 ≤ item.2.2 ∧ ¬ covered item.2.1 item.2.2 s) items →
  expected_loop rd labels items = Ok out →
  cell out p s = cell labels p s.
Proof.
  intros Hshape Hp Hs Hitems. revert labels Hshape.
  induction Hitems as [|[emotion [t_start t_end]] items (Hst & Hen & Hnc) _ IH];
    intros labels Hshape; simpl.
  - by intros [= <-].
  - destruct (emotion_labels rd !! emotion) as [v|]; [|done].
    intros Hrun. rewrite (IH _ (slice_assign_shape _ _ _ _ _ _ Hshape) Hrun).
    cbn [fst snd] in Hst, Hen, Hnc.
    rewrite (cell_slice_assign n) by (done || (destruct (t_start =? 0); lia)).
    destruct (decide _) as [Hin|_]; [|done].
    exfalso. apply Hnc. exact Hin.
Qed.

Lemma expected_loop_app rd labels items1 items2 :
  expected_loop rd labels (items1 ++ items2)
  = labels' ← expected_loop rd labels items1; expected_loop rd labels' items2.
Proof.
  revert labels. induction items1 as [|[emotion [t_start t_end]] items1 IH];
    intros labels; simpl; [done|].
  destruct (emotion_labels rd !! emotion); [|done]. apply IH.
Qed.

(** X12. The expected label of a second below 690, for a schedule with
    non-negative times: the id of an emotion whose interval covers the
    second, when no later entry of the schedule covers it too; 0 when no
    entry covers it. An interval runs from [start + 1] (from 0 when
    [start] is 0) to [end - 1]: the second [start] itself is not part
    of it unless it is 0. *)
Theorem expected_schedule (rd : Reader) (expected : list (list npfloat))
    (p s : nat) :
  Forall (λ item : string * (Z * Z), 0 ≤ item.2.1 ∧ 0 ≤ item.2.2)
    (emotion_times rd) →
  get_raw_expected_labels rd = Ok expected →
  (p < length (complete_data_indices rd))%nat → (s < 690)%nat →
  (∀ before emotion t_start t_end after v,
     emotion_times rd = before ++ (emotion, (t_start, t_end)) :: after →
     covered t_start t_end s →
     Forall (λ item : string * (Z * Z), ¬ covered item.2.1 item.2.2 s) after →
     emotion_labels rd !! emotion = Some v →
     cell expected p s = Some (Num v))
  ∧ (Forall (λ item : string * (Z * Z), ¬ covered item.2.1 item.2.2 s)
       (emotion_times rd) →
     cell expected p s = Some (Num 0)).
Proof.
  intros Htimes Hrun Hp Hs. unfold get_raw_expected_labels in Hrun.
  set (n := length (complete_data_indices rd)) in *.
  pose proof (np_zeros_shape n 690) as Hzero.
  assert (∀ items,
    Forall (λ item : string * (Z * Z), 0 ≤ item.2.1 ∧ 0 ≤ item.2.2) items →
    Forall (λ item : string * (Z * Z), ¬ covered item.2.1 item.2.2 s) items →
    Forall (λ item : string * (Z * Z),
      0 ≤ item.2.1 ∧ 0 ≤ item.2.2 ∧ ¬ covered item.2.1 item.2.2 s) items) as Hjoin.
  { intros items H1 H2. induction H1 as [|item items [? ?] _ IH]; [constructor|].
    apply Forall_cons in H2 as [? ?]. constructor; [done|by apply IH]. }
  split.
  - intros before emotion t_start t_end after v Hsplit Hcov Hafter Hv.
    rewrite Hsplit in Hrun, Htimes. rewrite expected_loop_app in Hrun.
    destruct (expected_loop rd _ before) as [labels1|] eqn:Hbefore; [|done].
    revert Hrun. run_bind. cbn [expected_loop]. rewrite Hv. intros Hrun.
    apply Forall_app in Htimes as [_ Htimes].
    apply Forall_cons in Htimes as [[Hst Hen] Htimes]. cbn [fst snd] in Hst, Hen.
    pose proof (expected_loop_shape _ _ _ _ _ _ Hzero Hbefore) as Hshape1.
    rewrite (expected_loop_untouched rd n _ after expected p s
               (slice_assign_shape _ _ _ _ _ _ Hshape1) Hp Hs
               (Hjoin _ Htimes Hafter) Hrun).
    rewrite (cell_slice_assign n) by (done || (destruct (t_start =? 0); lia)).
    by destruct (decide _) as [_|Hn]; [|destruct Hn].
  - intros Hnone.
    rewrite (expected_loop_untouched rd n _ _ expected p s Hzero Hp Hs
               (Hjoin _ Htimes Hnone) Hrun).
    unfold cell, np_zeros. rewrite lookup_replicate_2 by done.
    cbn [mbind option_bind]. by rewrite lookup_replicate_2.
Qed.

Lemma expected_schedule_witness :
  ∃ expected, get_raw_expected_labels (example_reader 3) = Ok expected
              ∧ cell expected 0 1 = Some (Num 3).
Proof.
  eexists. split; [reflexivity|].
  refine (proj1 (expected_schedule (example_reader 3) _ 0 1 _ _ _ _)
            [] "happy" 0 2 [("sad", (1, 614))] 3 _ _ _ _).
  - repeat constructor; simpl; lia.
  - reflexivity.
  - simpl. lia.
  - lia.
  - reflexivity.
  - unfold covered. simpl. lia.
  - constructor; [|constructor]. unfold covered. simpl. lia.
  - reflexivity.
Defined.

Lemma expected_loop_keys rd labels items :
  (Forall (λ item : string * (Z * Z), is_Some (emotion_labels rd !! item.1)) items →
   ∃ out, expected_loop rd labels items = Ok out)
  ∧ (Exists (λ item : string * (Z * Z), emotion_labels rd !! item.1 = None) items →
     expected_loop rd labels items = Raise KeyError).
Proof.
  revert labels. induction items as [|[emotion [t_start t_end]] items IH];
    intros labels; simpl.
  - split; [by eexists|]. by intros ?%Exists_nil.
  - split.
    + intros [[v Hv] Hrest]%Forall_cons. simpl in Hv. rewrite Hv.
      by apply IH.
    + intros [Hnone|Hrest]%Exists_cons.
      * simpl in Hnone. by rewrite Hnone.
      * destruct (emotion_labels rd !! emotion); [|done]. by apply IH.
Qed.

(** X13. [get_raw_expected_labels] returns exactly when every emotion
    of the schedule has an id in [emotion_labels]; an emotion without
    one raises [KeyError], also for [get_raw_data] in the modes
    ["expected"] and ["both"]. *)
Theorem expected_labels_key_error (rd : Reader) :
  (Forall (λ item : string * (Z * Z), is_Some (emotion_labels rd !! item.1))
     (emotion_times rd) →
   ∃ expected, get_raw_expected_labels rd = Ok expected)
  ∧ (Exists (λ item : string * (Z * Z), emotion_labels rd !! item.1 = None)
       (emotion_times rd) →
     get_raw_expected_labels rd = Raise KeyError
     ∧ ∀ parameters,
         (dict_get parameters "label_mode" (VStr (default_label_mode rd))
            = VStr "expected"
          ∨ dict_get parameters "label_mode" (VStr (default_label_mode rd))
            = VStr "both") →
         get_raw_data rd parameters = Raise KeyError).
Proof.
  split; [apply expected_loop_keys|].
  intros Hex.
  assert (get_raw_expected_labels rd = Raise KeyError) as Hraise.
  { by apply expected_loop_keys. }
  split; [done|]. intros parameters Hmode. unfold get_raw_data, get_raw_labels.
  destruct Hmode as [-> | ->].
  - destruct (decide _) as [_|?]; [|done]. by rewrite Hraise.
  - destruct (decide (VStr "both" = VStr "expected")) as [?|_]; [done|].
    destruct (decide (VStr "both" = VStr "faceapi")) as [?|_]; [done|].
    destruct (decide (VStr "both" = VStr "both")) as [_|?]; [|done].
    by rewrite Hraise.
Qed.

Lemma expected_labels_key_error_witness :
  ∃ expected, get_raw_expected_labels (example_reader 3) = Ok expected.
Proof.
  refine (proj1 (expected_labels_key_error (example_reader 3)) _).
  repeat (constructor; [by eexists|]). constructor.
Defined.

(** ** Cells of the faceapi array *)

Lemma probs_sorted_length m names ps :
  probs_sorted m names = Ok ps → length ps = length names.
Proof.
  revert ps. induction names as [|name names IH]; intros ps; cbn [probs_sorted].
  - by intros [= <-].
  - destruct (m !! name); [|done].
    destruct (probs_sorted m names) as [ps'|]; [|done]. run_bind.
    intros [= <-]. simpl. f_equal. by apply IH.
Qed.

Lemma argmax_from_bound {A} (ltb : A → A → bool) best best_i i (l : list A) :
  (best_i < i)%nat → (argmax_from ltb best best_i i l < i + length l)%nat.
Proof.
  revert best best_i i. induction l as [|x l IH]; intros best best_i i Hlt; simpl.
  - lia.
  - destruct (ltb best x).
    + specialize (IH x i (S i) ltac:(lia)). lia.
    + specialize (IH best best_i (S i) ltac:(lia)). lia.
Qed.

Lemma np_argmax_bound {A} (ltb : A → A → bool) (l : list A) :
  l ≠ [] → (np_argmax ltb l < length l)%nat.
Proof.
  destruct l as [|x l]; [done|]. intros _. unfold np_argmax.
  pose proof (argmax_from_bound ltb x 0 1 l ltac:(lia)). simpl. lia.
Qed.

Lemma set_cell_cells (P : npfloat → Prop) labels r c v out :
  Forall (Forall P) labels → P v →
  set_cell labels r c v = Ok out → Forall (Forall P) out.
Proof.
  intros Hall Hv. unfold set_cell.
  destruct (labels !! r) as [row|] eqn:Hrow; [|done].
  destruct (_ && _); [|done]. intros [= <-].
  apply Forall_insert; [done|]. apply Forall_insert; [|done].
  rewrite Forall_forall in Hall. apply Hall. by eapply list_elem_of_lookup_2.
Qed.

Lemma trace_loop_cells labels file_index previous raw_emotions out :
  Forall (Forall nan_or_class) labels →
  (∀ l, previous = Some l → (l < 7)%nat) →
  trace_loop labels file_index previous raw_emotions = Ok out →
  Forall (Forall nan_or_class) out.
Proof.
  assert (∀ l : nat, (l < 7)%nat → nan_or_class (Num (Z.of_nat l))) as Hclass.
  { intros l Hl. right. exists (Z.of_nat l). split; [done|lia]. }
  revert labels previous.
  induction raw_emotions as [|[time entry] rest IH]; intros labels previous Hall Hprev;
    cbn [trace_loop].
  - by intros [= <-].
  - destruct entry as [|probs].
    + destruct (set_cell _ _ _ _) as [labels'|] eqn:Hset; [|done]. run_bind.
      apply IH; [|done]. eapply set_cell_cells; [done| |exact Hset].
      destruct previous as [l|]; [by apply Hclass, Hprev|by left].
    + destruct (probs_sorted _ _) as [ps|] eqn:Hps; [|done]. run_bind.
      assert (np_argmax Qltb ps < 7)%nat as Hlt.
      { apply probs_sorted_length in Hps. change (length emotions_sorted) with 7%nat in Hps.
        rewrite <- Hps. apply np_argmax_bound. by destruct ps. }
      destruct (set_cell _ _ _ _) as [labels'|] eqn:Hset; [|done]. run_bind.
      apply IH; [|by intros l [= <-]].
      eapply set_cell_cells; [done| |exact Hset]. by apply Hclass.
Qed.

Lemma faceapi_loop_cells rd gt_folder labels file_index data_indices out :
  Forall (Forall nan_or_class) labels →
  faceapi_loop rd gt_folder labels file_index data_indices = Ok out →
  Forall (Forall nan_or_class) out.
Proof.
  revert labels file_index.
  induction data_indices as [|experiment_index rest IH];
    intros labels file_index Hall; simpl.
  - by intros [= <-].
  - destruct (ground_truth_file rd gt_folder experiment_index) as [trace|]; [|done].
    destruct (trace_loop _ _ _ _) as [labels'|] eqn:Htrace; [|done]. run_bind.
    apply IH. eapply trace_loop_cells; [done| |exact Htrace]. done.
Qed.

Lemma faceapi_labels_cells rd faceapi :
  get_raw_faceapi_labels rd = Ok faceapi → Forall (Forall nan_or_class) faceapi.
Proof.
  assert (Forall (Forall nan_or_class)
            (np_zeros (length (complete_data_indices rd)) 690)) as Hzero.
  { eapply Forall_impl; [apply np_zeros_class|].
    intros row Hrow. eapply Forall_impl; [exact Hrow|]. by right. }
  unfold get_raw_faceapi_labels.
  destruct (String.prefix _ _); by apply faceapi_loop_cells.
Qed.

(** X14. In the mode ["faceapi"] every label of the corpus is a class
    id in [0..6] or NaN (NaN is what an undefined entry writes when no
    defined entry precedes it in its file), and there are as many
    windows as labels. *)
Theorem faceapi_mode_corpus (rd : Reader) (parameters : dict)
    (raw_data : list sample) (raw_labels : list npfloat) :
  dict_get parameters "label_mode" (VStr (default_label_mode rd)) = VStr "faceapi" →
  get_raw_data rd parameters = Ok (raw_data, raw_labels) →
  Forall nan_or_class raw_labels ∧ length raw_data = length raw_labels.
Proof.
  intros Hmode. unfold get_raw_data. rewrite Hmode. unfold get_raw_labels.
  destruct (decide (VStr "faceapi" = VStr "expected")) as [?|_]; [done|].
  destruct (decide (VStr "faceapi" = VStr "faceapi")) as [_|?]; [|done].
  destruct (get_raw_faceapi_labels rd) as [faceapi|] eqn:Hf; [|done]. run_bind.
  destruct (as_int _) as [window|]; [|done]. run_bind.
  destruct (window <? 0); [done|].
  intros [Hlen Hall]%(participants_loop_ok rd _ nan_or_class).
  - simpl in *. split; [|done]. eapply Forall_impl; [exact Hall|]. by intros l [? _].
  - apply Forall_fmap. eapply Forall_impl; [by apply (faceapi_labels_cells rd)|].
    intros row Hrow. by apply py_slice_Forall.
  - by split.
Qed.

Lemma faceapi_mode_corpus_witness :
  ∃ raw_data raw_labels,
    get_raw_data (example_reader 4)
      (<["label_mode" := VStr "faceapi"]> (<["window" := VInt 1]> (<["hop" := VInt 1]> ∅)))
    = Ok (raw_data, raw_labels)
    ∧ Forall nan_or_class raw_labels.
Proof.
  eexists _, _. split; [reflexivity|].
  refine (proj1 (faceapi_mode_corpus (example_reader 4)
    (<["label_mode" := VStr "faceapi"]> (<["window" := VInt 1]> (<["hop" := VInt 1]> ∅)))
    _ _ _ _)).
  - reflexivity.
  - reflexivity.
Defined.

(** ** Shape of the windows *)

Lemma np_mask_Forall {A} (P : A → Prop) (a : list A) (mask : list bool) :
  Forall P a → Forall P (np_mask a mask).
Proof.
  intros Ha. revert mask. induction Ha as [|x a Hx _ IH]; intros [|b mask]; simpl;
    try constructor.
  destruct b; [constructor|]; auto.
Qed.

Lemma file_windows_hop rd all_labels part_id window hop h normalize file pd pl :
  as_int hop = Ok h →
  file_windows rd all_labels part_id window hop normalize file pd pl
  = file_windows rd all_labels part_id window (VInt h) normalize file pd pl.
Proof. intros Hh. unfold file_windows. by rewrite Hh. Qed.

Section window_shapes.
Variable rd : Reader.
Variable all_labels : list (list npfloat).
Variables w h : Z.
Variable hop : pyval.
Hypothesis window_nonneg : 0 ≤ w.
Hypothesis hop_int : as_int hop = Ok h.
Hypothesis hop_positive : 1 ≤ h.
Hypothesis five_columns :
  ∀ emotion part_id file row,
    watch_file rd emotion part_id = Some file → row ∈ file →
    length (Raw row) = 5%nat ∧ length (Norm row) = 5%nat.

Lemma file_windows_shape emotion part_id normalize file pd0 pl0 pd pl :
  watch_file rd emotion part_id = Some file →
  Forall (window_shape w) pd0 →
  file_windows rd all_labels part_id w hop normalize file pd0 pl0 = Ok (pd, pl) →
  Forall (window_shape w) pd.
Proof.
  intros Hfile Hpd0. rewrite (file_windows_hop _ _ _ _ _ h) by done.
  intros (labels & _ & -> & _)%file_windows_inv; [|lia].
  apply Forall_app. split; [done|]. apply Forall_fmap, Forall_fmap.
  apply Forall_forall. intros k Hk%elem_of_seq. simpl.
  assert (w + Z.of_nat k * h < Z.of_nat (length file)) as Hlt.
  { destruct Hk as [_ Hk]. apply Nat2Z.inj_lt in Hk.
    rewrite Nat.add_0_l, range_count_formula in Hk by lia.
    destruct (Z.of_nat (length file) <=? w); [lia|].
    pose proof (Z.mul_div_le (Z.of_nat (length file) - w - 1) h ltac:(lia)).
    nia. }
  set (second := Z.to_nat (w + Z.of_nat k * h)).
  replace (w + Z.of_nat k * h - w) with (Z.of_nat (second - Z.to_nat w)) by lia.
  replace (w + Z.of_nat k * h) with (Z.of_nat second) by lia.
  rewrite py_slice_inner by (rewrite length_fmap; lia). split.
  - rewrite length_take, length_drop, length_fmap. lia.
  - apply Forall_take, Forall_drop, Forall_fmap, Forall_forall.
    intros row Hrow. destruct (five_columns emotion part_id file row Hfile Hrow).
    simpl. by destruct normalize.
Qed.

Lemma emotions_loop_shape part_id normalize pd0 pl0 ems out :
  Forall (window_shape w) pd0 →
  emotions_loop rd all_labels part_id w hop normalize pd0 pl0 ems = Ok out →
  Forall (window_shape w) out.1.
Proof.
  revert pd0 pl0. induction ems as [|emotion ems IH]; intros pd0 pl0 H0; simpl.
  - by intros [= <-].
  - destruct (watch_file rd emotion part_id) as [file|] eqn:Hfile; [|by apply IH].
    destruct (file_windows _ _ _ _ _ _ _ _ _) as [[pd1 pl1]|] eqn:Hrun; [|done].
    run_bind. apply IH. by eapply file_windows_shape.
Qed.

Lemma participants_loop_shape normalize rd0 rl0 parts out :
  Forall (window_shape w) rd0 →
  participants_loop rd all_labels w hop normalize rd0 rl0 parts = Ok out →
  Forall (window_shape w) out.1.
Proof.
  revert rd0 rl0. induction parts as [|part_id parts IH]; intros rd0 rl0 H0; simpl.
  - by intros [= <-].
  - destruct (emotions_loop _ _ _ _ _ _ _ _ _) as [[pd pl]|] eqn:Hpart; [|done].
    run_bind. apply emotions_loop_shape in Hpart; [|constructor].
    destruct (_ =? 0); [by apply IH|]. apply IH.
    apply Forall_app. split; [done|]. by apply np_mask_Forall.
Qed.

End window_shapes.

Lemma get_input_shape_result (h : heap) (parameters : option loc) :
  (get_input_shape h parameters).2
  = (dict_get (dict_of h parameters) "window" (VInt 20), 5).
Proof.
  unfold get_input_shape.
  pose proof (or_empty_dict_content h parameters) as Hc.
  destruct (or_empty_dict h parameters) as [h1 l1]. simpl in Hc.
  cbn [snd]. by rewrite Hc.
Qed.

(** X15. Every window of the corpus has the shape [get_input_shape]
    reports for the same parameters: [window] rows of five cells, for an
    integer [window], a positive integer hop and files whose rows have
    the five feature columns. *)
Theorem samples_have_input_shape (rd : Reader) (h : heap)
    (parameters : option loc) (w hp : Z)
    (raw_data : list sample) (raw_labels : list npfloat) :
  (get_input_shape h parameters).2 = (VInt w, 5) →
  as_int (dict_get (dict_of h parameters) "hop" (VInt 5)) = Ok hp → 1 ≤ hp →
  (∀ emotion part_id file row,
     watch_file rd emotion part_id = Some file → row ∈ file →
     length (Raw row) = 5%nat ∧ length (Norm row) = 5%nat) →
  get_raw_data rd (dict_of h parameters) = Ok (raw_data, raw_labels) →
  Forall (window_shape w) raw_data.
Proof.
  rewrite get_input_shape_result. intros [= Hw] Hhop Hhp Hcols.
  unfold get_raw_data. rewrite Hw.
  destruct (get_raw_labels rd _) as [all_labels|]; [|done]. run_bind.
  cbn [as_int]. run_bind. destruct (Z.ltb_spec w 0) as [|Hw0]; [done|].
  intros Hrun.
  by apply (participants_loop_shape rd all_labels w hp _ Hw0 Hhop Hhp Hcols) in Hrun;
    [|constructor].
Qed.

Lemma samples_have_input_shape_witness :
  ∃ raw_data raw_labels,
    get_raw_data (example_reader 5) (<["window" := VInt 2]> (<["hop" := VInt 1]> ∅))
    = Ok (raw_data, raw_labels)
    ∧ Forall (window_shape 2) raw_data.
Proof.
  eexists _, _. split; [reflexivity|].
  refine (samples_have_input_shape (example_reader 5)
    (<[0%nat := <["window" := VInt 2]> (<["hop" := VInt 1]> ∅)]> ∅) (Some 0%nat)
    2 1 _ _ _ _ _ _ _).
  - reflexivity.
  - reflexivity.
  - lia.
  - intros emotion part_id file row. cbn [watch_file example_reader].
    destruct (decide _); [|done]. intros [= <-] Hrow.
    repeat (apply elem_of_cons in Hrow as [->|Hrow]; [done|]).
    by apply elem_of_nil in Hrow.
  - reflexivity.
Defined.

(** ** Empty corpora *)

Lemma participants_loop_window_0 rd all_labels hop normalize rd0 rl0 parts out :
  participants_loop rd all_labels 0 hop normalize rd0 rl0 parts = Ok out →
  out = (rd0, rl0).
Proof.
  induction parts as [|part_id parts IH]; simpl.
  - by intros [= <-].
  - destruct (emotions_loop _ _ _ _ _ _ _ _ _) as [[pd pl]|]; [|done]. run_bind.
    by rewrite Z.mul_0_r.
Qed.

Lemma emotions_loop_no_file rd all_labels part_id window hop normalize pd0 pl0 ems :
  (∀ emotion, watch_file rd emotion part_id = None) →
  emotions_loop rd all_labels part_id window hop normalize pd0 pl0 ems
  = Ok (pd0, pl0).
Proof.
  intros Hnone. induction ems as [|emotion ems IH]; simpl; [done|].
  by rewrite Hnone.
Qed.

Lemma participants_loop_no_file rd all_labels window hop normalize rd0 rl0 parts :
  (∀ emotion part_id, watch_file rd emotion part_id = None) →
  participants_loop rd all_labels window hop normalize rd0 rl0 parts
  = Ok (rd0, rl0).
Proof.
  intros Hnone. induction parts as [|part_id parts IH]; simpl; [done|].
  rewrite emotions_loop_no_file by done. run_bind. simpl. done.
Qed.

(** X16. A window length of 0, or a folder without any watch file,
    gives an empty corpus when [get_raw_data] returns: with
    [window = 0] all windows are discarded by the test on
    [part_data.size]. *)
Theorem empty_corpus (rd : Reader) (parameters : dict)
    (raw_data : list sample) (raw_labels : list npfloat) :
  as_int (dict_get parameters "window" (VInt 20)) = Ok 0
  ∨ (∀ emotion part_id, watch_file rd emotion part_id = None) →
  get_raw_data rd parameters = Ok (raw_data, raw_labels) →
  raw_data = [] ∧ raw_labels = [].
Proof.
  intros Hcase. unfold get_raw_data.
  destruct (get_raw_labels rd _) as [all_labels|]; [|done]. run_bind.
  destruct Hcase as [Hw|Hnone].
  - rewrite Hw. run_bind. change (0 <? 0) with false. cbv iota.
    intros [= -> ->]%participants_loop_window_0. done.
  - destruct (as_int _) as [window|]; [|done]. run_bind.
    destruct (window <? 0); [done|].
    rewrite participants_loop_no_file by done. by intros [= <- <-].
Qed.

Lemma empty_corpus_witness :
  get_raw_data (example_reader 5) (<["window" := VInt 0]> (<["hop" := VInt 1]> ∅))
  = Ok ([], []).
Proof.
  assert (∃ raw_data raw_labels,
    get_raw_data (example_reader 5) (<["window" := VInt 0]> (<["hop" := VInt 1]> ∅))
    = Ok (raw_data, raw_labels)) as (raw_data & raw_labels & Hrun).
  { eexists _, _. reflexivity. }
  destruct (empty_corpus (example_reader 5)
    (<["window" := VInt 0]> (<["hop" := VInt 1]> ∅)) raw_data raw_labels)
    as [-> ->].
  - left. reflexivity.
  - exact Hrun.
  - exact Hrun.
Defined.

(** ** Rotation of the folds *)

(** X17. The validation fold of one split is the test fold of the next:
    VAL for [cv_index = i] is the list TEST returns for
    [cv_index = (i + 1) mod K]. *)
Theorem val_is_next_test (raw_labels : list npfloat) (parameters next : dict)
    (K i : Z) :
  cv_splits_of parameters = Ok K → cv_index_of parameters = Ok i →
  cv_splits_of next = Ok K → cv_index_of next = Ok ((i + 1) `mod` K) →
  0 ≤ i ≤ K - 1 →
  get_cross_validation_indices raw_labels VAL parameters
  = get_cross_validation_indices raw_labels TEST next.
Proof.
  intros HK Hi HK' Hi' Hr.
  pose proof (Z.mod_pos_bound (i + 1) K ltac:(lia)) as Hb.
  rewrite (get_fold_selection _ VAL _ K i) by done.
  rewrite (get_fold_selection _ TEST _ K ((i + 1) `mod` K)) by (done || lia).
  do 2 f_equal. unfold selection, selected_folds, corrected_fold.
  assert (Z.to_nat (if (K - 1 - i) `mod` K =? 0 then K else (K - 1 - i) `mod` K)
          = Z.to_nat (K - (i + 1) `mod` K)) as ->; [|done].
  destruct (decide (i = K - 1)) as [->|Hne].
  - replace (K - 1 - (K - 1)) with 0 by lia. replace (K - 1 + 1) with K by lia.
    rewrite Z.mod_0_l, Z.mod_same by lia. simpl. f_equal. lia.
  - rewrite !Z.mod_small by lia.
    destruct (Z.eqb_spec (K - 1 - i) 0); [lia|]. f_equal. lia.
Qed.

Lemma val_is_next_test_witness :
  get_cross_validation_indices [Num 0; Num 0; Num 1; Num 0; Num 1; Num 0] VAL
    (<["cv_splits" := VInt 3]> (<["cv_index" := VInt 2]> ∅))
  = get_cross_validation_indices [Num 0; Num 0; Num 1; Num 0; Num 1; Num 0] TEST
      (<["cv_splits" := VInt 3]> ∅).
Proof.
  refine (val_is_next_test [Num 0; Num 0; Num 1; Num 0; Num 1; Num 0]
    (<["cv_splits" := VInt 3]> (<["cv_index" := VInt 2]> ∅))
    (<["cv_splits" := VInt 3]> ∅) 3 2 _ _ _ _ _).
  - reflexivity.
  - reflexivity.
  - reflexivity.
  - reflexivity.
  - lia.
Defined.

(** ** A hop that is not positive *)

Lemma py_index_beyond {A} (l : list A) (i : Z) :
  Z.of_nat (length l) ≤ i → py_index l i = Raise IndexError.
Proof.
  intros Hi. unfold py_index. destruct (Z.ltb_spec i 0) as [?|_]; [lia|].
  destruct (Z.ltb_spec i (Z.of_nat (length l))) as [?|_]; [lia|].
  by rewrite andb_false_r.
Qed.

Lemma range_loop_down fuel cur stop step :
  step < 0 →
  range_loop fuel cur stop step = []
  ∨ (stop < cur ∧ ∃ rest, range_loop fuel cur stop step = cur :: rest).
Proof.
  intros Hs. destruct fuel as [|fuel]; [by left|]. simpl.
  destruct (Z.ltb_spec 0 step) as [?|_]; [lia|].
  destruct (Z.ltb_spec stop cur); [|by left]. right. split; [done|]. by eexists.
Qed.

Lemma file_windows_no_hop rd all_labels part_id window hop h normalize file
    pd0 pl0 out :
  as_int hop = Ok h → h ≤ 0 →
  file_windows rd all_labels part_id window hop normalize file pd0 pl0 = Ok out →
  out = (pd0, pl0).
Proof.
  intros Hh Hle. unfold file_windows. rewrite Hh. run_bind. unfold py_range.
  destruct (Z.eqb_spec h 0) as [|Hne]; [done|]. run_bind.
  destruct (range_loop_down (Z.to_nat (Z.abs (Z.of_nat (length
              ((if normalize then Norm else Raw) <$> file)) - window)))
              window (Z.of_nat (length ((if normalize then Norm else Raw) <$> file)))
              h ltac:(lia)) as [->|(Hlt & rest & ->)].
  - by intros [= <-].
  - cbn [windows_loop]. unfold window_label.
    destruct (list_index _ _); [|done]. run_bind.
    assert (Z.of_nat (length (Second <$> file)) ≤ window) as Hbeyond.
    { rewrite length_fmap in Hlt. rewrite length_fmap. lia. }
    rewrite (py_index_beyond (Second <$> file) window Hbeyond). by run_bind.
Qed.

Lemma emotions_loop_no_hop rd all_labels part_id window hop h normalize
    pd0 pl0 ems out :
  as_int hop = Ok h → h ≤ 0 →
  emotions_loop rd all_labels part_id window hop normalize pd0 pl0 ems = Ok out →
  out = (pd0, pl0).
Proof.
  intros Hh Hle. induction ems as [|emotion ems IH]; simpl.
  - by intros [= <-].
  - destruct (watch_file rd emotion part_id) as [file|]; [|done].
    destruct (file_windows _ _ _ _ _ _ _ _ _) as [out1|] eqn:Hrun; [|done].
    apply (file_windows_no_hop _ _ _ _ _ h) in Hrun as ->; [|done..].
    run_bind. done.
Qed.

Lemma participants_loop_no_hop rd all_labels window hop h normalize
    rd0 rl0 parts out :
  as_int hop = Ok h → h ≤ 0 →
  participants_loop rd all_labels window hop normalize rd0 rl0 parts = Ok out →
  out = (rd0, rl0).
Proof.
  intros Hh Hle. induction parts as [|part_id parts IH]; simpl.
  - by intros [= <-].
  - destruct (emotions_loop _ _ _ _ _ _ _ _ _) as [out1|] eqn:Hrun; [|done].
    apply (emotions_loop_no_hop _ _ _ _ _ h) in Hrun as ->; [|done..].
    run_bind. done.
Qed.

(** X18. A hop of zero or less never gives a window: [range] refuses a
    zero step, and a descending range either is empty or starts beyond
    the end of the file, where reading the [Second] column fails. When
    [get_raw_data] returns for such a hop, the corpus is empty. *)
Theorem nonpositive_hop_corpus (rd : Reader) (parameters : dict) (h : Z)
    (raw_data : list sample) (raw_labels : list npfloat) :
  as_int (dict_get parameters "hop" (VInt 5)) = Ok h → h ≤ 0 →
  get_raw_data rd parameters = Ok (raw_data, raw_labels) →
  raw_data = [] ∧ raw_labels = [].
Proof.
  intros Hh Hle. unfold get_raw_data.
  destruct (get_raw_labels rd _) as [all_labels|]; [|done]. run_bind.
  destruct (as_int (dict_get parameters "window" _)) as [window|]; [|done]. run_bind.
  destruct (window <? 0); [done|].
  by intros [= -> ->]%(participants_loop_no_hop _ _ _ _ h).
Qed.

Lemma nonpositive_hop_corpus_witness :
  get_raw_data (example_reader 5) (<["window" := VInt 2]> (<["hop" := VInt (-1)]> ∅))
  = Ok ([], []).
Proof.
  assert (∃ raw_data raw_labels,
    get_raw_data (example_reader 5) (<["window" := VInt 2]> (<["hop" := VInt (-1)]> ∅))
    = Ok (raw_data, raw_labels)) as (raw_data & raw_labels & Hrun).
  { eexists _, _. reflexivity. }
  destruct (nonpositive_hop_corpus (example_reader 5)
    (<["window" := VInt 2]> (<["hop" := VInt (-1)]> ∅)) (-1) raw_data raw_labels)
    as [-> ->].
  - reflexivity.
  - lia.
  - exact Hrun.
  - exact Hrun.
Defined.
